(** * tiles_demo: Web Mercator XYZ tiles, grid rendering and the batch driver

    A shallow embedding of [tiles_demo.py].

    Conventions of the embedding
    - a Python [float] that is a number is a real number ([R]) and float
      arithmetic is exact: rounding is outside the model.  An [int] that
      meets a float (the tile size) converts to it exactly only within
      [2^53], which is why statements bound the tile size by it;
    - the floats that are not numbers (NaN, the infinities) are the type
      [pyfloat]; [latlon_to_tile_float] is [latlon_to_tile] on them;
    - a Python [int] is an integer ([Z]);
    - a Python exception is a value of [exn]; a function that may raise
      returns a [result];
    - the Pillow image is a record holding the canvas geometry and the list
      of drawing operations issued on it, in order;
    - what the machine decides (whether Pillow can allocate a canvas, whether
      a directory can be created, whether a file can be written) is a
      parameter of the functions that depend on it;
    - the console and the output directory are a [world] threaded through the
      batch driver. *)

From Stdlib Require Import Reals Machin ZArith List String Ascii Lra Lia Bool.
From Stdlib Require Import DecimalString DecimalPos DecimalZ.
Import ListNotations.

Local Open Scope string_scope.
Local Open Scope Z_scope.

(** ** Exceptions and results *)

Inductive exn : Type :=
| ValueError (msg : string)
| ZeroDivisionError (msg : string)
| OSError (msg : string)
| OverflowError (msg : string)
| MemoryError (msg : string).

(** [str(e)] *)
Definition exn_str (e : exn) : string :=
  match e with
  | ValueError m => m
  | ZeroDivisionError m => m
  | OSError m => m
  | OverflowError m => m
  | MemoryError m => m
  end.

Inductive result (A : Type) : Type :=
| Ok (a : A)
| Raise (e : exn).

Arguments Ok {A} a.
Arguments Raise {A} e.

Definition bind {A B : Type} (r : result A) (k : A -> result B) : result B :=
  match r with
  | Ok a => k a
  | Raise e => Raise e
  end.

Notation "x <- r ;; k" := (bind r (fun x => k))
  (at level 61, r at next level, right associativity).
Notation "' p <- r ;; k" := (bind r (fun p => k))
  (at level 61, p pattern, r at next level, right associativity).

Definition is_ok {A : Type} (r : result A) : Prop :=
  exists a, r = Ok a.

Definition is_value_error {A : Type} (r : result A) : Prop :=
  exists m, r = Raise (ValueError m).

(** ** The Python primitives the program uses *)

Module Py.

(** [str(i)] for an [int] *)
Definition str (i : Z) : string := NilZero.string_of_int (Z.to_int i).

(** builtin [min(a, b)]: the second argument wins only when strictly smaller *)
Definition minR (a b : R) : R := if Rlt_dec b a then b else a.
(** builtin [max(a, b)]: the second argument wins only when strictly greater *)
Definition maxR (a b : R) : R := if Rlt_dec a b then b else a.
Definition minZ (a b : Z) : Z := if b <? a then b else a.
Definition maxZ (a b : Z) : Z := if a <? b then b else a.

(** [math.floor] *)
Definition floor (x : R) : Z := Zfloor x.

(** [int(x)] for a float: truncation toward zero *)
Definition int (x : R) : Z :=
  if Rle_dec 0 x then Zfloor x else - Zfloor (- x).

(** [math.radians], [math.degrees] *)
Definition radians (x : R) : R := (x * (PI / 180))%R.
Definition degrees (x : R) : R := (x * (180 / PI))%R.

(** [math.log]: raises on a non-positive argument *)
Definition log (x : R) : result R :=
  if Rle_dec x 0 then Raise (ValueError "math domain error") else Ok (ln x).

(** float division: raises on a zero divisor *)
Definition fdiv (a b : R) : result R :=
  if Req_dec_T b 0 then Raise (ZeroDivisionError "float division by zero")
  else Ok (a / b)%R.

(** [a % b] on [int]: the sign of the result follows the divisor *)
Definition imod (a b : Z) : result Z :=
  if b =? 0 then Raise (ZeroDivisionError "integer modulo by zero")
  else Ok (a mod b).

End Py.

(** ** Geo <-> tiles *)

(** Limit of the Web Mercator latitude range, as written in the source. *)
Definition MAX_LAT : R := 85.05112878%R.

Definition clamp_lat (lat : R) : R :=
  Py.maxR (Py.minR lat MAX_LAT) (- MAX_LAT)%R.

Definition lon_error : string :=
  "Долгота должна быть в диапазоне [-180, 180].".
Definition zoom_error : string :=
  "Уровень масштабирования z должен быть в диапазоне [0, 22].".

Definition default_tile_size : Z := 256.

(** [latlon_to_tile(lat, lon, z, tile_size)]: the tile [(x, y)] holding the
    point and the pixel [(px, py)] of the point inside that tile.

    The floats are real numbers here.  This is the source's function for a
    latitude and a longitude that are numbers and for a tile size within
    [2^53] in absolute value, which Python converts to a float exactly
    (beyond, the conversion rounds, and raises [OverflowError] once the
    tile size leaves the range of the floats).  The rounding of the
    arithmetic itself is not modelled.  [latlon_to_tile_float] adds the
    arguments that are not numbers. *)
Definition latlon_to_tile (lat lon : R) (z : Z) (tile_size : Z)
  : result (Z * Z * Z * Z) :=
  let lat := clamp_lat lat in
  if negb (if Rle_dec (-180) lon then if Rle_dec lon 180 then true else false else false)
  then Raise (ValueError lon_error)
  else if negb ((0 <=? z) && (z <=? 22))
  then Raise (ValueError zoom_error)
  else
    let n := 2 ^ z in
    let lat_rad := Py.radians lat in
    let x_norm := ((lon + 180) / 360)%R in
    sec <- Py.fdiv 1 (cos lat_rad) ;;
    lg <- Py.log (tan lat_rad + sec)%R ;;
    let y_norm := ((1 - lg / PI) / 2)%R in
    let x_tile := Py.floor (x_norm * IZR n)%R in
    let y_tile := Py.floor (y_norm * IZR n)%R in
    let x_px_total := (x_norm * IZR n * IZR tile_size)%R in
    let y_px_total := (y_norm * IZR n * IZR tile_size)%R in
    px_in_tile <- Py.imod (Py.int x_px_total) tile_size ;;
    py_in_tile <- Py.imod (Py.int y_px_total) tile_size ;;
    let x_tile := Py.maxZ 0 (Py.minZ x_tile (n - 1)) in
    let y_tile := Py.maxZ 0 (Py.minZ y_tile (n - 1)) in
    Ok (x_tile, y_tile, px_in_tile, py_in_tile).

(** *** Arguments that are not numbers *)

(** The values of a Python [float]. *)
Inductive pyfloat : Type :=
| Fin (r : R)
| PosInf
| NegInf
| NaN.

(** [clamp_lat] on every float: [min] and [max] keep their first argument
    unless the comparison with the second one holds, and every comparison
    with NaN is false. *)
Definition clamp_lat_float (lat : pyfloat) : pyfloat :=
  match lat with
  | Fin r => Fin (clamp_lat r)
  | PosInf => Fin MAX_LAT
  | NegInf => Fin (- MAX_LAT)%R
  | NaN => NaN
  end.

(** [-180.0 <= lon <= 180.0] *)
Definition lon_in_range (lon : pyfloat) : Prop :=
  match lon with
  | Fin r => (-180 <= r <= 180)%R
  | _ => False
  end.

(** The message of [math.floor] on NaN. *)
Definition nan_to_int_error : string := "cannot convert float NaN to integer".

(** [latlon_to_tile] on every float.  The clamp never raises; a longitude
    that is not a number fails the longitude check; a NaN latitude passes
    both checks, goes through [tan], [cos], [log] and the products as NaN,
    and [math.floor] raises on it (line 51, before the pixel modulo); every
    other latitude is a number once clamped, and clamping it again changes
    nothing. *)
Definition latlon_to_tile_float (lat lon : pyfloat) (z tile_size : Z)
  : result (Z * Z * Z * Z) :=
  let lat := clamp_lat_float lat in
  match lon with
  | Fin lon_r =>
      match lat with
      | Fin lat_r => latlon_to_tile lat_r lon_r z tile_size
      | _ =>
          if negb (if Rle_dec (-180) lon_r
                   then if Rle_dec lon_r 180 then true else false else false)
          then Raise (ValueError lon_error)
          else if negb ((0 <=? z) && (z <=? 22))
          then Raise (ValueError zoom_error)
          else Raise (ValueError nan_to_int_error)
      end
  | _ => Raise (ValueError lon_error)
  end.

(** The normalised coordinates [x_norm] and [y_norm] that [latlon_to_tile]
    computes once its checks have passed. *)
Definition x_norm_of (lon : R) : R := ((lon + 180) / 360)%R.

Definition y_norm_of (lat : R) : R :=
  let lat_rad := Py.radians (clamp_lat lat) in
  ((1 - ln (tan lat_rad + 1 / cos lat_rad) / PI) / 2)%R.

(** What the projection promises about a result: it is a tile of zoom [z]
    and a pixel of a [tile_size]-wide tile. *)
Definition in_tile_range (z tile_size : Z) (r : result (Z * Z * Z * Z)) : Prop :=
  exists x y px py : Z,
    r = Ok (x, y, px, py)
    /\ 0 <= x < 2 ^ z /\ 0 <= y < 2 ^ z
    /\ 0 <= px < tile_size /\ 0 <= py < tile_size.

(** [2 ** z]: an [int] for [z >= 0] and a float for [z < 0]; both are the
    real number [2^z]. *)
Definition pow2 (z : Z) : R := powerRZ 2 z.

Definition lon_deg (n : R) (tx : Z) : R :=
  (IZR tx / n * 360 - 180)%R.

Definition lat_deg (n : R) (ty : Z) : R :=
  let yv := (PI * (1 - 2 * IZR ty / n))%R in
  Py.degrees (atan (sinh yv)).

(** [tile_to_bounds(x, y, z)]: [(lon_min, lat_min, lon_max, lat_max)].

    This is the source's function on the tiles of a zoom level
    ([0 <= x, y <= 2^z], [z >= 0]).  On the reals it is defined everywhere;
    the source's floats are not: far outside the rows of the zoom
    [math.sinh] overflows, and [2 ** z] underflows to zero for a very
    negative [z]. *)
Definition tile_to_bounds (x y z : Z) : R * R * R * R :=
  let n := pow2 z in
  let lon_min := lon_deg n x in
  let lon_max := lon_deg n (x + 1) in
  let lat_min := lat_deg n (y + 1) in
  let lat_max := lat_deg n y in
  (lon_min, lat_min, lon_max, lat_max).

(** The centre of a rectangle [(lon_min, lat_min, lon_max, lat_max)], as
    [(lat, lon)]. *)
Definition bounds_center (b : R * R * R * R) : R * R :=
  let '(lon_min, lat_min, lon_max, lat_max) := b in
  (((lat_min + lat_max) / 2)%R, ((lon_min + lon_max) / 2)%R).

(** ** Rendering *)

Definition color : Type := Z * Z * Z.

Definition white : color := (255, 255, 255).
Definition black : color := (0, 0, 0).
Definition marker_red : color := (220, 0, 0).

(** The font [try_load_font(size)] returns: the first candidate file that
    exists and loads, else Pillow's built-in one.  Which one is chosen depends
    on the machine; the call itself never raises. *)
Inductive font : Type :=
| LoadedFont (size : Z).

Definition try_load_font (size : Z) : font := LoadedFont size.

(** The text handed to [draw.text].  The caption interpolates two floats with
    [:.6f]; it is kept as the tuple of the interpolated values. *)
Inductive text : Type :=
| Str (s : string)
| Header (lat lon : R) (z x_c y_c px py tile_size : Z).

Inductive draw_op : Type :=
| DrawLine (x0 y0 x1 y1 : Z) (fill : color) (width : Z)
| DrawText (x y : Z) (t : text) (fill : color) (f : font)
| DrawEllipse (x0 y0 x1 y1 : Z) (fill outline : color).

Record Image : Type := mkImage {
  im_mode : string;
  im_width : Z;
  im_height : Z;
  im_background : color;
  im_ops : list draw_op
}.

(** [Image.new(mode, (width, height), color)]: Pillow refuses a negative
    side; whether it can allocate a canvas of a given size is decided by the
    library and the machine ([canvas_error width height] is the exception
    it raises, if any: a side of [2^31] pixels or a canvas that does not fit
    in memory, for instance). *)
Definition Image_new (canvas_error : Z -> Z -> option exn)
  (mode : string) (width height : Z) (bg : color) : result Image :=
  if (width <? 0) || (height <? 0)
  then Raise (ValueError "Width and height must be >= 0")
  else match canvas_error width height with
       | Some e => Raise e
       | None => Ok (mkImage mode width height bg [])
       end.

(** One call on the [ImageDraw] of the image. *)
Definition draw (img : Image) (op : draw_op) : Image :=
  mkImage (im_mode img) (im_width img) (im_height img) (im_background img)
          (im_ops img ++ [op]).

(** [range(k)] *)
Definition range (k : Z) : list Z :=
  map Z.of_nat (seq 0 (Z.to_nat k)).

Definition newline : string := String (ascii_of_nat 10) EmptyString.

(** [f"X={xt}  Y={yt}\nZ={z}"] *)
Definition label_text (xt yt z : Z) : string :=
  ("X=" ++ Py.str xt ++ "  Y=" ++ Py.str yt ++ newline ++ "Z=" ++ Py.str z)%string.

Definition grid_error : string :=
  "grid должен быть нечётным положительным числом, например 3 или 5.".

(** The two grid lines drawn at step [i] of the first loop. *)
Definition draw_grid_lines (tile_size width height : Z) (img : Image) (i : Z)
  : Image :=
  let x := i * tile_size in
  let img := draw img (DrawLine x 0 x height black 1) in
  let y := i * tile_size in
  draw img (DrawLine 0 y width y black 1).

(** The label drawn for the cell [(gx, gy)]. *)
Definition draw_label (x_c y_c z half tile_size : Z) (f : font) (gy : Z)
  (img : Image) (gx : Z) : Image :=
  let xt := x_c + (gx - half) in
  let yt := y_c + (gy - half) in
  let txt := label_text xt yt z in
  let tx := gx * tile_size + 6 in
  let ty := gy * tile_size + 6 in
  draw img (DrawText tx ty (Str txt) black f).

(** [draw_grid(lat, lon, z, grid, tile_size)] *)
Definition draw_grid (canvas_error : Z -> Z -> option exn)
  (lat lon : R) (z grid tile_size : Z) : result Image :=
  if (grid mod 2 =? 0) || (grid <? 1)
  then Raise (ValueError grid_error)
  else
    '(x_c, y_c, px, py) <- latlon_to_tile lat lon z tile_size ;;
    let half := grid / 2 in
    let width := grid * tile_size in
    let height := grid * tile_size in
    img <- Image_new canvas_error "RGB" width height white ;;
    let font := try_load_font 14 in
    let font_big := try_load_font 18 in
    let img :=
      fold_left (draw_grid_lines tile_size width height) (range (grid + 1)) img in
    let img :=
      fold_left
        (fun img gy =>
           fold_left (draw_label x_c y_c z half tile_size font gy) (range grid) img)
        (range grid) img in
    let cx := half * tile_size + px in
    let cy := half * tile_size + py in
    let r := 4 in
    let img :=
      draw img (DrawEllipse (cx - r) (cy - r) (cx + r) (cy + r) marker_red black) in
    let header := Header lat lon z x_c y_c px py tile_size in
    let img := draw img (DrawText 10 (height - 40) header black font_big) in
    Ok img.

(** Several calls on the [ImageDraw] of the image, in order. *)
Definition draw_all (img : Image) (new_ops : list draw_op) : Image :=
  mkImage (im_mode img) (im_width img) (im_height img) (im_background img)
          (im_ops img ++ new_ops).

(** The cell labels of an image: position and string of every plain-string
    text drawn on it, in drawing order. *)
Definition labels_of (img : Image) : list (Z * Z * string) :=
  flat_map
    (fun op =>
       match op with
       | DrawText x y (Str s) _ _ => [(x, y, s)]
       | _ => []
       end)
    (im_ops img).

(** The operations each loop of [draw_grid] issues. *)
Definition grid_line_ops (grid tile_size : Z) : list draw_op :=
  flat_map
    (fun i =>
       [DrawLine (i * tile_size) 0 (i * tile_size) (grid * tile_size) black 1;
        DrawLine 0 (i * tile_size) (grid * tile_size) (i * tile_size) black 1])
    (range (grid + 1)).

Definition label_op (x_c y_c z half tile_size gy gx : Z) : draw_op :=
  DrawText (gx * tile_size + 6) (gy * tile_size + 6)
           (Str (label_text (x_c + (gx - half)) (y_c + (gy - half)) z))
           black (try_load_font 14).

Definition label_ops (x_c y_c z grid tile_size : Z) : list draw_op :=
  flat_map
    (fun gy => map (label_op x_c y_c z (grid / 2) tile_size gy) (range grid))
    (range grid).

(** The label of each cell as [draw_grid] places it: position and string, in
    drawing order. *)
Definition cell_labels (x_c y_c z grid tile_size : Z) : list (Z * Z * string) :=
  flat_map
    (fun gy =>
       map (fun gx =>
              (gx * tile_size + 6, gy * tile_size + 6,
               label_text (x_c + (gx - grid / 2)) (y_c + (gy - grid / 2)) z))
           (range grid))
    (range grid).

(** ** The batch driver *)

(** What the driver acts on: the lines printed so far, the directories
    created and the files written, each in order. *)
Record world : Type := mkWorld {
  console : list string;
  dirs : list string;
  files : list (string * Image)
}.

(** A statement that reads and changes the world and may raise; what was done
    before the exception stays done. *)
Definition io (A : Type) : Type := world -> result A * world.

Definition io_ret {A : Type} (a : A) : io A := fun w => (Ok a, w).

Definition io_bind {A B : Type} (m : io A) (k : A -> io B) : io B :=
  fun w =>
    match m w with
    | (Ok a, w1) => k a w1
    | (Raise e, w1) => (Raise e, w1)
    end.

Definition io_lift {A : Type} (r : result A) : io A := fun w => (r, w).

(** [try: body except Exception as e: handler(e)] *)
Definition io_try (body : io unit) (handler : exn -> io unit) : io unit :=
  fun w =>
    match body w with
    | (Ok tt, w1) => (Ok tt, w1)
    | (Raise e, w1) => handler e w1
    end.

Notation "x <-- m ;;; k" := (io_bind m (fun x => k))
  (at level 61, m at next level, right associativity).
Notation "' p <-- m ;;; k" := (io_bind m (fun p => k))
  (at level 61, p pattern, m at next level, right associativity).

Definition print (line : string) : io unit :=
  fun w => (Ok tt, mkWorld (console w ++ [line]) (dirs w) (files w)).

Fixpoint ends_with_slash (s : string) : bool :=
  match s with
  | EmptyString => false
  | String c EmptyString => Ascii.eqb c "/"%char
  | String _ rest => ends_with_slash rest
  end.

(** [os.path.join(a, b)] for a relative [b] (POSIX). *)
Definition os_path_join (a b : string) : string :=
  match a with
  | EmptyString => b
  | _ => if ends_with_slash a then (a ++ b)%string else (a ++ "/" ++ b)%string
  end.

Definition ok_line (z : Z) (out_path : string) (x y px py : Z) : string :=
  ("[OK] Z=" ++ Py.str z ++ ": сохранено " ++ out_path
   ++ " | tile=(" ++ Py.str x ++ "," ++ Py.str y
   ++ ") px=(" ++ Py.str px ++ "," ++ Py.str py ++ ")")%string.

Definition error_line (z : Z) (e : exn) : string :=
  ("[ERROR] Не удалось построить изображение для Z=" ++ Py.str z
   ++ ": " ++ exn_str e)%string.

Definition out_path_of (out_dir : string) (z : Z) : string :=
  os_path_join out_dir ("grid_z" ++ Py.str z ++ ".png")%string.

(** ** The command line *)

(** The namespace [parse_args] returns. *)
Record Args : Type := mkArgs {
  arg_lat : R;
  arg_lon : R;
  arg_zooms : list Z;
  arg_grid : Z;
  arg_tile_size : Z;
  arg_out : string
}.

(** [for z in args.zooms: if z < 0 or z > 22: raise ...] *)
Fixpoint check_zooms (zooms : list Z) : result unit :=
  match zooms with
  | [] => Ok tt
  | z :: rest =>
      if (z <? 0) || (22 <? z)
      then Raise (ValueError "Элемент в --zooms должен быть в диапазоне [0..22].")
      else check_zooms rest
  end.

(** The first [try] block of [main]. *)
Definition validate_args (a : Args) : result unit :=
  if negb (if Rle_dec (-180) (arg_lon a)
           then if Rle_dec (arg_lon a) 180 then true else false else false)
  then Raise (ValueError "Аргумент --lon вне диапазона [-180, 180].")
  else if negb (if Rle_dec (-90) (arg_lat a)
                then if Rle_dec (arg_lat a) 90 then true else false else false)
  then Raise (ValueError "Аргумент --lat вне диапазона [-90, 90].")
  else if (arg_grid a <? 1) || (arg_grid a mod 2 =? 0)
  then Raise (ValueError
                "Аргумент --grid должен быть положительным нечётным числом (напр., 3 или 5).")
  else if (arg_tile_size a <? 8) || (2048 <? arg_tile_size a)
  then Raise (ValueError
                "Аргумент --tile-size должен быть в разумном диапазоне [8..2048].")
  else check_zooms (arg_zooms a).

Section Driver.

(** The machine as the driver sees it: whether creating a directory fails,
    whether Pillow refuses a canvas, whether writing a PNG at a path fails,
    and with which exception. *)
Variable makedirs_error : string -> option exn.
Variable canvas_error : Z -> Z -> option exn.
Variable save_error : string -> option exn.

(** [os.makedirs(out_dir, exist_ok=True)] *)
Definition os_makedirs (d : string) : io unit :=
  fun w =>
    match makedirs_error d with
    | Some e => (Raise e, w)
    | None => (Ok tt, mkWorld (console w) (dirs w ++ [d]) (files w))
    end.

(** [img.save(out_path, format="PNG")] *)
Definition img_save (img : Image) (out_path : string) : io unit :=
  fun w =>
    match save_error out_path with
    | Some e => (Raise e, w)
    | None =>
        (Ok tt, mkWorld (console w) (dirs w) (files w ++ [(out_path, img)]))
    end.

(** The body of the loop of [render_zooms] for one zoom level. *)
Definition render_zoom (lat lon : R) (grid tile_size : Z) (out_dir : string)
  (z : Z) : io unit :=
  io_try
    (img <-- io_lift (draw_grid canvas_error lat lon z grid tile_size) ;;;
     let out_path := out_path_of out_dir z in
     _ <-- img_save img out_path ;;;
     '(x, y, px, py) <-- io_lift (latlon_to_tile lat lon z tile_size) ;;;
     print (ok_line z out_path x y px py))
    (fun e => print (error_line z e)).

(** [for z in zooms: ...] *)
Fixpoint for_zooms (body : Z -> io unit) (zooms : list Z) : io unit :=
  match zooms with
  | [] => io_ret tt
  | z :: rest => _ <-- body z ;;; for_zooms body rest
  end.

(** [render_zooms(lat, lon, zooms, grid, tile_size, out_dir)] *)
Definition render_zooms (lat lon : R) (zooms : list Z) (grid tile_size : Z)
  (out_dir : string) : io unit :=
  _ <-- os_makedirs out_dir ;;;
  for_zooms (render_zoom lat lon grid tile_size out_dir) zooms.

(** [main()], from the parsed arguments on. *)
Definition main (a : Args) : io unit :=
  fun w =>
    match validate_args a with
    | Raise e => print ("[ERROR] Некорректные аргументы: " ++ exn_str e) w
    | Ok _ =>
        io_try
          (render_zooms (arg_lat a) (arg_lon a) (arg_zooms a) (arg_grid a)
                        (arg_tile_size a) (arg_out a))
          (fun e =>
             print ("[ERROR] Во время рендера произошла ошибка: " ++ exn_str e))
          w
    end.

End Driver.

(** What one pass of the loop of [render_zooms] adds to the world: the line
    printed and the files written. *)
Definition zoom_outcome (canvas_error : Z -> Z -> option exn)
  (save_error : string -> option exn) (lat lon : R)
  (grid tile_size : Z) (out_dir : string) (z : Z)
  : string * list (string * Image) :=
  match draw_grid canvas_error lat lon z grid tile_size with
  | Raise e => (error_line z e, [])
  | Ok img =>
      let out_path := out_path_of out_dir z in
      match save_error out_path with
      | Some e => (error_line z e, [])
      | None =>
          match latlon_to_tile lat lon z tile_size with
          | Ok (x, y, px, py) =>
              (ok_line z out_path x y px py, [(out_path, img)])
          | Raise e => (error_line z e, [(out_path, img)])
          end
      end
  end.

(** The two kinds of console line, as the text on the console. *)
Definition is_ok_line_for (z : Z) (line : string) : Prop :=
  exists (path : string) (x y px py : Z),
    line = ("[OK] Z=" ++ Py.str z ++ ": сохранено " ++ path
            ++ " | tile=(" ++ Py.str x ++ "," ++ Py.str y
            ++ ") px=(" ++ Py.str px ++ "," ++ Py.str py ++ ")")%string.

Definition is_error_line_for (z : Z) (line : string) : Prop :=
  exists msg : string,
    line = ("[ERROR] Не удалось построить изображение для Z=" ++ Py.str z
            ++ ": " ++ msg)%string.

Definition zoom_in_range (z : Z) : bool := (0 <=? z) && (z <=? 22).

(** ** Auxiliary quantities of the numerical bounds *)

(** The factorial as an integer. *)
Fixpoint Zfact (n : nat) : Z :=
  match n with
  | O => 1
  | S k => Z.of_nat (S k) * Zfact k
  end.

(** The general term of the exponential series, without its sign. *)
Definition exp_term (q : R) (k : nat) : R := (q ^ k / INR (fact k))%R.

(** The angular distance (radians) from [MAX_LAT] to the pole, and a
    rational number just above it. *)
Definition pole_gap : R := (PI * ((90 - MAX_LAT) / 180))%R.
Definition pole_gap_hi : R := 0.0863740970461889%R.

(** The Mercator ordinate [ln(tan t + 1 / cos t)] of the angle [t]. *)
Definition mercator (t : R) : R := ln (tan t + 1 / cos t).

(** The centre of the tile [(x, y)] of zoom [z]. *)
Definition center_lat (x y z : Z) : R :=
  fst (bounds_center (tile_to_bounds x y z)).
Definition center_lon (x y z : Z) : R :=
  snd (bounds_center (tile_to_bounds x y z)).

(** The other operations of an image, by kind and in drawing order: the end
    points of the lines, the bounding boxes of the ellipses, and position and
    content of the captions (the texts that are not plain strings). *)
Definition lines_of (img : Image) : list (Z * Z * Z * Z) :=
  flat_map
    (fun op =>
       match op with
       | DrawLine x0 y0 x1 y1 _ _ => [(x0, y0, x1, y1)]
       | _ => []
       end)
    (im_ops img).

Definition ellipses_of (img : Image) : list (Z * Z * Z * Z) :=
  flat_map
    (fun op =>
       match op with
       | DrawEllipse x0 y0 x1 y1 _ _ => [(x0, y0, x1, y1)]
       | _ => []
       end)
    (im_ops img).

Definition captions_of (img : Image) : list (Z * Z * text) :=
  flat_map
    (fun op =>
       match op with
       | DrawText x y (Header la lo z xc yc px py ts) _ _ =>
           [(x, y, Header la lo z xc yc px py ts)]
       | _ => []
       end)
    (im_ops img).

(** ** Font lookup with the file system made explicit *)

(** The candidate files of [try_load_font], in the order they are tried. *)
Definition font_candidates : list string :=
  ["/usr/share/fonts/truetype/dejavu/DejaVuSansMono.ttf";
   "/usr/share/fonts/truetype/dejavu/DejaVuSans.ttf";
   "C:\Windows\Fonts\consola.ttf";
   "C:\Windows\Fonts\arial.ttf"]%string.

(** Where a font comes from: a TrueType file at a size, or
    [ImageFont.load_default()]. *)
Inductive font_source : Type :=
| FontFile (path : string) (size : Z)
| BuiltinFont.

Section FontLookup.

(** [os.path.exists(path)], and [ImageFont.truetype(path, size)]: the font,
    or the exception it raises. *)
Variable path_exists : string -> bool.
Variable truetype : string -> Z -> result font_source.

(** The [for path in candidates] loop of [try_load_font]. *)
Fixpoint first_font (candidates : list string) (size : Z) : font_source :=
  match candidates with
  | [] => BuiltinFont
  | path :: rest =>
      if path_exists path
      then match truetype path size with
           | Ok f => f
           | Raise _ => first_font rest size
           end
      else first_font rest size
  end.

(** [try_load_font(size)] on a machine described by [path_exists] and
    [truetype]. *)
Definition try_load_font_on (size : Z) : font_source :=
  first_font font_candidates size.

End FontLookup.

(** Whether a candidate is usable: the file exists and loads. *)
Definition font_usable (path_exists : string -> bool)
  (truetype : string -> Z -> result font_source) (size : Z) (path : string)
  : Prop :=
  path_exists path = true /\ exists f, truetype path size = Ok f.

(** ** Strings of digits *)

(** The characters [str] produces for an [int]. *)
Definition numeric_char (c : ascii) : bool :=
  match c with
  | "-"%char | "0"%char | "1"%char | "2"%char | "3"%char | "4"%char
  | "5"%char | "6"%char | "7"%char | "8"%char | "9"%char => true
  | _ => false
  end.

Fixpoint numeric_string (s : string) : bool :=
  match s with
  | EmptyString => true
  | String c rest => numeric_char c && numeric_string rest
  end.

(** * Properties *)

Local Open Scope R_scope.

Example str_neg : Py.str (-12) = "-12"%string. Proof. reflexivity. Qed.
Example str_zero : Py.str 0 = "0"%string. Proof. reflexivity. Qed.
Example label_text_ex :
  label_text (-1) 1 0 = ("X=-1  Y=1" ++ newline ++ "Z=0")%string.
Proof. reflexivity. Qed.
Example out_path_ex : out_path_of "./out" 5 = "./out/grid_z5.png"%string.
Proof. reflexivity. Qed.

(** ** Python's [min]/[max] agree with the order *)

Lemma minR_spec (a b : R) : Py.minR a b = Rmin a b.
Proof.
  unfold Py.minR, Rmin.
  destruct (Rlt_dec b a), (Rle_dec a b); lra.
Qed.

Lemma maxR_spec (a b : R) : Py.maxR a b = Rmax a b.
Proof.
  unfold Py.maxR, Rmax.
  destruct (Rlt_dec a b), (Rle_dec a b); lra.
Qed.

Lemma minZ_spec (a b : Z) : Py.minZ a b = Z.min a b.
Proof. unfold Py.minZ. destruct (Z.ltb_spec b a); lia. Qed.

Lemma maxZ_spec (a b : Z) : Py.maxZ a b = Z.max a b.
Proof. unfold Py.maxZ. destruct (Z.ltb_spec a b); lia. Qed.

Lemma clamp_index_range (t n : Z) :
  (1 <= n)%Z -> (0 <= Py.maxZ 0 (Py.minZ t (n - 1)) < n)%Z.
Proof. intros Hn. rewrite maxZ_spec, minZ_spec. lia. Qed.

Lemma clamp_index_id (t n : Z) :
  (0 <= t < n)%Z -> Py.maxZ 0 (Py.minZ t (n - 1)) = t.
Proof. intros Ht. rewrite maxZ_spec, minZ_spec. lia. Qed.

(** ** [clamp_lat] *)

Lemma MAX_LAT_bounds : 85 < MAX_LAT < 90.
Proof. unfold MAX_LAT. lra. Qed.

Lemma clamp_lat_range (v : R) : - MAX_LAT <= clamp_lat v <= MAX_LAT.
Proof.
  unfold clamp_lat, Py.maxR, Py.minR.
  pose proof MAX_LAT_bounds.
  destruct (Rlt_dec MAX_LAT v); destruct (Rlt_dec _ (- MAX_LAT)); lra.
Qed.

Lemma clamp_lat_inside (v : R) :
  - MAX_LAT <= v <= MAX_LAT -> clamp_lat v = v.
Proof.
  intros Hv. unfold clamp_lat, Py.maxR, Py.minR.
  destruct (Rlt_dec MAX_LAT v); destruct (Rlt_dec _ (- MAX_LAT)); lra.
Qed.

(** C9. [clamp_lat] is a total function on the reals whose value lies in
    [[-85.05112878, 85.05112878]], and clamping twice is clamping once. *)
Theorem clamp_lat_idempotent_in_range (v : R) :
  clamp_lat (clamp_lat v) = clamp_lat v
  /\ -85.05112878 <= clamp_lat v <= 85.05112878.
Proof.
  split.
  - apply clamp_lat_inside, clamp_lat_range.
  - pose proof (clamp_lat_range v) as H. unfold MAX_LAT in H. lra.
Qed.

(** ** [latlon_to_tile]: when it returns, and what *)

Lemma lat_rad_range (v : R) :
  - (PI / 2) < Py.radians (clamp_lat v) < PI / 2.
Proof.
  pose proof (clamp_lat_range v) as Hc.
  pose proof MAX_LAT_bounds as Hm.
  pose proof PI_RGT_0 as Hpi.
  unfold Py.radians. split; nra.
Qed.

Lemma sin_gt_minus_1 (t : R) : - (PI / 2) < t < PI / 2 -> -1 < sin t.
Proof.
  intros [Hlo Hhi].
  replace (-1) with (sin (- (PI / 2))) by (rewrite sin_neg, sin_PI2; lra).
  apply sin_increasing_1; lra.
Qed.

Lemma tan_plus_sec_pos (t : R) :
  - (PI / 2) < t < PI / 2 -> 0 < tan t + 1 / cos t.
Proof.
  intros Ht.
  assert (Hc : 0 < cos t) by (apply cos_gt_0; lra).
  pose proof (sin_gt_minus_1 t Ht) as Hs.
  unfold tan.
  replace (sin t / cos t + 1 / cos t) with ((sin t + 1) / cos t)
    by (field; lra).
  apply Rdiv_lt_0_compat; lra.
Qed.

Lemma lon_check_true (lon : R) :
  -180 <= lon <= 180 ->
  (if Rle_dec (-180) lon then if Rle_dec lon 180 then true else false else false)
  = true.
Proof.
  intros [H1 H2].
  destruct (Rle_dec (-180) lon); [ | lra ].
  destruct (Rle_dec lon 180); [ reflexivity | lra ].
Qed.

Lemma lon_check_false (lon : R) :
  lon < -180 \/ 180 < lon ->
  (if Rle_dec (-180) lon then if Rle_dec lon 180 then true else false else false)
  = false.
Proof.
  intros H.
  destruct (Rle_dec (-180) lon); [ | reflexivity ].
  destruct (Rle_dec lon 180); [ lra | reflexivity ].
Qed.

Lemma latlon_to_tile_eq (lat lon : R) (z ts : Z) :
  -180 <= lon <= 180 -> (0 <= z <= 22)%Z -> ts <> 0%Z ->
  latlon_to_tile lat lon z ts =
  Ok (Py.maxZ 0 (Py.minZ (Py.floor (x_norm_of lon * IZR (2 ^ z))) (2 ^ z - 1)),
      Py.maxZ 0 (Py.minZ (Py.floor (y_norm_of lat * IZR (2 ^ z))) (2 ^ z - 1)),
      (Py.int (x_norm_of lon * IZR (2 ^ z) * IZR ts) mod ts)%Z,
      (Py.int (y_norm_of lat * IZR (2 ^ z) * IZR ts) mod ts)%Z).
Proof.
  intros Hlon Hz Hts.
  unfold latlon_to_tile.
  rewrite (lon_check_true lon Hlon). cbn [negb].
  replace ((0 <=? z)%Z && (z <=? 22)%Z) with true
    by (symmetry; apply andb_true_intro; split; apply Z.leb_le; lia).
  cbn [negb].
  pose proof (lat_rad_range lat) as Hr.
  assert (Hc : 0 < cos (Py.radians (clamp_lat lat))) by (apply cos_gt_0; lra).
  unfold Py.fdiv at 1.
  destruct (Req_dec_T (cos (Py.radians (clamp_lat lat))) 0) as [E | _]; [ lra | ].
  cbn [bind].
  unfold Py.log.
  pose proof (tan_plus_sec_pos _ Hr) as Hp.
  destruct (Rle_dec _ 0) as [E | _]; [ lra | ].
  cbn [bind].
  unfold Py.imod.
  destruct (Z.eqb_spec ts 0) as [E | _]; [ contradiction | ].
  cbn [bind]. reflexivity.
Qed.

Lemma latlon_to_tile_bad_lon (lat lon : R) (z ts : Z) :
  lon < -180 \/ 180 < lon ->
  latlon_to_tile lat lon z ts = Raise (ValueError lon_error).
Proof.
  intros H. unfold latlon_to_tile.
  rewrite (lon_check_false lon H). reflexivity.
Qed.

Lemma latlon_to_tile_bad_zoom (lat lon : R) (z ts : Z) :
  -180 <= lon <= 180 -> (z < 0 \/ 22 < z)%Z ->
  latlon_to_tile lat lon z ts = Raise (ValueError zoom_error).
Proof.
  intros Hlon Hz. unfold latlon_to_tile.
  rewrite (lon_check_true lon Hlon). cbn [negb].
  replace ((0 <=? z)%Z && (z <=? 22)%Z) with false; [ reflexivity | ].
  symmetry. apply andb_false_iff.
  destruct Hz; [ left; apply Z.leb_gt | right; apply Z.leb_gt ]; lia.
Qed.

Lemma latlon_to_tile_zero_tile_size (lat lon : R) (z : Z) :
  -180 <= lon <= 180 -> (0 <= z <= 22)%Z ->
  latlon_to_tile lat lon z 0 =
  Raise (ZeroDivisionError "integer modulo by zero").
Proof.
  intros Hlon Hz.
  unfold latlon_to_tile.
  rewrite (lon_check_true lon Hlon). cbn [negb].
  replace ((0 <=? z)%Z && (z <=? 22)%Z) with true
    by (symmetry; apply andb_true_intro; split; apply Z.leb_le; lia).
  cbn [negb].
  pose proof (lat_rad_range lat) as Hr.
  assert (Hc : 0 < cos (Py.radians (clamp_lat lat))) by (apply cos_gt_0; lra).
  unfold Py.fdiv at 1.
  destruct (Req_dec_T (cos (Py.radians (clamp_lat lat))) 0) as [E | _]; [ lra | ].
  cbn [bind].
  unfold Py.log.
  pose proof (tan_plus_sec_pos _ Hr) as Hp.
  destruct (Rle_dec _ 0) as [E | _]; [ lra | ].
  cbn [bind]. reflexivity.
Qed.

Lemma pow2_pos (z : Z) : (0 <= z)%Z -> (1 <= 2 ^ z)%Z.
Proof. intros Hz. pose proof (Z.pow_pos_nonneg 2 z ltac:(lia) Hz). lia. Qed.

Lemma latlon_to_tile_is_ok_iff (lat lon : R) (z ts : Z) :
  is_ok (latlon_to_tile lat lon z ts)
  <-> (-180 <= lon <= 180 /\ (0 <= z <= 22)%Z /\ ts <> 0%Z).
Proof.
  split.
  - intros [r Hr].
    destruct (Rle_dec (-180) lon) as [H1 | H1];
      [ destruct (Rle_dec lon 180) as [H2 | H2] | ];
      try (rewrite latlon_to_tile_bad_lon in Hr by lra; discriminate).
    destruct (Z_le_dec 0 z) as [Z1 | Z1];
      [ destruct (Z_le_dec z 22) as [Z2 | Z2] | ];
      try (rewrite latlon_to_tile_bad_zoom in Hr by (lra || lia); discriminate).
    destruct (Z.eq_dec ts 0) as [E | E].
    + subst ts.
      rewrite latlon_to_tile_zero_tile_size in Hr by (lra || lia). discriminate.
    + repeat split; assumption.
  - intros (Hlon & Hz & Hts). eexists.
    apply latlon_to_tile_eq; assumption.
Qed.

Lemma latlon_to_tile_clamped (lat lon : R) (z ts : Z) :
  latlon_to_tile lat lon z ts = latlon_to_tile (clamp_lat lat) lon z ts.
Proof.
  unfold latlon_to_tile.
  rewrite (clamp_lat_inside (clamp_lat lat) (clamp_lat_range lat)).
  reflexivity.
Qed.

(** For every latitude: a tile of the zoom and a pixel of the tile, as soon
    as the tile size is positive. *)
Lemma latlon_to_tile_in_range (lat lon : R) (z ts : Z) :
  -180 <= lon <= 180 -> (0 <= z <= 22)%Z -> (1 <= ts)%Z ->
  in_tile_range z ts (latlon_to_tile lat lon z ts).
Proof.
  intros Hlon Hz Hts.
  unfold in_tile_range.
  do 4 eexists. split.
  - apply latlon_to_tile_eq; [ assumption | assumption | lia ].
  - pose proof (pow2_pos z ltac:(lia)) as Hn.
    repeat split;
      try apply clamp_index_range; try apply Z.mod_pos_bound; lia.
Qed.

(** With a negative tile size the call returns, with a pixel that is not in
    [[0, tile_size)]: the modulo takes the sign of the divisor. *)
Lemma latlon_to_tile_negative_tile_size (lat lon : R) (z ts : Z) :
  -180 <= lon <= 180 -> (0 <= z <= 22)%Z -> (ts < 0)%Z ->
  exists x y px py : Z,
    latlon_to_tile lat lon z ts = Ok (x, y, px, py)
    /\ (ts < px <= 0)%Z /\ (ts < py <= 0)%Z.
Proof.
  intros Hlon Hz Hts.
  do 4 eexists. split.
  - apply latlon_to_tile_eq; [ assumption | assumption | lia ].
  - split; apply Z.mod_neg_bound; lia.
Qed.

(** *** Arguments that are not numbers *)

Lemma clamp_lat_float_idempotent (lat : pyfloat) :
  clamp_lat_float (clamp_lat_float lat) = clamp_lat_float lat.
Proof.
  pose proof MAX_LAT_bounds as Hm.
  destruct lat as [ r | | | ]; cbn [clamp_lat_float]; try reflexivity;
    f_equal; apply clamp_lat_inside; try lra.
  apply clamp_lat_range.
Qed.

Lemma clamp_lat_float_number (lat : pyfloat) :
  lat <> NaN ->
  exists r : R, clamp_lat_float lat = Fin r /\ - MAX_LAT <= r <= MAX_LAT.
Proof.
  pose proof MAX_LAT_bounds as Hm.
  destruct lat as [ r | | | ]; intros H; [ | | | contradiction ];
    eexists; (split; [ reflexivity | ]); try lra.
  apply clamp_lat_range.
Qed.

Lemma latlon_to_tile_float_number (lat : pyfloat) (r lon : R) (z ts : Z) :
  clamp_lat_float lat = Fin r ->
  latlon_to_tile_float lat (Fin lon) z ts = latlon_to_tile r lon z ts.
Proof. intros E. unfold latlon_to_tile_float. rewrite E. reflexivity. Qed.

Lemma latlon_to_tile_float_fin (lat lon : R) (z ts : Z) :
  latlon_to_tile_float (Fin lat) (Fin lon) z ts = latlon_to_tile lat lon z ts.
Proof.
  rewrite (latlon_to_tile_float_number (Fin lat) (clamp_lat lat)) by reflexivity.
  symmetry. apply latlon_to_tile_clamped.
Qed.

Lemma latlon_to_tile_float_clamped (lat lon : pyfloat) (z ts : Z) :
  latlon_to_tile_float lat lon z ts
  = latlon_to_tile_float (clamp_lat_float lat) lon z ts.
Proof.
  unfold latlon_to_tile_float. rewrite clamp_lat_float_idempotent. reflexivity.
Qed.

Lemma latlon_to_tile_float_nan (lon : pyfloat) (z ts : Z) :
  lon_in_range lon -> (0 <= z <= 22)%Z ->
  latlon_to_tile_float NaN lon z ts = Raise (ValueError nan_to_int_error).
Proof.
  intros Hlon Hz. destruct lon as [ r | | | ]; try contradiction.
  cbn [lon_in_range] in Hlon.
  unfold latlon_to_tile_float. cbn [clamp_lat_float].
  rewrite (lon_check_true r Hlon). cbn [negb].
  replace ((0 <=? z)%Z && (z <=? 22)%Z) with true
    by (symmetry; apply andb_true_intro; split; apply Z.leb_le; lia).
  reflexivity.
Qed.

Lemma lon_not_in_range (r : R) : ~ lon_in_range (Fin r) -> r < -180 \/ 180 < r.
Proof.
  cbn [lon_in_range]. intros H.
  destruct (Rle_dec (-180) r); [ | lra ].
  destruct (Rle_dec r 180); lra.
Qed.

Lemma latlon_to_tile_float_bad_lon (lat lon : pyfloat) (z ts : Z) :
  ~ lon_in_range lon ->
  latlon_to_tile_float lat lon z ts = Raise (ValueError lon_error).
Proof.
  intros H. unfold latlon_to_tile_float.
  destruct lon as [ r | | | ]; try reflexivity.
  apply lon_not_in_range in H.
  destruct (clamp_lat_float lat);
    [ apply latlon_to_tile_bad_lon; exact H
    | rewrite (lon_check_false r H); reflexivity .. ].
Qed.

Lemma latlon_to_tile_float_bad_zoom (lat lon : pyfloat) (z ts : Z) :
  lon_in_range lon -> ~ (0 <= z <= 22)%Z ->
  latlon_to_tile_float lat lon z ts = Raise (ValueError zoom_error).
Proof.
  intros Hlon Hz. unfold latlon_to_tile_float.
  destruct lon as [ r | | | ]; try contradiction.
  cbn [lon_in_range] in Hlon.
  assert (Hz' : (z < 0 \/ 22 < z)%Z) by lia.
  assert (Hb : ((0 <=? z)%Z && (z <=? 22)%Z) = false).
  { apply andb_false_iff.
    destruct Hz'; [ left | right ]; apply Z.leb_gt; assumption. }
  destruct (clamp_lat_float lat);
    [ apply latlon_to_tile_bad_zoom; assumption
    | rewrite (lon_check_true r Hlon), Hb; reflexivity .. ].
Qed.

Lemma latlon_to_tile_float_is_ok (lat lon : pyfloat) (z ts : Z) :
  is_ok (latlon_to_tile_float lat lon z ts)
  <-> (lat <> NaN /\ lon_in_range lon /\ (0 <= z <= 22)%Z /\ ts <> 0%Z).
Proof.
  split.
  - intros [a Ha].
    destruct lon as [ lon_r | | | ]; try discriminate Ha.
    assert (Hnum : forall r,
               latlon_to_tile r lon_r z ts = Ok a ->
               lon_in_range (Fin lon_r) /\ (0 <= z <= 22)%Z /\ ts <> 0%Z).
    { intros r Hr. apply (latlon_to_tile_is_ok_iff r). eexists. exact Hr. }
    unfold latlon_to_tile_float in Ha.
    destruct lat as [ lat_r | | | ]; cbn [clamp_lat_float] in Ha.
    + split; [ discriminate | exact (Hnum _ Ha) ].
    + split; [ discriminate | exact (Hnum _ Ha) ].
    + split; [ discriminate | exact (Hnum _ Ha) ].
    + destruct (negb _); [ discriminate | ].
      destruct (negb _); discriminate.
  - intros (Hlat & Hlon & Hz & Hts).
    destruct lon as [ lon_r | | | ]; try contradiction.
    destruct (clamp_lat_float_number lat Hlat) as (r & E & _).
    rewrite (latlon_to_tile_float_number lat r lon_r z ts E).
    apply latlon_to_tile_is_ok_iff.
    exact (conj Hlon (conj Hz Hts)).
Qed.

(** C3 as stated fails: with a NaN latitude the call raises [ValueError]
    (from [math.floor]) although the longitude and the zoom are in range. *)
Lemma latlon_to_tile_validation_nan_latitude :
  lon_in_range (Fin 0) /\ (0 <= 0 <= 22)%Z
  /\ latlon_to_tile_float NaN (Fin 0) 0 default_tile_size
     = Raise (ValueError "cannot convert float NaN to integer")
  /\ ~ is_ok (latlon_to_tile_float NaN (Fin 0) 0 default_tile_size).
Proof.
  assert (Hlon : lon_in_range (Fin 0)) by (cbn; lra).
  assert (Hz : (0 <= 0 <= 22)%Z) by lia.
  pose proof (latlon_to_tile_float_nan (Fin 0) 0 default_tile_size Hlon Hz) as E.
  split; [ exact Hlon | ]. split; [ exact Hz | ]. split; [ exact E | ].
  intros [a Ha]. rewrite E in Ha. discriminate.
Qed.

(** C3, amended. Whatever the latitude and the tile size, [latlon_to_tile]
    raises [ValueError] when the longitude is outside [[-180, 180]] (or is
    not a number) or the zoom is outside [[0, 22]].  When both are inside,
    it returns a result for every latitude other than NaN (tile size from 1
    to [2^53], as the default 256 is), and raises the [ValueError] of
    [math.floor] for a NaN latitude. *)
Theorem latlon_to_tile_validation (lat lon : pyfloat) (z ts : Z) :
  (~ lon_in_range lon \/ ~ (0 <= z <= 22)%Z ->
   is_value_error (latlon_to_tile_float lat lon z ts))
  /\ (lon_in_range lon -> (0 <= z <= 22)%Z ->
      (lat <> NaN -> (1 <= ts <= 2 ^ 53)%Z ->
       is_ok (latlon_to_tile_float lat lon z ts))
      /\ (lat = NaN ->
          latlon_to_tile_float lat lon z ts
          = Raise (ValueError "cannot convert float NaN to integer"))).
Proof.
  split.
  - intros H.
    destruct lon as [ r | | | ];
      [ | exists lon_error; apply latlon_to_tile_float_bad_lon; intros [] .. ].
    destruct (Rle_dec (-180) r) as [L1 | L1];
      [ destruct (Rle_dec r 180) as [L2 | L2] | ].
    + assert (Hlon : lon_in_range (Fin r)) by (cbn; lra).
      destruct H as [H | H]; [ contradiction | ].
      exists zoom_error. apply latlon_to_tile_float_bad_zoom; assumption.
    + exists lon_error. apply latlon_to_tile_float_bad_lon. cbn. lra.
    + exists lon_error. apply latlon_to_tile_float_bad_lon. cbn. lra.
  - intros Hlon Hz. split.
    + intros Hlat Hts. apply latlon_to_tile_float_is_ok.
      assert (T : ts <> 0%Z) by lia.
      exact (conj Hlat (conj Hlon (conj Hz T))).
    + intros ->. apply latlon_to_tile_float_nan; assumption.
Qed.

Lemma latlon_to_tile_validation_witness :
  is_value_error (latlon_to_tile_float (Fin 0) (Fin 200) 0 default_tile_size)
  /\ is_value_error (latlon_to_tile_float (Fin 0) NaN 0 default_tile_size)
  /\ is_value_error (latlon_to_tile_float (Fin 0) (Fin 0) 23 default_tile_size)
  /\ is_ok (latlon_to_tile_float (Fin 100) (Fin 0) 0 default_tile_size)
  /\ is_ok (latlon_to_tile_float PosInf (Fin 0) 0 default_tile_size).
Proof.
  assert (H1 : lon_in_range (Fin 0)) by (cbn; lra).
  assert (H2 : (0 <= 0 <= 22)%Z) by lia.
  assert (H3 : (1 <= default_tile_size <= 2 ^ 53)%Z)
    by (unfold default_tile_size; lia).
  assert (B1 : ~ lon_in_range (Fin 200)) by (cbn; lra).
  assert (B2 : ~ lon_in_range NaN) by (intros []).
  assert (B3 : ~ (0 <= 23 <= 22)%Z) by lia.
  assert (N1 : Fin 100 <> NaN) by discriminate.
  assert (N2 : PosInf <> NaN) by discriminate.
  exact (conj
           (proj1 (latlon_to_tile_validation (Fin 0) (Fin 200) 0
                     default_tile_size) (or_introl B1))
           (conj
              (proj1 (latlon_to_tile_validation (Fin 0) NaN 0
                        default_tile_size) (or_introl B2))
              (conj
                 (proj1 (latlon_to_tile_validation (Fin 0) (Fin 0) 23
                           default_tile_size) (or_intror B3))
                 (conj
                    (proj1 (proj2 (latlon_to_tile_validation (Fin 100) (Fin 0)
                                     0 default_tile_size) H1 H2) N1 H3)
                    (proj1 (proj2 (latlon_to_tile_validation PosInf (Fin 0) 0
                                     default_tile_size) H1 H2) N2 H3))))).
Defined.

(** C10 as stated fails: a NaN latitude is not clamped, and the call raises
    because of it, at a longitude and a zoom that are in range. *)
Lemma latlon_to_tile_any_latitude_nan :
  clamp_lat_float NaN = NaN
  /\ lon_in_range (Fin 180) /\ (0 <= 22 <= 22)%Z
  /\ (exists m,
         latlon_to_tile_float NaN (Fin 180) 22 default_tile_size
         = Raise (ValueError m))
  /\ is_ok (latlon_to_tile_float (Fin 0) (Fin 180) 22 default_tile_size).
Proof.
  assert (Hlon : lon_in_range (Fin 180)) by (cbn; lra).
  assert (Hz : (0 <= 22 <= 22)%Z) by lia.
  split; [ reflexivity | ]. split; [ exact Hlon | ]. split; [ exact Hz | ].
  split.
  - eexists. apply latlon_to_tile_float_nan; assumption.
  - apply latlon_to_tile_float_is_ok.
    assert (N : Fin 0 <> NaN) by discriminate.
    assert (T : default_tile_size <> 0%Z) by discriminate.
    exact (conj N (conj Hlon (conj Hz T))).
Qed.

(** C10, amended. The latitude enters [latlon_to_tile] only through the
    clamp, which is applied before anything is checked and maps every
    latitude other than NaN, the infinities and the values outside
    [[-90, 90]] included, into [[-85.05112878, 85.05112878]]: once the
    longitude is in [[-180, 180]] and the zoom in [[0, 22]] (tile size from
    1 to [2^53], as the default 256 is), the call returns for every such
    latitude, and NaN is the only latitude for which it does not. *)
Theorem latlon_to_tile_any_latitude (lat lon : pyfloat) (z ts : Z) :
  latlon_to_tile_float lat lon z ts
  = latlon_to_tile_float (clamp_lat_float lat) lon z ts
  /\ (lat <> NaN ->
      exists r : R,
        clamp_lat_float lat = Fin r /\ -85.05112878 <= r <= 85.05112878)
  /\ (lon_in_range lon -> (0 <= z <= 22)%Z -> (1 <= ts <= 2 ^ 53)%Z ->
      (is_ok (latlon_to_tile_float lat lon z ts) <-> lat <> NaN)).
Proof.
  split; [ apply latlon_to_tile_float_clamped | split ].
  - intros Hlat.
    destruct (clamp_lat_float_number lat Hlat) as (r & E & Hr).
    exists r. split; [ exact E | ]. unfold MAX_LAT in Hr. lra.
  - intros Hlon Hz Hts. rewrite latlon_to_tile_float_is_ok.
    split; [ tauto | ].
    intros Hlat. assert (T : ts <> 0%Z) by lia.
    exact (conj Hlat (conj Hlon (conj Hz T))).
Qed.

Lemma latlon_to_tile_any_latitude_witness :
  is_ok (latlon_to_tile_float (Fin 1000) (Fin 180) 22 default_tile_size)
  /\ is_ok (latlon_to_tile_float NegInf (Fin 180) 22 default_tile_size).
Proof.
  assert (H1 : lon_in_range (Fin 180)) by (cbn; lra).
  assert (H2 : (0 <= 22 <= 22)%Z) by lia.
  assert (H3 : (1 <= default_tile_size <= 2 ^ 53)%Z)
    by (unfold default_tile_size; lia).
  assert (N1 : Fin 1000 <> NaN) by discriminate.
  assert (N2 : NegInf <> NaN) by discriminate.
  exact (conj
           (proj2 (proj2 (proj2 (latlon_to_tile_any_latitude (Fin 1000)
                                   (Fin 180) 22 default_tile_size))
                     H1 H2 H3) N1)
           (proj2 (proj2 (proj2 (latlon_to_tile_any_latitude NegInf (Fin 180)
                                   22 default_tile_size))
                     H1 H2 H3) N2)).
Defined.

(** C1 as stated fails: with tile size 0 the call raises
    [ZeroDivisionError] instead of returning a tile and a pixel. *)
Lemma latlon_to_tile_range_tile_size_zero :
  -85.0511 <= 0 <= 85.0511 /\ -180 <= 0 <= 180 /\ (0 <= 0 <= 22)%Z
  /\ (exists m, latlon_to_tile 0 0 0 0 = Raise (ZeroDivisionError m))
  /\ ~ in_tile_range 0 0 (latlon_to_tile 0 0 0 0).
Proof.
  assert (E : latlon_to_tile 0 0 0 0
              = Raise (ZeroDivisionError "integer modulo by zero"))
    by (apply latlon_to_tile_zero_tile_size; [ lra | lia ]).
  repeat split; try lra; try lia.
  - eexists. exact E.
  - intros (x & y & px & py & Hok & _). rewrite E in Hok. discriminate.
Qed.

(** C1, amended. For a latitude in [[-85.0511, 85.0511]], a longitude in
    [[-180, 180]], a zoom in [[0, 22]] and a tile size from 1 to [2^53] (the
    integers a float holds exactly), [latlon_to_tile] returns a tile with
    [0 <= x, y < 2^z] and a pixel with [0 <= px, py < tile_size]. *)
Theorem latlon_to_tile_range (lat lon : R) (z ts : Z) :
  -85.0511 <= lat <= 85.0511 -> -180 <= lon <= 180 -> (0 <= z <= 22)%Z ->
  (1 <= ts <= 2 ^ 53)%Z ->
  in_tile_range z ts (latlon_to_tile lat lon z ts).
Proof.
  intros _ Hlon Hz [Hts _]. apply latlon_to_tile_in_range; assumption.
Qed.

Lemma latlon_to_tile_range_witness :
  -85.0511 <= 0 <= 85.0511 /\ -180 <= 0 <= 180 /\ (0 <= 0 <= 22)%Z
  /\ (1 <= 256 <= 2 ^ 53)%Z /\ in_tile_range 0 256 (latlon_to_tile 0 0 0 256).
Proof.
  assert (H0 : -85.0511 <= 0 <= 85.0511) by lra.
  assert (H1 : -180 <= 0 <= 180) by lra.
  assert (H2 : (0 <= 0 <= 22)%Z) by lia.
  assert (H3 : (1 <= 256 <= 2 ^ 53)%Z) by lia.
  exact (conj H0 (conj H1 (conj H2 (conj H3
           (latlon_to_tile_range 0 0 0 256 H0 H1 H2 H3))))).
Defined.

(** ** [draw_grid] *)

Lemma draw_all_nil (img : Image) : draw_all img [] = img.
Proof. destruct img. unfold draw_all. cbn. rewrite app_nil_r. reflexivity. Qed.

Lemma draw_all_app (img : Image) (a b : list draw_op) :
  draw_all (draw_all img a) b = draw_all img (a ++ b).
Proof. unfold draw_all. cbn. rewrite app_assoc. reflexivity. Qed.

Lemma draw_one (img : Image) (op : draw_op) : draw img op = draw_all img [op].
Proof. reflexivity. Qed.

Lemma fold_left_draw_all {A : Type} (f : Image -> A -> Image)
  (g : A -> list draw_op) (l : list A) :
  (forall img a, f img a = draw_all img (g a)) ->
  forall img, fold_left f l img = draw_all img (flat_map g l).
Proof.
  intros Hf. induction l as [ | a l IH ]; intros img; cbn.
  - symmetry. apply draw_all_nil.
  - rewrite IH, Hf, draw_all_app. reflexivity.
Qed.

Lemma grid_check_fails (grid : Z) :
  Z.even grid = true \/ (grid < 1)%Z ->
  ((grid mod 2 =? 0)%Z || (grid <? 1)%Z) = true.
Proof.
  intros [He | Hl]; apply orb_true_iff.
  - left. apply Z.eqb_eq. rewrite Zmod_even, He. reflexivity.
  - right. apply Z.ltb_lt. assumption.
Qed.

Lemma grid_check_passes (grid : Z) :
  Z.odd grid = true -> (1 <= grid)%Z ->
  ((grid mod 2 =? 0)%Z || (grid <? 1)%Z) = false.
Proof.
  intros Ho Hg. apply orb_false_iff. split.
  - apply Z.eqb_neq. rewrite Zmod_odd, Ho. discriminate.
  - apply Z.ltb_ge. assumption.
Qed.

Lemma draw_grid_eq (canvas_error : Z -> Z -> option exn) (lat lon : R)
  (z grid ts x_c y_c px py : Z) :
  Z.odd grid = true -> (1 <= grid)%Z -> (0 <= ts)%Z ->
  canvas_error (grid * ts)%Z (grid * ts)%Z = None ->
  latlon_to_tile lat lon z ts = Ok (x_c, y_c, px, py) ->
  draw_grid canvas_error lat lon z grid ts =
  Ok (mkImage "RGB" (grid * ts) (grid * ts) white
        (grid_line_ops grid ts
         ++ label_ops x_c y_c z grid ts
         ++ [DrawEllipse (grid / 2 * ts + px - 4) (grid / 2 * ts + py - 4)
                         (grid / 2 * ts + px + 4) (grid / 2 * ts + py + 4)
                         marker_red black;
             DrawText 10 (grid * ts - 40)
                      (Header lat lon z x_c y_c px py ts) black
                      (try_load_font 18)])).
Proof.
  intros Ho Hg Hts Ha Hll.
  unfold draw_grid.
  rewrite (grid_check_passes grid Ho Hg), Hll. cbn [bind].
  unfold Image_new.
  replace ((grid * ts <? 0)%Z || (grid * ts <? 0)%Z) with false
    by (symmetry; apply orb_false_iff; split; apply Z.ltb_ge; nia).
  rewrite Ha.
  cbn [bind].
  rewrite (fold_left_draw_all (draw_grid_lines ts (grid * ts) (grid * ts))
             (fun i => [DrawLine (i * ts) 0 (i * ts) (grid * ts) black 1;
                        DrawLine 0 (i * ts) (grid * ts) (i * ts) black 1]))
    by (intros; unfold draw_grid_lines; cbv zeta; rewrite !draw_one, draw_all_app;
        reflexivity).
  rewrite (fold_left_draw_all _
             (fun gy => map (label_op x_c y_c z (grid / 2) ts gy) (range grid))).
  2:{ intros img gy.
      rewrite (fold_left_draw_all _ (fun gx => [label_op x_c y_c z (grid / 2) ts gy gx]))
        by (intros; reflexivity).
      f_equal; try (clear; induction (range grid); cbn; congruence). }
  rewrite !draw_one, !draw_all_app.
  unfold draw_all. cbn. reflexivity.
Qed.

Lemma latlon_to_tile_ok_inv (lat lon : R) (z ts x y px py : Z) :
  latlon_to_tile lat lon z ts = Ok (x, y, px, py) ->
  -180 <= lon <= 180 /\ (0 <= z <= 22)%Z /\ ts <> 0%Z
  /\ (0 <= x < 2 ^ z)%Z /\ (0 <= y < 2 ^ z)%Z.
Proof.
  intros H.
  assert (Hok : is_ok (latlon_to_tile lat lon z ts)) by (eexists; exact H).
  apply latlon_to_tile_is_ok_iff in Hok. destruct Hok as (Hlon & Hz & Hts).
  rewrite (latlon_to_tile_eq lat lon z ts Hlon Hz Hts) in H.
  injection H as <- <- _ _.
  pose proof (pow2_pos z ltac:(lia)) as Hn.
  repeat split; try assumption; try lra; try apply clamp_index_range; lia.
Qed.

Lemma draw_grid_bad_grid (canvas_error : Z -> Z -> option exn) (lat lon : R)
  (z grid ts : Z) :
  Z.even grid = true \/ (grid < 1)%Z ->
  draw_grid canvas_error lat lon z grid ts = Raise (ValueError grid_error).
Proof.
  intros H. unfold draw_grid. rewrite (grid_check_fails grid H). reflexivity.
Qed.

Lemma draw_grid_negative_tile_size (canvas_error : Z -> Z -> option exn) (lat lon : R)
  (z grid ts : Z) :
  Z.odd grid = true -> (1 <= grid)%Z -> (ts < 0)%Z ->
  -180 <= lon <= 180 -> (0 <= z <= 22)%Z ->
  draw_grid canvas_error lat lon z grid ts =
  Raise (ValueError "Width and height must be >= 0").
Proof.
  intros Ho Hg Hts Hlon Hz. unfold draw_grid.
  rewrite (grid_check_passes grid Ho Hg).
  rewrite (latlon_to_tile_eq lat lon z ts Hlon Hz) by lia. cbn [bind].
  unfold Image_new.
  replace ((grid * ts <? 0)%Z || (grid * ts <? 0)%Z) with true
    by (symmetry; apply orb_true_iff; left; apply Z.ltb_lt; nia).
  reflexivity.
Qed.

Lemma draw_grid_raise_projection (canvas_error : Z -> Z -> option exn) (lat lon : R)
  (z grid ts : Z) (e : exn) :
  Z.odd grid = true -> (1 <= grid)%Z ->
  latlon_to_tile lat lon z ts = Raise e ->
  draw_grid canvas_error lat lon z grid ts = Raise e.
Proof.
  intros Ho Hg H. unfold draw_grid.
  rewrite (grid_check_passes grid Ho Hg), H. reflexivity.
Qed.

Lemma draw_grid_no_canvas (canvas_error : Z -> Z -> option exn) (lat lon : R)
  (z grid ts : Z) (e : exn) :
  Z.odd grid = true -> (1 <= grid)%Z -> (1 <= ts)%Z ->
  -180 <= lon <= 180 -> (0 <= z <= 22)%Z ->
  canvas_error (grid * ts)%Z (grid * ts)%Z = Some e ->
  draw_grid canvas_error lat lon z grid ts = Raise e.
Proof.
  intros Ho Hg Hts Hlon Hz Ha. unfold draw_grid.
  rewrite (grid_check_passes grid Ho Hg).
  rewrite (latlon_to_tile_eq lat lon z ts Hlon Hz) by lia. cbn [bind].
  unfold Image_new.
  replace ((grid * ts <? 0)%Z || (grid * ts <? 0)%Z) with false
    by (symmetry; apply orb_false_iff; split; apply Z.ltb_ge; nia).
  rewrite Ha. reflexivity.
Qed.

Lemma draw_grid_is_ok (canvas_error : Z -> Z -> option exn) (lat lon : R)
  (z grid ts : Z) :
  Z.odd grid = true -> (1 <= grid)%Z -> (1 <= ts)%Z ->
  -180 <= lon <= 180 -> (0 <= z <= 22)%Z ->
  canvas_error (grid * ts)%Z (grid * ts)%Z = None ->
  exists x_c y_c px py : Z,
    latlon_to_tile lat lon z ts = Ok (x_c, y_c, px, py)
    /\ draw_grid canvas_error lat lon z grid ts =
       Ok (mkImage "RGB" (grid * ts) (grid * ts) white
             (grid_line_ops grid ts
              ++ label_ops x_c y_c z grid ts
              ++ [DrawEllipse (grid / 2 * ts + px - 4) (grid / 2 * ts + py - 4)
                              (grid / 2 * ts + px + 4) (grid / 2 * ts + py + 4)
                              marker_red black;
                  DrawText 10 (grid * ts - 40)
                           (Header lat lon z x_c y_c px py ts) black
                           (try_load_font 18)])).
Proof.
  intros Ho Hg Hts Hlon Hz Ha.
  do 4 eexists. split.
  - apply latlon_to_tile_eq; [ assumption | assumption | lia ].
  - apply draw_grid_eq; try assumption; try lia.
    apply latlon_to_tile_eq; [ assumption | assumption | lia ].
Qed.

Lemma draw_grid_ok_inv (canvas_error : Z -> Z -> option exn) (lat lon : R)
  (z grid ts : Z) (img : Image) :
  draw_grid canvas_error lat lon z grid ts = Ok img ->
  Z.odd grid = true /\ (1 <= grid)%Z /\ (1 <= ts)%Z
  /\ -180 <= lon <= 180 /\ (0 <= z <= 22)%Z
  /\ canvas_error (grid * ts)%Z (grid * ts)%Z = None.
Proof.
  intros H.
  destruct (Z.odd grid) eqn:Ho.
  2:{ rewrite draw_grid_bad_grid in H; [ discriminate | ].
      left. rewrite <- Z.negb_odd, Ho. reflexivity. }
  destruct (Z_lt_dec grid 1) as [Hg | Hg].
  { rewrite draw_grid_bad_grid in H; [ discriminate | right; assumption ]. }
  destruct (latlon_to_tile lat lon z ts) as [ [[[x_c y_c] px] py] | e ] eqn:Hll.
  2:{ rewrite (draw_grid_raise_projection _ _ _ _ _ _ e Ho) in H;
        [ discriminate | lia | assumption ]. }
  apply latlon_to_tile_ok_inv in Hll. destruct Hll as (Hlon & Hz & Hts & _).
  destruct (Z_lt_dec ts 0) as [Hneg | Hneg].
  { rewrite draw_grid_negative_tile_size in H; try assumption; try lia.
    discriminate. }
  destruct (canvas_error (grid * ts)%Z (grid * ts)%Z) as [ e | ] eqn:Ha.
  { rewrite (draw_grid_no_canvas _ _ _ _ _ _ e) in H;
      try assumption; try lia. discriminate. }
  repeat split; try assumption; try lra; lia.
Qed.

Lemma draw_grid_not_grid_error (canvas_error : Z -> Z -> option exn) (lat lon : R)
  (z grid ts : Z) :
  Z.odd grid = true -> (1 <= grid)%Z ->
  canvas_error (grid * ts)%Z (grid * ts)%Z <> Some (ValueError grid_error) ->
  draw_grid canvas_error lat lon z grid ts <> Raise (ValueError grid_error).
Proof.
  intros Ho Hg Hne.
  destruct (latlon_to_tile lat lon z ts) as [ [[[x_c y_c] px] py] | e ] eqn:Hll.
  - pose proof (latlon_to_tile_ok_inv _ _ _ _ _ _ _ _ Hll)
      as (Hlon & Hz & Hts & _).
    destruct (Z_lt_dec ts 0) as [Hneg | Hneg].
    + rewrite draw_grid_negative_tile_size by (assumption || lia).
      discriminate.
    + assert (Hnn : (0 <= ts)%Z) by lia.
      destruct (canvas_error (grid * ts)%Z (grid * ts)%Z) as [ e | ] eqn:Ha.
      * rewrite (draw_grid_no_canvas _ _ _ _ _ _ e)
          by (assumption || lia).
        intros E. injection E as ->. apply Hne. reflexivity.
      * rewrite (draw_grid_eq _ _ _ _ _ _ _ _ _ _ Ho Hg Hnn Ha Hll).
        discriminate.
  - rewrite (draw_grid_raise_projection _ _ _ _ _ _ e Ho Hg Hll).
    intros E. injection E as ->.
    destruct (Rle_dec (-180) lon) as [H1 | H1];
      [ destruct (Rle_dec lon 180) as [H2 | H2] | ];
      try (rewrite latlon_to_tile_bad_lon in Hll by lra; discriminate).
    destruct (Z_le_dec 0 z) as [Z1 | Z1];
      [ destruct (Z_le_dec z 22) as [Z2 | Z2] | ];
      try (rewrite latlon_to_tile_bad_zoom in Hll by (lra || lia);
           discriminate).
    destruct (Z.eq_dec ts 0) as [E | E].
    + subst ts.
      rewrite latlon_to_tile_zero_tile_size in Hll by (lra || lia).
      discriminate.
    + rewrite latlon_to_tile_eq in Hll by (lra || lia || assumption).
      discriminate.
Qed.

(** C6. With an even grid size, or one below 1, [draw_grid] raises the
    grid-size [ValueError] whatever its other arguments are (it does so
    before projecting, so even a bad longitude or zoom is not reported, and
    no image is made); with an odd grid size of at least 1 the check lets
    the call through: that error is not raised (Pillow has no such
    message), and valid arguments give an image when Pillow grants the
    canvas. *)
Theorem draw_grid_odd_grid_enforced (canvas_error : Z -> Z -> option exn)
  (lat lon : R) (z grid ts : Z) :
  (Z.even grid = true \/ (grid < 1)%Z ->
   draw_grid canvas_error lat lon z grid ts = Raise (ValueError grid_error))
  /\ (Z.odd grid = true -> (1 <= grid)%Z ->
      (canvas_error (grid * ts)%Z (grid * ts)%Z <> Some (ValueError grid_error) ->
       draw_grid canvas_error lat lon z grid ts <> Raise (ValueError grid_error))
      /\ (-180 <= lon <= 180 -> (0 <= z <= 22)%Z -> (1 <= ts <= 2 ^ 53)%Z ->
          canvas_error (grid * ts)%Z (grid * ts)%Z = None ->
          is_ok (draw_grid canvas_error lat lon z grid ts))).
Proof.
  split; [ apply draw_grid_bad_grid | ].
  intros Ho Hg. split.
  - apply draw_grid_not_grid_error; assumption.
  - intros Hlon Hz [Hts _] Ha.
    destruct (draw_grid_is_ok canvas_error lat lon z grid ts Ho Hg Hts Hlon Hz Ha)
      as (x_c & y_c & px & py & _ & E).
    eexists. exact E.
Qed.

Lemma draw_grid_odd_grid_enforced_witness :
  draw_grid (fun _ _ => None) 0 0 5 4 256 = Raise (ValueError grid_error)
  /\ draw_grid (fun _ _ => None) 0 0 5 0 256 = Raise (ValueError grid_error)
  /\ draw_grid (fun _ _ => None) 0 0 5 3 256 <> Raise (ValueError grid_error)
  /\ is_ok (draw_grid (fun _ _ => None) 0 0 5 3 256).
Proof.
  pose proof (draw_grid_odd_grid_enforced (fun _ _ => None) 0 0 5 4 256)
    as [H4 _].
  pose proof (draw_grid_odd_grid_enforced (fun _ _ => None) 0 0 5 0 256)
    as [H0 _].
  pose proof (draw_grid_odd_grid_enforced (fun _ _ => None) 0 0 5 3 256)
    as [_ H3].
  assert (Hg : (1 <= 3)%Z) by lia.
  destruct (H3 eq_refl Hg) as [H3a H3b].
  assert (Hne : @None exn <> Some (ValueError grid_error)) by discriminate.
  refine (conj (H4 (or_introl eq_refl))
            (conj (H0 (or_intror _)) (conj (H3a Hne) (H3b _ _ _ eq_refl))));
    try lia; lra.
Defined.

Lemma in_range (k i : Z) : In i (range k) <-> (0 <= i < k)%Z.
Proof.
  unfold range. rewrite in_map_iff. split.
  - intros (j & <- & Hj). apply in_seq in Hj. lia.
  - intros Hi. exists (Z.to_nat i). split; [ lia | ].
    apply in_seq. lia.
Qed.

Lemma labels_of_ops (mode : string) (w h : Z) (bg : color) (ops : list draw_op) :
  labels_of (mkImage mode w h bg ops) =
  flat_map (fun op => match op with
                      | DrawText x y (Str s) _ _ => [(x, y, s)]
                      | _ => []
                      end) ops.
Proof. reflexivity. Qed.

Lemma labels_of_grid_lines (grid ts : Z) :
  flat_map (fun op => match op with
                      | DrawText x y (Str s) _ _ => [(x, y, s)]
                      | _ => []
                      end) (grid_line_ops grid ts) = [].
Proof.
  unfold grid_line_ops.
  induction (range (grid + 1)) as [ | i l IH ]; cbn; [ reflexivity | exact IH ].
Qed.

Lemma labels_of_label_rows (x_c y_c z half ts : Z) (rows cols : list Z) :
  flat_map (fun op => match op with
                      | DrawText x y (Str s) _ _ => [(x, y, s)]
                      | _ => []
                      end)
           (flat_map (fun gy => map (label_op x_c y_c z half ts gy) cols) rows)
  = flat_map
      (fun gy =>
         map (fun gx =>
                ((gx * ts + 6)%Z, (gy * ts + 6)%Z,
                 label_text (x_c + (gx - half)) (y_c + (gy - half)) z))
             cols)
      rows.
Proof.
  induction rows as [ | gy rows IH ]; cbn [flat_map]; [ reflexivity | ].
  rewrite flat_map_app, IH. f_equal. clear IH.
  induction cols as [ | gx l IHl ]; cbn; [ reflexivity | ].
  rewrite IHl. reflexivity.
Qed.

Lemma labels_of_label_ops (x_c y_c z grid ts : Z) :
  flat_map (fun op => match op with
                      | DrawText x y (Str s) _ _ => [(x, y, s)]
                      | _ => []
                      end) (label_ops x_c y_c z grid ts)
  = cell_labels x_c y_c z grid ts.
Proof. apply labels_of_label_rows. Qed.

Lemma labels_of_draw_grid (canvas_error : Z -> Z -> option exn) (lat lon : R)
  (z grid ts x_c y_c px py : Z) (img : Image) :
  draw_grid canvas_error lat lon z grid ts = Ok img ->
  latlon_to_tile lat lon z ts = Ok (x_c, y_c, px, py) ->
  labels_of img = cell_labels x_c y_c z grid ts.
Proof.
  intros Hd Hll.
  pose proof (draw_grid_ok_inv _ _ _ _ _ _ _ Hd) as (Ho & Hg & Hts & _ & _ & Ha).
  assert (Hnn : (0 <= ts)%Z) by lia.
  rewrite (draw_grid_eq _ _ _ _ _ _ _ _ _ _ Ho Hg Hnn Ha Hll) in Hd.
  injection Hd as <-.
  rewrite labels_of_ops, !flat_map_app.
  rewrite labels_of_grid_lines, labels_of_label_ops. cbn.
  apply app_nil_r.
Qed.

Lemma in_cell_labels (x_c y_c z grid ts tx ty : Z) (s : string) :
  In (tx, ty, s) (cell_labels x_c y_c z grid ts)
  <-> exists gx gy : Z,
        (0 <= gx < grid)%Z /\ (0 <= gy < grid)%Z
        /\ tx = (gx * ts + 6)%Z /\ ty = (gy * ts + 6)%Z
        /\ s = label_text (x_c + gx - grid / 2) (y_c + gy - grid / 2) z.
Proof.
  unfold cell_labels. rewrite in_flat_map. split.
  - intros (gy & Hgy & Hin). apply in_map_iff in Hin.
    destruct Hin as (gx & E & Hgx).
    apply in_range in Hgy. apply in_range in Hgx.
    injection E as <- <- <-.
    exists gx, gy. repeat split; try lia.
    f_equal; lia.
  - intros (gx & gy & Hgx & Hgy & -> & -> & ->).
    exists gy. split; [ apply in_range; assumption | ].
    apply in_map_iff. exists gx. split; [ | apply in_range; assumption ].
    replace (x_c + (gx - grid / 2))%Z with (x_c + gx - grid / 2)%Z by lia.
    replace (y_c + (gy - grid / 2))%Z with (y_c + gy - grid / 2)%Z by lia.
    reflexivity.
Qed.

Lemma draw_grid_canvas_of (canvas_error : Z -> Z -> option exn) (lat lon : R)
  (z grid ts : Z) (img : Image) :
  draw_grid canvas_error lat lon z grid ts = Ok img ->
  im_mode img = "RGB"%string
  /\ im_width img = (grid * ts)%Z /\ im_height img = (grid * ts)%Z
  /\ im_background img = white.
Proof.
  intros Hd.
  pose proof (draw_grid_ok_inv _ _ _ _ _ _ _ Hd)
    as (Ho & Hg & Hts & Hlon & Hz & Ha).
  destruct (draw_grid_is_ok canvas_error lat lon z grid ts Ho Hg Hts Hlon Hz Ha)
    as (x_c & y_c & px & py & _ & E).
  rewrite E in Hd. injection Hd as <-. cbn. repeat split; reflexivity.
Qed.

(** C8. Every image [draw_grid] returns is an RGB image whose canvas is
    white and exactly [grid * tile_size] pixels wide and high, 768 x 768 for
    a grid of 3 tiles of 256 pixels; and it returns one for valid arguments
    whenever Pillow grants a canvas of that size. *)
Theorem draw_grid_canvas (canvas_error : Z -> Z -> option exn) (lat lon : R)
  (z grid ts : Z) :
  (forall img : Image,
      draw_grid canvas_error lat lon z grid ts = Ok img ->
      im_mode img = "RGB"%string
      /\ im_width img = (grid * ts)%Z /\ im_height img = (grid * ts)%Z
      /\ im_background img = (255, 255, 255)%Z
      /\ (grid = 3%Z -> ts = 256%Z ->
          im_width img = 768%Z /\ im_height img = 768%Z))
  /\ (-180 <= lon <= 180 -> (0 <= z <= 22)%Z ->
      Z.odd grid = true -> (1 <= grid)%Z -> (1 <= ts <= 2 ^ 53)%Z ->
      canvas_error (grid * ts)%Z (grid * ts)%Z = None ->
      is_ok (draw_grid canvas_error lat lon z grid ts)).
Proof.
  split.
  - intros img Hd.
    destruct (draw_grid_canvas_of _ _ _ _ _ _ _ Hd) as (Hm & Hw & Hh & Hb).
    refine (conj Hm (conj Hw (conj Hh (conj Hb _)))).
    intros -> ->. split; [ exact Hw | exact Hh ].
  - intros Hlon Hz Ho Hg [Hts _] Ha.
    destruct (draw_grid_is_ok canvas_error lat lon z grid ts Ho Hg Hts Hlon Hz Ha)
      as (x_c & y_c & px & py & _ & E).
    eexists. exact E.
Qed.

Lemma draw_grid_canvas_witness :
  exists img : Image,
    draw_grid (fun _ _ => None) 53.1959 50.1008 12 3 256 = Ok img
    /\ im_width img = 768%Z /\ im_height img = 768%Z
    /\ im_background img = white.
Proof.
  assert (H1 : -180 <= 50.1008 <= 180) by lra.
  assert (H2 : (0 <= 12 <= 22)%Z) by lia.
  assert (H3 : (1 <= 3)%Z) by lia.
  assert (H4 : (1 <= 256 <= 2 ^ 53)%Z) by lia.
  destruct (draw_grid_canvas (fun _ _ => None) 53.1959 50.1008 12 3 256)
    as [Hshape Hok].
  destruct (Hok H1 H2 eq_refl H3 H4 eq_refl) as [img E].
  destruct (Hshape img E) as (_ & _ & _ & Hbg & H768).
  exists img.
  exact (conj E (conj (proj1 (H768 eq_refl eq_refl))
                   (conj (proj2 (H768 eq_refl eq_refl)) Hbg))).
Defined.

Lemma draw_grid_origin_zoom0 (canvas_error : Z -> Z -> option exn) :
  canvas_error 768%Z 768%Z = None ->
  exists (img : Image) (px py : Z),
    latlon_to_tile 0 0 0 256 = Ok (0, 0, px, py)%Z
    /\ draw_grid canvas_error 0 0 0 3 256 = Ok img.
Proof.
  intros Ha.
  assert (Hlon : -180 <= 0 <= 180) by lra.
  assert (Hz : (0 <= 0 <= 22)%Z) by lia.
  assert (Hg : (1 <= 3)%Z) by lia.
  assert (Hts : (1 <= 256)%Z) by lia.
  destruct (draw_grid_is_ok canvas_error 0 0 0 3 256 eq_refl Hg Hts Hlon Hz Ha)
    as (x_c & y_c & px & py & Hll & Hd).
  pose proof (latlon_to_tile_ok_inv _ _ _ _ _ _ _ _ Hll) as (_ & _ & _ & Hx & Hy).
  change (2 ^ 0)%Z with 1%Z in Hx, Hy.
  assert (x_c = 0%Z) by lia. assert (y_c = 0%Z) by lia. subst x_c y_c.
  eexists. exists px, py. split; [ exact Hll | exact Hd ].
Qed.

(** C7. The labels [draw_grid] draws are, cell by cell, the text
    [X={xt}  Y={yt}] and, on a second line, [Z={z}], for the tile address
    [(xt, yt) = (x_c + gx - half, y_c + gy - half)] with [half = grid // 2],
    written without clamping, while the centre tile [(x_c, y_c)] is within
    [[0, 2^z)]; at zoom 0 with a 3 x 3 grid around the point (0, 0) the
    corner labels read X=-1 Y=-1 and X=1 Y=1, outside the only tile of that
    zoom, and the centre label reads X=0 Y=0. *)
Theorem draw_grid_labels_unclamped (canvas_error : Z -> Z -> option exn) :
  (forall (lat lon : R) (z grid ts : Z) (img : Image) (x_c y_c px py : Z),
      draw_grid canvas_error lat lon z grid ts = Ok img ->
      latlon_to_tile lat lon z ts = Ok (x_c, y_c, px, py) ->
      ((0 <= x_c < 2 ^ z)%Z /\ (0 <= y_c < 2 ^ z)%Z)
      /\ forall (tx ty : Z) (s : string),
          In (tx, ty, s) (labels_of img)
          <-> exists gx gy : Z,
                (0 <= gx < grid)%Z /\ (0 <= gy < grid)%Z
                /\ tx = (gx * ts + 6)%Z /\ ty = (gy * ts + 6)%Z
                /\ s = ("X=" ++ Py.str (x_c + gx - grid / 2)
                        ++ "  Y=" ++ Py.str (y_c + gy - grid / 2)
                        ++ String (ascii_of_nat 10) ("Z=" ++ Py.str z))%string)
  /\ (canvas_error 768%Z 768%Z = None ->
      exists img : Image,
        draw_grid canvas_error 0 0 0 3 256 = Ok img
        /\ In (6%Z, 6%Z,
               ("X=-1  Y=-1" ++ String (ascii_of_nat 10) "Z=0")%string)
              (labels_of img)
        /\ In (518%Z, 518%Z,
               ("X=1  Y=1" ++ String (ascii_of_nat 10) "Z=0")%string)
              (labels_of img)
        /\ In (262%Z, 262%Z,
               ("X=0  Y=0" ++ String (ascii_of_nat 10) "Z=0")%string)
              (labels_of img)
        /\ (-1 < 0)%Z /\ (2 ^ 0 <= 1)%Z).
Proof.
  split.
  - intros lat lon z grid ts img x_c y_c px py Hd Hll. split.
    + pose proof (latlon_to_tile_ok_inv _ _ _ _ _ _ _ _ Hll) as H. tauto.
    + intros tx ty s.
      rewrite (labels_of_draw_grid _ _ _ _ _ _ _ _ _ _ _ Hd Hll).
      apply in_cell_labels.
  - intros Ha.
    destruct (draw_grid_origin_zoom0 canvas_error Ha) as (img & px & py & Hll & Hd).
    exists img. split; [ exact Hd | ].
    rewrite (labels_of_draw_grid _ _ _ _ _ _ _ _ _ _ _ Hd Hll).
    repeat split; try lia.
    + apply in_cell_labels. exists 0%Z, 0%Z. repeat split; lia.
    + apply in_cell_labels. exists 2%Z, 2%Z. repeat split; lia.
    + apply in_cell_labels. exists 1%Z, 1%Z. repeat split; lia.
Qed.

Lemma draw_grid_labels_unclamped_witness :
  exists img : Image,
    draw_grid (fun _ _ => None) 0 0 0 3 256 = Ok img
    /\ In (6%Z, 6%Z, ("X=-1  Y=-1" ++ String (ascii_of_nat 10) "Z=0")%string)
          (labels_of img)
    /\ In (518%Z, 518%Z, ("X=1  Y=1" ++ String (ascii_of_nat 10) "Z=0")%string)
          (labels_of img).
Proof.
  destruct (proj2 (draw_grid_labels_unclamped (fun _ _ => None)) eq_refl)
    as (img & Hd & H1 & H2 & _).
  exists img. exact (conj Hd (conj H1 H2)).
Defined.

(** ** [render_zooms] *)

Section DriverProperties.

Variable makedirs_error : string -> option exn.
Variable canvas_error : Z -> Z -> option exn.
Variable save_error : string -> option exn.
Variables lat lon : R.
Variables grid ts : Z.
Variable out_dir : string.

Local Abbreviation outcome :=
  (zoom_outcome canvas_error save_error lat lon grid ts out_dir).

Lemma render_zoom_eq (z : Z) (w : world) :
  render_zoom canvas_error save_error lat lon grid ts out_dir z w =
  (Ok tt, mkWorld (console w ++ [fst (outcome z)]) (dirs w)
                  (files w ++ snd (outcome z))).
Proof.
  unfold zoom_outcome, render_zoom, io_try, io_bind, io_lift,
    img_save, print.
  destruct (draw_grid canvas_error lat lon z grid ts) as [ img | e ]; cbn.
  - destruct (save_error (out_path_of out_dir z)) as [ e | ]; cbn.
    + rewrite app_nil_r. reflexivity.
    + destruct (latlon_to_tile lat lon z ts) as [ [[[x y] px] py] | e ];
        cbn; reflexivity.
  - rewrite app_nil_r. reflexivity.
Qed.

Lemma for_zooms_eq (zooms : list Z) (w : world) :
  for_zooms (render_zoom canvas_error save_error lat lon grid ts out_dir) zooms w =
  (Ok tt, mkWorld (console w ++ map (fun z => fst (outcome z)) zooms)
                  (dirs w)
                  (files w ++ flat_map (fun z => snd (outcome z)) zooms)).
Proof.
  revert w. induction zooms as [ | z zooms IH ]; intros w.
  - cbn. unfold io_ret. rewrite !app_nil_r. destruct w; reflexivity.
  - cbn [for_zooms]. unfold io_bind at 1.
    rewrite render_zoom_eq, IH. cbn.
    rewrite <- !app_assoc. reflexivity.
Qed.

Lemma render_zooms_eq (zooms : list Z) (w : world) :
  makedirs_error out_dir = None ->
  render_zooms makedirs_error canvas_error save_error lat lon zooms grid ts out_dir w =
  (Ok tt, mkWorld (console w ++ map (fun z => fst (outcome z)) zooms)
                  (dirs w ++ [out_dir])
                  (files w ++ flat_map (fun z => snd (outcome z)) zooms)).
Proof.
  intros Hm. unfold render_zooms, io_bind, os_makedirs.
  rewrite Hm, for_zooms_eq. reflexivity.
Qed.

Lemma render_zooms_no_directory (zooms : list Z) (w : world) (e : exn) :
  makedirs_error out_dir = Some e ->
  render_zooms makedirs_error canvas_error save_error lat lon zooms grid ts out_dir w =
  (Raise e, w).
Proof.
  intros Hm. unfold render_zooms, io_bind, os_makedirs.
  rewrite Hm. reflexivity.
Qed.

Lemma outcome_line_kind (z : Z) :
  is_ok_line_for z (fst (outcome z)) \/ is_error_line_for z (fst (outcome z)).
Proof.
  unfold zoom_outcome.
  destruct (draw_grid canvas_error lat lon z grid ts) as [ img | e ]; cbn.
  - destruct (save_error (out_path_of out_dir z)) as [ e | ]; cbn.
    + right. exists (exn_str e). reflexivity.
    + destruct (latlon_to_tile lat lon z ts) as [ [[[x y] px] py] | e ]; cbn.
      * left. do 5 eexists. reflexivity.
      * right. exists (exn_str e). reflexivity.
  - right. exists (exn_str e). reflexivity.
Qed.

Hypothesis lon_ok : -180 <= lon <= 180.
Hypothesis grid_ok : Z.odd grid = true /\ (1 <= grid)%Z.
Hypothesis ts_ok : (1 <= ts)%Z.
Hypothesis canvas_ok : canvas_error (grid * ts)%Z (grid * ts)%Z = None.
Hypothesis save_ok : forall path, save_error path = None.

Lemma outcome_valid_zoom (z : Z) :
  zoom_in_range z = true ->
  exists (img : Image) (x y px py : Z),
    draw_grid canvas_error lat lon z grid ts = Ok img
    /\ latlon_to_tile lat lon z ts = Ok (x, y, px, py)
    /\ outcome z = (ok_line z (out_path_of out_dir z) x y px py,
                    [(out_path_of out_dir z, img)]).
Proof.
  intros Hz. unfold zoom_in_range in Hz.
  apply andb_true_iff in Hz. destruct Hz as [Hz1 Hz2].
  apply Z.leb_le in Hz1. apply Z.leb_le in Hz2.
  destruct grid_ok as [Ho Hg].
  destruct (draw_grid_is_ok canvas_error lat lon z grid ts Ho Hg ts_ok lon_ok
              (conj Hz1 Hz2) canvas_ok)
    as (x & y & px & py & Hll & Hd).
  eexists. exists x, y, px, py.
  split; [ exact Hd | split; [ exact Hll | ] ].
  unfold zoom_outcome. rewrite Hd, save_ok, Hll. reflexivity.
Qed.

Lemma outcome_invalid_zoom (z : Z) :
  zoom_in_range z = false ->
  outcome z = (error_line z (ValueError zoom_error), []).
Proof.
  intros Hz. unfold zoom_in_range in Hz.
  apply andb_false_iff in Hz.
  assert (Hz' : (z < 0 \/ 22 < z)%Z)
    by (destruct Hz as [Hz | Hz]; apply Z.leb_gt in Hz; lia).
  destruct grid_ok as [Ho Hg].
  unfold zoom_outcome.
  rewrite (draw_grid_raise_projection canvas_error lat lon z grid ts
             (ValueError zoom_error) Ho Hg
             (latlon_to_tile_bad_zoom lat lon z ts lon_ok Hz')).
  reflexivity.
Qed.

End DriverProperties.

Lemma ok_line_is_not_error_line (z z' : Z) (path : string) (x y px py : Z)
  (e : exn) :
  ok_line z path x y px py <> error_line z' e.
Proof. unfold ok_line, error_line. cbn. discriminate. Qed.

Lemma latlon_to_tile_origin_zoom5 :
  latlon_to_tile 0 0 5 256 = Ok (16, 16, 0, 0)%Z.
Proof.
  rewrite latlon_to_tile_eq by (lra || lia).
  assert (Hx : x_norm_of 0 = 1 / 2) by (unfold x_norm_of; lra).
  assert (Hy : y_norm_of 0 = 1 / 2).
  { unfold y_norm_of.
    rewrite clamp_lat_inside by (pose proof MAX_LAT_bounds; lra).
    unfold Py.radians. rewrite Rmult_0_l, tan_0, cos_0.
    replace (0 + 1 / 1) with 1 by lra. rewrite ln_1.
    unfold Rdiv. rewrite Rmult_0_l. lra. }
  rewrite Hx, Hy.
  change (2 ^ 5)%Z with 32%Z.
  replace (1 / 2 * IZR 32) with (IZR 16) by lra.
  replace (IZR 16 * IZR 256) with (IZR 4096) by lra.
  unfold Py.floor, Py.int.
  destruct (Rle_dec 0 (IZR 4096)) as [ _ | H ]; [ | lra ].
  rewrite !ZfloorZ. reflexivity.
Qed.

(** C5. Once the output directory exists, [render_zooms] never stops at a
    zoom level that fails: it returns normally having printed exactly one
    line per requested zoom, in order, each the success line or an error
    line of that zoom.  When the other arguments are valid, Pillow grants the
    canvas and the files can be written, a zoom in [[0, 22]] gives its
    success line and its file [grid_z{z}.png], and a zoom outside gives the
    error line of the zoom check and no file.  For the zooms [5, 30] around
    the point (0, 0): one success line and one file for zoom 5, then the
    error line for zoom 30. *)
Theorem render_zooms_isolates_failures :
  (forall (makedirs_error : string -> option exn)
          (canvas_error : Z -> Z -> option exn) (save_error : string -> option exn)
          (lat lon : R) (zooms : list Z) (grid ts : Z) (out_dir : string)
          (w : world),
      makedirs_error out_dir = None ->
      exists (lines : list string) (written : list (string * Image)),
        render_zooms makedirs_error canvas_error save_error lat lon zooms grid ts
                     out_dir w
        = (Ok tt, mkWorld (console w ++ lines) (dirs w ++ [out_dir])
                          (files w ++ written))
        /\ Forall2
             (fun z line => is_ok_line_for z line \/ is_error_line_for z line)
             zooms lines
        /\ (-180 <= lon <= 180 -> Z.odd grid = true -> (1 <= grid)%Z ->
            (1 <= ts <= 2 ^ 53)%Z ->
            canvas_error (grid * ts)%Z (grid * ts)%Z = None ->
            (forall path, save_error path = None) ->
            Forall2
              (fun z line =>
                 if zoom_in_range z
                 then exists x y px py : Z,
                     latlon_to_tile lat lon z ts = Ok (x, y, px, py)
                     /\ line =
                        ("[OK] Z=" ++ Py.str z ++ ": сохранено "
                         ++ out_path_of out_dir z
                         ++ " | tile=(" ++ Py.str x ++ "," ++ Py.str y
                         ++ ") px=(" ++ Py.str px ++ "," ++ Py.str py
                         ++ ")")%string
                 else line =
                      ("[ERROR] Не удалось построить изображение для Z="
                       ++ Py.str z ++ ": "
                       ++ "Уровень масштабирования z должен быть в диапазоне [0, 22].")%string)
              zooms lines
            /\ Forall2
                 (fun z file =>
                    fst file = out_path_of out_dir z
                    /\ draw_grid canvas_error lat lon z grid ts = Ok (snd file))
                 (filter zoom_in_range zooms) written))
  /\ (exists img5 : Image,
         draw_grid (fun _ _ => None) 0 0 5 3 256 = Ok img5
         /\ render_zooms (fun _ => None) (fun _ _ => None) (fun _ => None)
                         0 0 [5; 30]%Z 3 256 "./out" (mkWorld [] [] [])
            = (Ok tt,
               mkWorld
                 ["[OK] Z=5: сохранено ./out/grid_z5.png | tile=(16,16) px=(0,0)"%string;
                  "[ERROR] Не удалось построить изображение для Z=30: Уровень масштабирования z должен быть в диапазоне [0, 22]."%string]
                 ["./out"%string]
                 [("./out/grid_z5.png"%string, img5)])).
Proof.
  split.
  - intros makedirs_error canvas_error save_error lat lon zooms grid ts out_dir w Hm.
    exists (map (fun z => fst (zoom_outcome canvas_error save_error lat lon grid ts
                                            out_dir z)) zooms),
           (flat_map
              (fun z => snd (zoom_outcome canvas_error save_error lat lon grid ts
                                          out_dir z))
              zooms).
    split; [ apply render_zooms_eq; exact Hm | split ].
    + induction zooms as [ | z zooms IH ]; cbn; constructor;
        [ apply outcome_line_kind | exact IH ].
    + intros Hlon Ho Hg [Hts _] Ha Hsave. split.
      * induction zooms as [ | z zooms IH ]; cbn; constructor; [ | exact IH ].
        destruct (zoom_in_range z) eqn:Hz.
        -- destruct (outcome_valid_zoom canvas_error save_error lat lon grid ts
                       out_dir Hlon (conj Ho Hg) Hts Ha Hsave z Hz)
             as (img & x & y & px & py & _ & Hll & E).
           exists x, y, px, py. rewrite E. split; [ exact Hll | reflexivity ].
        -- rewrite (outcome_invalid_zoom canvas_error save_error lat lon grid ts
                      out_dir Hlon (conj Ho Hg) z Hz).
           reflexivity.
      * induction zooms as [ | z zooms IH ]; cbn; [ constructor | ].
        destruct (zoom_in_range z) eqn:Hz.
        -- destruct (outcome_valid_zoom canvas_error save_error lat lon grid ts
                       out_dir Hlon (conj Ho Hg) Hts Ha Hsave z Hz)
             as (img & x & y & px & py & Hd & _ & E).
           rewrite E. cbn. constructor; [ | exact IH ].
           cbn. split; [ reflexivity | exact Hd ].
        -- rewrite (outcome_invalid_zoom canvas_error save_error lat lon grid ts
                      out_dir Hlon (conj Ho Hg) z Hz).
           cbn. exact IH.
  - assert (Hlon : -180 <= 0 <= 180) by lra.
    assert (Hg : (1 <= 3)%Z) by lia.
    assert (Hts : (1 <= 256)%Z) by lia.
    destruct (outcome_valid_zoom (fun _ _ => None) (fun _ => None) 0 0 3%Z
                256%Z "./out"%string Hlon (conj eq_refl Hg) Hts eq_refl (fun _ => eq_refl)
                5%Z eq_refl)
      as (img & x & y & px & py & Hd & Hll & E5).
    rewrite latlon_to_tile_origin_zoom5 in Hll. injection Hll as <- <- <- <-.
    pose proof (outcome_invalid_zoom (fun _ _ => None) (fun _ => None) 0 0
                  3%Z 256%Z "./out"%string Hlon (conj eq_refl Hg) 30%Z eq_refl) as E30.
    exists img. split; [ exact Hd | ].
    rewrite render_zooms_eq by reflexivity.
    cbn [map flat_map]. rewrite E5, E30. reflexivity.
Qed.

Lemma render_zooms_isolates_failures_witness :
  exists (ok5 : string) (img5 : Image),
    render_zooms (fun _ => None) (fun _ _ => None) (fun _ => None)
                 53.1959 50.1008 [5; 30]%Z 3 256 "./out" (mkWorld [] [] [])
    = (Ok tt,
       mkWorld [ok5;
                "[ERROR] Не удалось построить изображение для Z=30: Уровень масштабирования z должен быть в диапазоне [0, 22]."%string]
               ["./out"%string]
               [("./out/grid_z5.png"%string, img5)])
    /\ is_ok_line_for 5 ok5
    /\ draw_grid (fun _ _ => None) 53.1959 50.1008 5 3 256 = Ok img5.
Proof.
  destruct (proj1 render_zooms_isolates_failures
              (fun _ => None) (fun _ _ => None) (fun _ => None)
              53.1959 50.1008 [5; 30]%Z 3%Z 256%Z "./out"%string
              (mkWorld [] [] []) eq_refl)
    as (lines & written & E & _ & H).
  assert (Hlon : -180 <= 50.1008 <= 180) by lra.
  assert (Hg : (1 <= 3)%Z) by lia.
  assert (Hts : (1 <= 256 <= 2 ^ 53)%Z) by lia.
  destruct (H Hlon eq_refl Hg Hts eq_refl (fun _ => eq_refl)) as [Hl Hf].
  change (filter zoom_in_range [5; 30]%Z) with [5%Z] in Hf.
  inversion Hl as [ | z1 l1 zs1 ls1 H5 Hl1 ]; subst.
  inversion Hl1 as [ | z2 l2 zs2 ls2 H30 Hl2 ]; subst.
  inversion Hl2; subst.
  inversion Hf as [ | z3 f3 zs3 fs3 Hf5 Hf1 ]; subst.
  inversion Hf1; subst.
  change (zoom_in_range 5) with true in H5.
  change (zoom_in_range 30) with false in H30.
  cbv beta iota in H5, H30.
  destruct H5 as (x & y & px & py & Hll & E5).
  destruct f3 as [path img]. destruct Hf5 as [Hp Hd].
  cbn [fst snd] in Hp, Hd.
  change (out_path_of "./out" 5) with "./out/grid_z5.png"%string in Hp.
  rewrite H30, Hp in E.
  exists l1, img. split; [ exact E | split; [ | exact Hd ] ].
  exists (out_path_of "./out" 5), x, y, px, py. exact E5.
Defined.

(** ** [tile_to_bounds] *)

Lemma pow2_IZR (z : Z) : (0 <= z)%Z -> pow2 z = IZR (2 ^ z).
Proof.
  intros Hz. unfold pow2.
  rewrite <- (Z2Nat.id z Hz) at 1 2.
  rewrite <- pow_powerRZ, pow_IZR. reflexivity.
Qed.

Lemma pow2_gt_0 (z : Z) : (0 <= z)%Z -> 0 < pow2 z.
Proof.
  intros Hz. rewrite (pow2_IZR z Hz).
  apply IZR_lt. pose proof (pow2_pos z Hz). lia.
Qed.

Lemma lon_deg_lt (n : R) (a b : Z) :
  0 < n -> (a < b)%Z -> lon_deg n a < lon_deg n b.
Proof.
  intros Hn Hab. unfold lon_deg.
  apply IZR_lt in Hab.
  assert (IZR a / n < IZR b / n)
    by (unfold Rdiv; apply Rmult_lt_compat_r;
        [ apply Rinv_0_lt_compat; assumption | assumption ]).
  lra.
Qed.

(** The angle (in radians) whose degrees [lat_deg] returns. *)
Lemma lat_deg_radians (n : R) (ty : Z) :
  Py.radians (lat_deg n ty) = atan (sinh (PI * (1 - 2 * IZR ty / n))).
Proof.
  unfold lat_deg, Py.radians, Py.degrees.
  pose proof PI_RGT_0. field. lra.
Qed.

Lemma mercator_arg_lt (n : R) (a b : Z) :
  0 < n -> (a < b)%Z ->
  PI * (1 - 2 * IZR b / n) < PI * (1 - 2 * IZR a / n).
Proof.
  intros Hn Hab.
  apply IZR_lt in Hab.
  assert (IZR a / n < IZR b / n)
    by (unfold Rdiv; apply Rmult_lt_compat_r;
        [ apply Rinv_0_lt_compat; assumption | assumption ]).
  apply Rmult_lt_compat_l; [ apply PI_RGT_0 | ].
  unfold Rdiv in *. lra.
Qed.

Lemma lat_deg_gt (n : R) (a b : Z) :
  0 < n -> (a < b)%Z -> lat_deg n b < lat_deg n a.
Proof.
  intros Hn Hab. unfold lat_deg, Py.degrees.
  apply Rmult_lt_compat_r.
  - apply Rdiv_lt_0_compat; [ lra | apply PI_RGT_0 ].
  - apply atan_increasing, sinh_lt, mercator_arg_lt; assumption.
Qed.

(** C4. For a tile of a zoom in [[0, 22]], [tile_to_bounds] returns
    [lon_min = lon(x)], [lon_max = lon(x + 1)], [lat_max = lat(y)] and
    [lat_min = lat(y + 1)], where [lon(tx) = tx / n * 360 - 180] and
    [lat(ty)] is [atan(sinh(pi * (1 - 2 * ty / n)))] in degrees, [n = 2^z];
    and [lat_min < lat_max], [lon_min < lon_max]. *)
Theorem tile_to_bounds_ordered (x y z : Z) :
  (0 <= z <= 22)%Z -> (0 <= x < 2 ^ z)%Z -> (0 <= y < 2 ^ z)%Z ->
  let n := IZR (2 ^ z) in
  let lon := fun tx : Z => IZR tx / n * 360 - 180 in
  let lat := fun ty : Z =>
               atan (sinh (PI * (1 - 2 * IZR ty / n))) * (180 / PI) in
  exists lon_min lat_min lon_max lat_max : R,
    tile_to_bounds x y z = (lon_min, lat_min, lon_max, lat_max)
    /\ lat_min < lat_max /\ lon_min < lon_max
    /\ lon_min = lon x /\ lon_max = lon (x + 1)%Z
    /\ lat_max = lat y /\ lat_min = lat (y + 1)%Z.
Proof.
  intros Hz Hx Hy n lon lat.
  assert (Hz0 : (0 <= z)%Z) by lia.
  exists (lon_deg (pow2 z) x), (lat_deg (pow2 z) (y + 1)),
         (lon_deg (pow2 z) (x + 1)), (lat_deg (pow2 z) y).
  split; [ reflexivity | ].
  split; [ apply lat_deg_gt; [ apply pow2_gt_0; assumption | lia ] | ].
  split; [ apply lon_deg_lt; [ apply pow2_gt_0; assumption | lia ] | ].
  unfold lon, lat, n, lon_deg, lat_deg, Py.degrees.
  rewrite (pow2_IZR z Hz0).
  repeat split; reflexivity.
Qed.

Lemma tile_to_bounds_ordered_witness :
  exists lon_min lat_min lon_max lat_max : R,
    tile_to_bounds 2387 1081 12 = (lon_min, lat_min, lon_max, lat_max)
    /\ lat_min < lat_max /\ lon_min < lon_max.
Proof.
  assert (Hz : (0 <= 12 <= 22)%Z) by lia.
  assert (Hx : (0 <= 2387 < 2 ^ 12)%Z) by (cbn; lia).
  assert (Hy : (0 <= 1081 < 2 ^ 12)%Z) by (cbn; lia).
  destruct (tile_to_bounds_ordered 2387 1081 12 Hz Hx Hy)
    as (a & b & c & d & E & H1 & H2 & _).
  exists a, b, c, d. exact (conj E (conj H1 H2)).
Defined.

(** ** Numerical bounds: [MAX_LAT] is not below the latitude of the top edge *)

Lemma INR_fact (n : nat) : INR (fact n) = IZR (Zfact n).
Proof.
  induction n as [ | n IH ]; [ reflexivity | ].
  change (fact (S n)) with (S n * fact n)%nat.
  change (Zfact (S n)) with (Z.of_nat (S n) * Zfact n)%Z.
  rewrite mult_INR, mult_IZR, IH, INR_IZR_INZ. reflexivity.
Qed.

Lemma Zfact_pos (n : nat) : (0 < Zfact n)%Z.
Proof.
  induction n as [ | n IH ]; [ reflexivity | ].
  change (Zfact (S n)) with (Z.of_nat (S n) * Zfact n)%Z. lia.
Qed.

Ltac eval_Zfact :=
  repeat match goal with
         | |- context [Zfact ?k] =>
             let c := eval vm_compute in (Zfact k) in
             change (Zfact k) with c
         end.

Lemma exp_term_decreasing (q : R) : 0 <= q <= 1 -> Un_decreasing (exp_term q).
Proof.
  intros [Hq0 Hq1] n. unfold exp_term.
  rewrite !INR_fact.
  change (Zfact (S n)) with (Z.of_nat (S n) * Zfact n)%Z.
  rewrite mult_IZR, <- INR_IZR_INZ, S_INR.
  pose proof (pos_INR n) as Hn.
  pose proof (IZR_lt _ _ (Zfact_pos n)) as Hf.
  pose proof (pow_le q n Hq0) as Hp.
  cbn [pow].
  apply Rmult_le_reg_r with ((INR n + 1) * IZR (Zfact n)); [ nra | ].
  replace (q * q ^ n / ((INR n + 1) * IZR (Zfact n))
           * ((INR n + 1) * IZR (Zfact n)))
    with (q * q ^ n) by (field; lra).
  replace (q ^ n / IZR (Zfact n) * ((INR n + 1) * IZR (Zfact n)))
    with (q ^ n * (INR n + 1)) by (field; lra).
  nra.
Qed.

Lemma exp_alt_sum (q : R) (N : nat) :
  sum_f_R0 (tg_alt (exp_term q)) N = E1 (- q) N.
Proof.
  unfold E1. apply sum_eq. intros i _.
  unfold tg_alt, exp_term.
  replace (- q) with (-1 * q) by ring.
  rewrite Rpow_mult_distr. unfold Rdiv. ring.
Qed.

(** An odd partial sum of the alternating series is below [exp (- q)]. *)
Lemma exp_neg_lower (q : R) (N : nat) :
  0 <= q <= 1 ->
  sum_f_R0 (tg_alt (exp_term q)) (S (2 * N)) <= exp (- q).
Proof.
  intros Hq.
  refine (proj1 (alternated_series_ineq (exp_term q) (exp (- q)) N
                   (exp_term_decreasing q Hq) _ _)).
  - exact (cv_speed_pow_fact q).
  - intros eps Heps. destruct (E1_cvg (- q) eps Heps) as [n0 Hn0].
    exists n0. intros n Hn. rewrite exp_alt_sum. apply Hn0. exact Hn.
Qed.

Lemma PI_upper : PI < 3.1415926535898.
Proof.
  pose proof (PI_2_3_7_ineq 7) as [_ Hhi].
  unfold PI_2_3_7_tg, tg_alt, Ratan_seq in Hhi.
  cbn [sum_f_R0 Nat.mul Nat.add] in Hhi.
  rewrite !INR_IZR_INZ in Hhi.
  cbn [Z.of_nat Pos.of_succ_nat Pos.succ] in Hhi.
  lra.
Qed.

Lemma exp_neg_quarter_pi_lower :
  0.45593812776599 <= exp (- (3.1415926535898 / 4)).
Proof.
  eapply Rle_trans; [ | apply (exp_neg_lower (3.1415926535898 / 4) 7); lra ].
  unfold tg_alt, exp_term.
  cbn [sum_f_R0 Nat.mul Nat.add].
  rewrite !INR_fact. eval_Zfact.
  lra.
Qed.

Lemma exp_PI_upper : exp PI <= 23.14069263279.
Proof.
  pose proof PI_upper as Hpi.
  pose proof exp_neg_quarter_pi_lower as Ha.
  set (q := 3.1415926535898 / 4) in *.
  assert (Hq : exp q <= 2.19328005073805).
  { pose proof (exp_pos (- q)) as Hp.
    rewrite exp_Ropp in Ha, Hp.
    pose proof (exp_pos q) as Hq.
    apply Rmult_le_reg_r with (/ exp q); [ assumption | ].
    rewrite Rinv_r by lra. nra. }
  apply Rle_trans with (exp (q + q + q + q)).
  { left. apply exp_increasing. unfold q. lra. }
  rewrite !exp_plus.
  pose proof (exp_pos q) as Hq0.
  assert (H2 : exp q * exp q <= 2.19328005073805 * 2.19328005073805) by nra.
  assert (H2' : 0 < exp q * exp q) by nra.
  assert (H4 : exp q * exp q * (exp q * exp q)
               <= 2.19328005073805 * 2.19328005073805
                  * (2.19328005073805 * 2.19328005073805)) by nra.
  lra.
Qed.

Lemma sinh_PI_upper : sinh PI <= 11.548739357264.
Proof.
  pose proof exp_PI_upper as He.
  pose proof (exp_pos PI) as Hp.
  unfold sinh. rewrite exp_Ropp.
  assert (Hinv : / 23.14069263279 <= / exp PI)
    by (apply Rinv_le_contravar; assumption).
  lra.
Qed.

Lemma pole_gap_range : 0 < pole_gap <= pole_gap_hi.
Proof.
  pose proof PI_upper. pose proof PI_RGT_0.
  unfold pole_gap, MAX_LAT, pole_gap_hi. split; lra.
Qed.

Lemma sin_pole_gap_upper : sin pole_gap <= 0.0862667383307.
Proof.
  pose proof pole_gap_range as [H0 He].
  pose proof PI2_1 as Hpi.
  apply Rle_trans with (sin pole_gap_hi).
  { apply sin_incr_1; unfold pole_gap_hi in *; lra. }
  apply Rle_trans with (sin_approx pole_gap_hi 4).
  { apply (pre_sin_bound pole_gap_hi 1); unfold pole_gap_hi; lra. }
  unfold sin_approx, sin_term, pole_gap_hi.
  cbn [sum_f_R0 Nat.mul Nat.add].
  rewrite !INR_fact. eval_Zfact.
  lra.
Qed.

Lemma cos_pole_gap_lower : 0.99627207622096 <= cos pole_gap.
Proof.
  pose proof pole_gap_range as [H0 He].
  pose proof PI2_1 as Hpi.
  apply Rle_trans with (cos pole_gap_hi).
  2:{ apply cos_decr_1; unfold pole_gap_hi in *; lra. }
  apply Rle_trans with (cos_approx pole_gap_hi 3).
  2:{ apply (pre_cos_bound pole_gap_hi 1); unfold pole_gap_hi; lra. }
  unfold cos_approx, cos_term, pole_gap_hi.
  cbn [sum_f_R0 Nat.mul Nat.add].
  rewrite !INR_fact. eval_Zfact.
  lra.
Qed.

Lemma sinh_PI_le_tan_MAX_LAT : sinh PI <= tan (MAX_LAT * (PI / 180)).
Proof.
  replace (MAX_LAT * (PI / 180)) with (PI / 2 - pole_gap)
    by (unfold pole_gap; field).
  unfold tan. rewrite sin_shift, cos_shift.
  pose proof sinh_PI_upper as Hs.
  pose proof sin_pole_gap_upper as Hsin.
  pose proof cos_pole_gap_lower as Hcos.
  pose proof pole_gap_range as [Hg0 Hg1].
  assert (Hpos : 0 < sin pole_gap).
  { pose proof PI2_1. apply sin_gt_0; unfold pole_gap_hi in *; lra. }
  apply Rmult_le_reg_r with (sin pole_gap); [ assumption | ].
  unfold Rdiv. rewrite Rmult_assoc, Rinv_l, Rmult_1_r by lra.
  destruct (Rle_dec (sinh PI) 0) as [Hneg | Hnn]; [ nra | ].
  apply Rle_trans with (11.548739357264 * 0.0862667383307); [ | lra ].
  apply Rmult_le_compat; lra.
Qed.

(** The latitude of the top edge of the map, [atan (sinh pi)], is within the
    clamping bound: 85.0511287798... <= 85.05112878 degrees. *)
Lemma atan_sinh_PI_upper : atan (sinh PI) <= MAX_LAT * (PI / 180).
Proof.
  pose proof PI_RGT_0 as Hpi.
  rewrite <- (atan_tan (MAX_LAT * (PI / 180)))
    by (unfold MAX_LAT; split; lra).
  destruct sinh_PI_le_tan_MAX_LAT as [Hlt | Heq].
  - left. apply atan_increasing. exact Hlt.
  - right. rewrite Heq. reflexivity.
Qed.

(** ** The projection and its inverse *)

Lemma sinh_opp (x : R) : sinh (- x) = - sinh x.
Proof. unfold sinh. rewrite Ropp_involutive. lra. Qed.

Lemma atan_sinh_le (u v : R) : u <= v -> atan (sinh u) <= atan (sinh v).
Proof.
  intros [Hlt | ->]; [ left | right; reflexivity ].
  apply atan_increasing, sinh_lt. exact Hlt.
Qed.

Lemma sec_as_sqrt (t : R) :
  - (PI / 2) < t < PI / 2 -> sqrt (tan t ^ 2 + 1) = 1 / cos t.
Proof.
  intros Ht.
  assert (Hc : 0 < cos t) by (apply cos_gt_0; lra).
  assert (Hinv : 0 < / cos t) by (apply Rinv_0_lt_compat; exact Hc).
  replace (tan t ^ 2 + 1) with ((1 / cos t) ^ 2).
  - rewrite sqrt_pow2; [ reflexivity | ]. unfold Rdiv. lra.
  - unfold tan. pose proof (sin2_cos2 t) as Hsc. unfold Rsqr in Hsc.
    replace ((sin t / cos t) ^ 2 + 1)
      with ((sin t * sin t + cos t * cos t) / (cos t * cos t))
      by (field; lra).
    rewrite Hsc. field. lra.
Qed.

Lemma mercator_arcsinh (t : R) :
  - (PI / 2) < t < PI / 2 -> mercator t = arcsinh (tan t).
Proof.
  intros Ht. unfold mercator, arcsinh.
  rewrite (sec_as_sqrt t Ht). reflexivity.
Qed.

Lemma mercator_lt (a b : R) :
  - (PI / 2) < a -> a < b -> b < PI / 2 -> mercator a < mercator b.
Proof.
  intros Ha Hab Hb.
  rewrite !mercator_arcsinh by lra.
  apply arcsinh_lt, tan_increasing; lra.
Qed.

Lemma mercator_atan_sinh (v : R) : mercator (atan (sinh v)) = v.
Proof.
  pose proof (atan_bound (sinh v)) as Hb.
  rewrite mercator_arcsinh by lra.
  rewrite tan_atan. apply arcsinh_sinh.
Qed.

Lemma edge_angle_bound (n : R) (k : Z) :
  0 < n -> 0 <= IZR k <= n ->
  - atan (sinh PI) <= atan (sinh (PI * (1 - 2 * IZR k / n))) <= atan (sinh PI).
Proof.
  intros Hn [Hk0 Hkn].
  pose proof PI_RGT_0 as Hpi.
  assert (Hq : 0 <= IZR k / n <= 1).
  { split.
    - apply Rmult_le_pos; [ assumption | left; apply Rinv_0_lt_compat; lra ].
    - apply Rmult_le_reg_r with n; [ assumption | ].
      unfold Rdiv. rewrite Rmult_assoc, Rinv_l by lra. lra. }
  assert (Hv : - PI <= PI * (1 - 2 * IZR k / n) <= PI)
    by (unfold Rdiv in *; split; nra).
  split.
  - rewrite <- atan_opp, <- sinh_opp. apply atan_sinh_le. lra.
  - apply atan_sinh_le. lra.
Qed.

Lemma floor_half (k : Z) : Py.floor (IZR k + 1 / 2) = k.
Proof. unfold Py.floor. apply Zfloor_eq. lra. Qed.

Lemma floor_between (k : Z) (r : R) : IZR k < r < IZR k + 1 -> Py.floor r = k.
Proof. intros Hr. unfold Py.floor. apply Zfloor_eq. lra. Qed.

Section RoundTrip.

Variables x y z : Z.
Hypothesis z_ok : (0 <= z <= 22)%Z.
Hypothesis x_ok : (0 <= x < 2 ^ z)%Z.
Hypothesis y_ok : (0 <= y < 2 ^ z)%Z.

Local Abbreviation n := (IZR (2 ^ z)).
Local Abbreviation lat_c := (center_lat x y z).
Local Abbreviation lon_c := (center_lon x y z).

Lemma n_pos : 0 < n.
Proof. rewrite <- pow2_IZR by lia. apply pow2_gt_0. lia. Qed.

Lemma center_lon_eq : lon_c = (IZR x + 1 / 2) / n * 360 - 180.
Proof.
  pose proof n_pos as Hn.
  unfold center_lon, bounds_center, tile_to_bounds. cbn [snd].
  unfold lon_deg. rewrite pow2_IZR by lia.
  rewrite plus_IZR. field. lra.
Qed.

Lemma center_lon_range : -180 <= lon_c <= 180.
Proof.
  pose proof n_pos as Hn.
  rewrite center_lon_eq.
  assert (Hx0 : 0 <= IZR x) by (apply IZR_le; lia).
  assert (Hx1 : IZR x + 1 <= n)
    by (rewrite <- plus_IZR; apply IZR_le; lia).
  assert (Hq : 0 <= (IZR x + 1 / 2) / n <= 1).
  { split.
    - apply Rmult_le_pos; [ lra | left; apply Rinv_0_lt_compat; lra ].
    - apply Rmult_le_reg_r with n; [ assumption | ].
      unfold Rdiv. rewrite Rmult_assoc, Rinv_l by lra. lra. }
  lra.
Qed.

Lemma center_x_tile : Py.floor (x_norm_of lon_c * n) = x.
Proof.
  pose proof n_pos as Hn.
  rewrite center_lon_eq. unfold x_norm_of.
  replace (((IZR x + 1 / 2) / n * 360 - 180 + 180) / 360 * n)
    with (IZR x + 1 / 2) by (field; lra).
  apply floor_half.
Qed.

Lemma center_lat_radians :
  Py.radians lat_c
  = (atan (sinh (PI * (1 - 2 * IZR (y + 1) / n)))
     + atan (sinh (PI * (1 - 2 * IZR y / n)))) / 2.
Proof.
  unfold center_lat, bounds_center, tile_to_bounds. cbn [fst].
  rewrite pow2_IZR by lia.
  rewrite <- !lat_deg_radians. unfold Py.radians. field.
Qed.

Lemma center_lat_strictly_inside :
  atan (sinh (PI * (1 - 2 * IZR (y + 1) / n))) < Py.radians lat_c
  /\ Py.radians lat_c < atan (sinh (PI * (1 - 2 * IZR y / n))).
Proof.
  rewrite center_lat_radians.
  assert (Hlt : atan (sinh (PI * (1 - 2 * IZR (y + 1) / n)))
                < atan (sinh (PI * (1 - 2 * IZR y / n))))
    by (apply atan_increasing, sinh_lt, mercator_arg_lt; [ apply n_pos | lia ]).
  split; lra.
Qed.

Lemma center_lat_not_clamped : clamp_lat lat_c = lat_c.
Proof.
  apply clamp_lat_inside.
  pose proof PI_RGT_0 as Hpi.
  pose proof atan_sinh_PI_upper as Hnum.
  pose proof n_pos as Hn.
  assert (Hy0 : 0 <= IZR y <= n)
    by (split; apply IZR_le; lia).
  assert (Hy1 : 0 <= IZR (y + 1) <= n)
    by (split; apply IZR_le; lia).
  pose proof (edge_angle_bound n y Hn Hy0) as Ha.
  pose proof (edge_angle_bound n (y + 1) Hn Hy1) as Hb.
  pose proof center_lat_radians as Hr.
  assert (Hrad : - (MAX_LAT * (PI / 180)) <= Py.radians lat_c
                 <= MAX_LAT * (PI / 180)) by lra.
  unfold Py.radians in Hrad.
  assert (Hp : 0 < PI / 180) by lra.
  split; apply Rmult_le_reg_r with (PI / 180); lra.
Qed.

Lemma center_y_tile : Py.floor (y_norm_of lat_c * n) = y.
Proof.
  pose proof n_pos as Hn.
  pose proof PI_RGT_0 as Hpi.
  unfold y_norm_of. rewrite center_lat_not_clamped.
  fold (mercator (Py.radians lat_c)).
  destruct center_lat_strictly_inside as [Hlo Hhi].
  pose proof (atan_bound (sinh (PI * (1 - 2 * IZR (y + 1) / n)))) as Hb1.
  pose proof (atan_bound (sinh (PI * (1 - 2 * IZR y / n)))) as Hb0.
  assert (Hm1 : PI * (1 - 2 * IZR (y + 1) / n) < mercator (Py.radians lat_c)).
  { rewrite <- (mercator_atan_sinh (PI * (1 - 2 * IZR (y + 1) / n))) at 1.
    apply mercator_lt; lra. }
  assert (Hm0 : mercator (Py.radians lat_c) < PI * (1 - 2 * IZR y / n)).
  { rewrite <- (mercator_atan_sinh (PI * (1 - 2 * IZR y / n))).
    apply mercator_lt; lra. }
  set (m := mercator (Py.radians lat_c)) in *.
  rewrite plus_IZR in Hm1.
  assert (Hinv : 0 < / n) by (apply Rinv_0_lt_compat; exact Hn).
  assert (Hpinv : 0 < / PI) by (apply Rinv_0_lt_compat; exact Hpi).
  assert (Hm1' : 1 - 2 * (IZR y + 1) / n < m / PI).
  { apply Rmult_lt_reg_r with PI; [ exact Hpi | ].
    unfold Rdiv at 2. rewrite Rmult_assoc, Rinv_l by lra. lra. }
  assert (Hm0' : m / PI < 1 - 2 * IZR y / n).
  { apply Rmult_lt_reg_r with PI; [ exact Hpi | ].
    unfold Rdiv at 1. rewrite Rmult_assoc, Rinv_l by lra. lra. }
  apply floor_between.
  assert (E1 : (1 - (1 - 2 * (IZR y + 1) / n)) / 2 * n = IZR y + 1)
    by (field; lra).
  assert (E0 : (1 - (1 - 2 * IZR y / n)) / 2 * n = IZR y) by (field; lra).
  split.
  - rewrite <- E0. apply Rmult_lt_compat_r; lra.
  - rewrite <- E1. apply Rmult_lt_compat_r; lra.
Qed.

Lemma center_round_trip (ts : Z) :
  ts <> 0%Z ->
  exists px py : Z, latlon_to_tile lat_c lon_c z ts = Ok (x, y, px, py).
Proof.
  intros Hts.
  rewrite (latlon_to_tile_eq lat_c lon_c z ts center_lon_range z_ok Hts).
  rewrite center_x_tile, center_y_tile.
  rewrite !clamp_index_id by lia.
  do 2 eexists. reflexivity.
Qed.

End RoundTrip.

(** C2. For a tile [(x, y)] of a zoom in [[0, 22]], the point at the centre
    of the rectangle [tile_to_bounds] returns projects back, at the same
    zoom, to the tile [(x, y)] (for the default tile size, and for every
    tile size other than zero). *)
Theorem tile_center_round_trip (x y z ts : Z) :
  (0 <= z <= 22)%Z -> (0 <= x < 2 ^ z)%Z -> (0 <= y < 2 ^ z)%Z ->
  ts <> 0%Z ->
  exists (lat lon : R) (px py : Z),
    bounds_center (tile_to_bounds x y z) = (lat, lon)
    /\ latlon_to_tile lat lon z ts = Ok (x, y, px, py).
Proof.
  intros Hz Hx Hy Hts.
  destruct (center_round_trip x y z Hz Hx Hy ts Hts) as (px & py & E).
  exists (center_lat x y z), (center_lon x y z), px, py.
  split; [ | exact E ].
  unfold center_lat, center_lon.
  destruct (bounds_center (tile_to_bounds x y z)); reflexivity.
Qed.

Lemma tile_center_round_trip_witness :
  exists (lat lon : R) (px py : Z),
    bounds_center (tile_to_bounds 2387 1081 12) = (lat, lon)
    /\ latlon_to_tile lat lon 12 default_tile_size = Ok (2387, 1081, px, py)%Z.
Proof.
  assert (Hz : (0 <= 12 <= 22)%Z) by lia.
  assert (Hx : (0 <= 2387 < 2 ^ 12)%Z) by (cbn; lia).
  assert (Hy : (0 <= 1081 < 2 ^ 12)%Z) by (cbn; lia).
  assert (Hts : default_tile_size <> 0%Z) by discriminate.
  exact (tile_center_round_trip 2387 1081 12 default_tile_size Hz Hx Hy Hts).
Defined.

(** ** What [main] lets through *)

Lemma check_zooms_ok (zooms : list Z) :
  check_zooms zooms = Ok tt -> Forall (fun z => (0 <= z <= 22)%Z) zooms.
Proof.
  induction zooms as [ | z zooms IH ]; cbn; intros H; constructor.
  - destruct (Z.ltb_spec z 0); [ discriminate | ].
    destruct (Z.ltb_spec 22 z); [ discriminate | ]. lia.
  - apply IH.
    destruct ((z <? 0)%Z || (22 <? z)%Z); [ discriminate | exact H ].
Qed.

Lemma validate_args_ok (a : Args) :
  validate_args a = Ok tt ->
  -180 <= arg_lon a <= 180 /\ -90 <= arg_lat a <= 90
  /\ Z.odd (arg_grid a) = true /\ (1 <= arg_grid a)%Z
  /\ (8 <= arg_tile_size a <= 2048)%Z
  /\ Forall (fun z => (0 <= z <= 22)%Z) (arg_zooms a).
Proof.
  unfold validate_args. intros H.
  destruct (Rle_dec (-180) (arg_lon a)) as [L1 | ]; [ | discriminate ].
  destruct (Rle_dec (arg_lon a) 180) as [L2 | ]; [ | discriminate ].
  destruct (Rle_dec (-90) (arg_lat a)) as [L3 | ]; [ | discriminate ].
  destruct (Rle_dec (arg_lat a) 90) as [L4 | ]; [ | discriminate ].
  cbn [negb] in H.
  destruct (Z.ltb_spec (arg_grid a) 1) as [ | G1 ]; [ discriminate | ].
  destruct (Z.eqb_spec (arg_grid a mod 2) 0) as [ | G2 ]; [ discriminate | ].
  destruct (Z.ltb_spec (arg_tile_size a) 8) as [ | T1 ]; [ discriminate | ].
  destruct (Z.ltb_spec 2048 (arg_tile_size a)) as [ | T2 ]; [ discriminate | ].
  cbn [orb] in H.
  repeat split; try assumption.
  - rewrite Zmod_odd in G2. destruct (Z.odd (arg_grid a)); congruence.
  - apply check_zooms_ok. exact H.
Qed.

(** Every call of [latlon_to_tile] that [main] leads to is made with a tile
    size in [[8, 2048]] and returns a tile and a pixel in range. *)
Lemma validated_projection_in_range (a : Args) :
  validate_args a = Ok tt ->
  Forall
    (fun z =>
       in_tile_range z (arg_tile_size a)
                     (latlon_to_tile (arg_lat a) (arg_lon a) z (arg_tile_size a)))
    (arg_zooms a).
Proof.
  intros H. apply validate_args_ok in H.
  destruct H as (Hlon & _ & _ & _ & Hts & Hz).
  eapply Forall_impl; [ | exact Hz ].
  intros z Hz'. apply latlon_to_tile_in_range; [ assumption | assumption | lia ].
Qed.

(** * Further properties of the code *)

(** ** [clamp_lat] and the order *)

Lemma clamp_lat_monotone (v w : R) : v <= w -> clamp_lat v <= clamp_lat w.
Proof.
  intros Hvw. unfold clamp_lat. rewrite !maxR_spec, !minR_spec.
  apply Rle_max_compat_r, Rle_min_compat_r. exact Hvw.
Qed.

Lemma clamp_lat_north (v : R) : MAX_LAT <= v -> clamp_lat v = MAX_LAT.
Proof.
  intros Hv. pose proof MAX_LAT_bounds.
  unfold clamp_lat, Py.maxR, Py.minR.
  destruct (Rlt_dec MAX_LAT v); destruct (Rlt_dec _ (- MAX_LAT)); lra.
Qed.

Lemma clamp_lat_south (v : R) : v <= - MAX_LAT -> clamp_lat v = - MAX_LAT.
Proof.
  intros Hv. pose proof MAX_LAT_bounds.
  unfold clamp_lat, Py.maxR, Py.minR.
  destruct (Rlt_dec MAX_LAT v); destruct (Rlt_dec _ (- MAX_LAT)); lra.
Qed.

(** X1. [clamp_lat] leaves a latitude unchanged exactly when it is within
    [[-85.05112878, 85.05112878]], sends everything at or beyond a bound to
    that bound, and preserves the order of latitudes. *)
Theorem clamp_lat_saturates (v w : R) :
  (clamp_lat v = v <-> -85.05112878 <= v <= 85.05112878)
  /\ (85.05112878 <= v -> clamp_lat v = 85.05112878)
  /\ (v <= -85.05112878 -> clamp_lat v = -85.05112878)
  /\ (v <= w -> clamp_lat v <= clamp_lat w).
Proof.
  pose proof (clamp_lat_range v) as Hr.
  pose proof (clamp_lat_inside v) as Hi.
  pose proof (clamp_lat_north v) as Hn.
  pose proof (clamp_lat_south v) as Hs.
  unfold MAX_LAT in *.
  split; [ split | split; [ | split ] ].
  - intros E. rewrite <- E. lra.
  - intros H. apply Hi. lra.
  - intros H. apply Hn. lra.
  - intros H. rewrite Hs by lra. lra.
  - apply clamp_lat_monotone.
Qed.

Lemma clamp_lat_saturates_witness :
  clamp_lat 90 = 85.05112878 /\ clamp_lat (-1000) = -85.05112878
  /\ clamp_lat 53.1959 = 53.1959 /\ clamp_lat 53.1959 <= clamp_lat 90.
Proof.
  pose proof (clamp_lat_saturates 90 90) as (_ & H1 & _ & _).
  pose proof (clamp_lat_saturates (-1000) 0) as (_ & _ & H2 & _).
  pose proof (clamp_lat_saturates 53.1959 90) as (H3 & _ & _ & H4).
  assert (A1 : 85.05112878 <= 90) by lra.
  assert (A2 : -1000 <= -85.05112878) by lra.
  assert (A3 : -85.05112878 <= 53.1959 <= 85.05112878) by lra.
  assert (A4 : 53.1959 <= 90) by lra.
  exact (conj (H1 A1) (conj (H2 A2) (conj (proj2 H3 A3) (H4 A4)))).
Defined.

(** ** The Mercator ordinate along the meridian *)

Lemma mercator_le (a b : R) :
  - (PI / 2) < a -> a <= b -> b < PI / 2 -> mercator a <= mercator b.
Proof.
  intros Ha [Hab | ->] Hb; [ left; apply mercator_lt; assumption | right; reflexivity ].
Qed.

Lemma y_norm_of_mercator (lat : R) :
  y_norm_of lat = (1 - mercator (Py.radians (clamp_lat lat)) / PI) / 2.
Proof. reflexivity. Qed.

Lemma mercator_MAX_LAT : PI <= mercator (Py.radians MAX_LAT).
Proof.
  pose proof PI_RGT_0 as Hpi.
  pose proof MAX_LAT_bounds as Hm.
  pose proof (atan_bound (sinh PI)) as Hb.
  rewrite <- (mercator_atan_sinh PI) at 1.
  apply mercator_le; try lra.
  - exact atan_sinh_PI_upper.
  - unfold Py.radians. nra.
Qed.

Lemma mercator_minus_MAX_LAT : mercator (Py.radians (- MAX_LAT)) <= - PI.
Proof.
  pose proof PI_RGT_0 as Hpi.
  pose proof MAX_LAT_bounds as Hm.
  pose proof (atan_bound (sinh (- PI))) as Hb.
  pose proof atan_sinh_PI_upper as Hnum.
  rewrite <- (mercator_atan_sinh (- PI)).
  apply mercator_le; try lra.
  - unfold Py.radians. nra.
  - rewrite sinh_opp, atan_opp. unfold Py.radians. lra.
Qed.

Lemma y_norm_of_north (lat : R) : MAX_LAT <= lat -> y_norm_of lat <= 0.
Proof.
  intros Hl. rewrite y_norm_of_mercator, (clamp_lat_north lat Hl).
  pose proof PI_RGT_0 as Hpi. pose proof mercator_MAX_LAT as Hm.
  assert (1 <= mercator (Py.radians MAX_LAT) / PI).
  { apply Rmult_le_reg_r with PI; [ exact Hpi | ].
    unfold Rdiv. rewrite Rmult_assoc, Rinv_l by lra. lra. }
  lra.
Qed.

Lemma y_norm_of_south (lat : R) : lat <= - MAX_LAT -> 1 <= y_norm_of lat.
Proof.
  intros Hl. rewrite y_norm_of_mercator, (clamp_lat_south lat Hl).
  pose proof PI_RGT_0 as Hpi. pose proof mercator_minus_MAX_LAT as Hm.
  assert (mercator (Py.radians (- MAX_LAT)) / PI <= -1).
  { apply Rmult_le_reg_r with PI; [ exact Hpi | ].
    unfold Rdiv. rewrite Rmult_assoc, Rinv_l by lra. lra. }
  lra.
Qed.

Lemma IZR_pow2_pos (z : Z) : (0 <= z)%Z -> 1 <= IZR (2 ^ z).
Proof. intros Hz. apply IZR_le. apply pow2_pos. exact Hz. Qed.

Lemma clamp_index_monotone (s t n : Z) :
  (s <= t)%Z ->
  (Py.maxZ 0 (Py.minZ s (n - 1)) <= Py.maxZ 0 (Py.minZ t (n - 1)))%Z.
Proof. intros H. rewrite !maxZ_spec, !minZ_spec. lia. Qed.

Lemma clamp_index_low (t n : Z) :
  (1 <= n)%Z -> (t <= 0)%Z -> Py.maxZ 0 (Py.minZ t (n - 1)) = 0%Z.
Proof. intros Hn Ht. rewrite maxZ_spec, minZ_spec. lia. Qed.

Lemma clamp_index_high (t n : Z) :
  (1 <= n)%Z -> (n - 1 <= t)%Z -> Py.maxZ 0 (Py.minZ t (n - 1)) = (n - 1)%Z.
Proof. intros Hn Ht. rewrite maxZ_spec, minZ_spec. lia. Qed.

(** The two tile indices of a returned result, as the code computes them. *)
Lemma latlon_to_tile_indices (lat lon : R) (z ts x y px py : Z) :
  latlon_to_tile lat lon z ts = Ok (x, y, px, py) ->
  -180 <= lon <= 180 /\ (0 <= z <= 22)%Z /\ ts <> 0%Z
  /\ x = Py.maxZ 0 (Py.minZ (Py.floor (x_norm_of lon * IZR (2 ^ z))) (2 ^ z - 1))
  /\ y = Py.maxZ 0 (Py.minZ (Py.floor (y_norm_of lat * IZR (2 ^ z))) (2 ^ z - 1))
  /\ px = (Py.int (x_norm_of lon * IZR (2 ^ z) * IZR ts) mod ts)%Z
  /\ py = (Py.int (y_norm_of lat * IZR (2 ^ z) * IZR ts) mod ts)%Z.
Proof.
  intros H.
  pose proof (latlon_to_tile_ok_inv _ _ _ _ _ _ _ _ H) as (Hlon & Hz & Hts & _).
  rewrite (latlon_to_tile_eq lat lon z ts Hlon Hz Hts) in H.
  injection H as <- <- <- <-.
  repeat split; try assumption; try lra; try lia.
Qed.

(** X2. At a fixed zoom the tile column never decreases when the longitude
    grows. *)
Theorem latlon_to_tile_monotone
  (lat1 lon1 lat2 lon2 : R) (z ts x1 y1 px1 py1 x2 y2 px2 py2 : Z) :
  latlon_to_tile lat1 lon1 z ts = Ok (x1, y1, px1, py1) ->
  latlon_to_tile lat2 lon2 z ts = Ok (x2, y2, px2, py2) ->
  lon1 <= lon2 -> (x1 <= x2)%Z.
Proof.
  intros H1 H2 Hle.
  apply latlon_to_tile_indices in H1.
  destruct H1 as (Hlon1 & Hz & _ & -> & _).
  apply latlon_to_tile_indices in H2.
  destruct H2 as (Hlon2 & _ & _ & -> & _).
  pose proof (IZR_pow2_pos z ltac:(lia)) as Hn.
  apply clamp_index_monotone. unfold Py.floor.
  apply Zfloor_le. apply Rmult_le_compat_r; [ lra | ].
  unfold x_norm_of. lra.
Qed.

Lemma latlon_to_tile_monotone_witness :
  exists x1 y1 px1 py1 x2 y2 px2 py2 : Z,
    latlon_to_tile 10 20 7 256 = Ok (x1, y1, px1, py1)
    /\ latlon_to_tile 30 40 7 256 = Ok (x2, y2, px2, py2)
    /\ (x1 <= x2)%Z.
Proof.
  assert (Hz : (0 <= 7 <= 22)%Z) by lia.
  assert (Hts : 256%Z <> 0%Z) by discriminate.
  assert (Hl1 : -180 <= 20 <= 180) by lra.
  assert (Hl2 : -180 <= 40 <= 180) by lra.
  pose proof (latlon_to_tile_eq 10 20 7 256 Hl1 Hz Hts) as E1.
  pose proof (latlon_to_tile_eq 30 40 7 256 Hl2 Hz Hts) as E2.
  assert (A1 : 20 <= 40) by lra.
  do 8 eexists.
  exact (conj E1 (conj E2
           (latlon_to_tile_monotone _ _ _ _ _ _ _ _ _ _ _ _ _ _ E1 E2 A1))).
Defined.

(** X3. Beyond the clamping bound the row is pinned to the edge of the map:
    a latitude of at least 85.05112878 falls in row 0, one of at most
    -85.05112878 in the last row [2^z - 1]. *)
Theorem latlon_to_tile_polar_rows (lat lon : R) (z ts x y px py : Z) :
  latlon_to_tile lat lon z ts = Ok (x, y, px, py) ->
  (85.05112878 <= lat -> y = 0%Z)
  /\ (lat <= -85.05112878 -> y = (2 ^ z - 1)%Z).
Proof.
  intros H. apply latlon_to_tile_indices in H.
  destruct H as (_ & Hz & _ & _ & -> & _).
  pose proof (pow2_pos z ltac:(lia)) as Hn.
  pose proof (IZR_pow2_pos z ltac:(lia)) as Hn'.
  split; intros Hl.
  - apply clamp_index_low; [ exact Hn | ].
    pose proof (y_norm_of_north lat Hl) as Hy.
    pose proof (Zfloor_bound (y_norm_of lat * IZR (2 ^ z))) as [Hf _].
    unfold Py.floor. apply le_IZR.
    apply Rle_trans with (1 := Hf). nra.
  - apply clamp_index_high; [ exact Hn | ].
    assert (Hl' : lat <= - MAX_LAT) by (unfold MAX_LAT; lra).
    pose proof (y_norm_of_south lat Hl') as Hy.
    unfold Py.floor.
    assert (2 ^ z <= Zfloor (y_norm_of lat * IZR (2 ^ z)))%Z
      by (apply Zfloor_lub; nra).
    lia.
Qed.

Lemma latlon_to_tile_polar_rows_witness :
  exists x y px py x' y' px' py' : Z,
    latlon_to_tile 90 0 3 256 = Ok (x, y, px, py)
    /\ latlon_to_tile (-90) 0 3 256 = Ok (x', y', px', py')
    /\ y = 0%Z /\ y' = 7%Z.
Proof.
  assert (Hz : (0 <= 3 <= 22)%Z) by lia.
  assert (Hts : 256%Z <> 0%Z) by discriminate.
  assert (Hl : -180 <= 0 <= 180) by lra.
  pose proof (latlon_to_tile_eq 90 0 3 256 Hl Hz Hts) as E1.
  pose proof (latlon_to_tile_eq (-90) 0 3 256 Hl Hz Hts) as E2.
  destruct (latlon_to_tile_polar_rows _ _ _ _ _ _ _ _ E1) as [Hn _].
  destruct (latlon_to_tile_polar_rows _ _ _ _ _ _ _ _ E2) as [_ Hs].
  assert (A1 : 85.05112878 <= 90) by lra.
  assert (A2 : -90 <= -85.05112878) by lra.
  do 8 eexists.
  exact (conj E1 (conj E2 (conj (Hn A1) (Hs A2)))).
Defined.

Lemma int_of_IZR (k : Z) : Py.int (IZR k) = k.
Proof.
  unfold Py.int. destruct (Rle_dec 0 (IZR k)).
  - apply ZfloorZ.
  - rewrite ZfloorNZ. lia.
Qed.

(** X4. On the antimeridian the column is clamped and the pixel wraps: at
    longitude 180 the result is the last column [2^z - 1] with pixel column
    0, the same pixel column as at longitude -180, which is in column 0
    (for a tile size other than 0 and within [2^53] in absolute value). *)
Theorem latlon_to_tile_antimeridian (lat : R) (z ts : Z) :
  (0 <= z <= 22)%Z -> ts <> 0%Z -> (- 2 ^ 53 <= ts <= 2 ^ 53)%Z ->
  (exists y py : Z,
      latlon_to_tile lat 180 z ts = Ok ((2 ^ z - 1)%Z, y, 0%Z, py))
  /\ (exists y py : Z,
         latlon_to_tile lat (-180) z ts = Ok (0%Z, y, 0%Z, py)).
Proof.
  intros Hz Hts _.
  pose proof (pow2_pos z ltac:(lia)) as Hn.
  split.
  - rewrite (latlon_to_tile_eq lat 180 z ts ltac:(lra) Hz Hts).
    replace (x_norm_of 180) with 1 by (unfold x_norm_of; lra).
    rewrite Rmult_1_l, <- mult_IZR, int_of_IZR.
    unfold Py.floor. rewrite ZfloorZ.
    rewrite clamp_index_high by lia.
    rewrite Z.mod_mul by exact Hts.
    do 2 eexists. reflexivity.
  - rewrite (latlon_to_tile_eq lat (-180) z ts ltac:(lra) Hz Hts).
    replace (x_norm_of (-180)) with 0 by (unfold x_norm_of; lra).
    rewrite !Rmult_0_l, int_of_IZR.
    unfold Py.floor. rewrite ZfloorZ.
    rewrite clamp_index_low by lia.
    rewrite Z.mod_0_l by exact Hts.
    do 2 eexists. reflexivity.
Qed.

Lemma latlon_to_tile_antimeridian_witness :
  exists y py : Z, latlon_to_tile 0 180 4 256 = Ok (15%Z, y, 0%Z, py).
Proof.
  assert (Hz : (0 <= 4 <= 22)%Z) by lia.
  assert (Hts : 256%Z <> 0%Z) by discriminate.
  assert (Hb : (- 2 ^ 53 <= 256 <= 2 ^ 53)%Z) by lia.
  exact (proj1 (latlon_to_tile_antimeridian 0 4 256 Hz Hts Hb)).
Defined.

(** ** The rectangles of a zoom level *)

Lemma lat_deg_within_clamp (z y : Z) :
  (0 <= z)%Z -> (0 <= y <= 2 ^ z)%Z ->
  - MAX_LAT <= lat_deg (pow2 z) y <= MAX_LAT.
Proof.
  intros Hz Hy.
  pose proof PI_RGT_0 as Hpi.
  pose proof atan_sinh_PI_upper as Hnum.
  pose proof (pow2_gt_0 z Hz) as Hn.
  assert (Hy' : 0 <= IZR y <= pow2 z)
    by (rewrite (pow2_IZR z Hz); split; apply IZR_le; lia).
  pose proof (edge_angle_bound (pow2 z) y Hn Hy') as Ha.
  pose proof (lat_deg_radians (pow2 z) y) as Hr.
  unfold Py.radians in Hr.
  split; apply Rmult_le_reg_r with (PI / 180); lra.
Qed.

(** X7. The rectangle of a valid tile lies inside the domain of
    [latlon_to_tile]: its longitudes are within [[-180, 180]] and its
    latitudes within [[-85.05112878, 85.05112878]], so that [clamp_lat]
    leaves them unchanged. *)
Theorem tile_to_bounds_in_domain (x y z : Z) :
  (0 <= z <= 22)%Z -> (0 <= x < 2 ^ z)%Z -> (0 <= y < 2 ^ z)%Z ->
  exists lon_min lat_min lon_max lat_max : R,
    tile_to_bounds x y z = (lon_min, lat_min, lon_max, lat_max)
    /\ -180 <= lon_min /\ lon_max <= 180
    /\ -85.05112878 <= lat_min /\ lat_max <= 85.05112878
    /\ clamp_lat lat_min = lat_min /\ clamp_lat lat_max = lat_max.
Proof.
  intros Hz Hx Hy.
  assert (Hz0 : (0 <= z)%Z) by lia.
  pose proof (pow2_gt_0 z Hz0) as Hn.
  pose proof (lat_deg_within_clamp z y Hz0 ltac:(lia)) as Hy0.
  pose proof (lat_deg_within_clamp z (y + 1) Hz0 ltac:(lia)) as Hy1.
  do 4 eexists. split; [ reflexivity | ].
  assert (Hx0 : 0 <= IZR x / pow2 z).
  { apply Rmult_le_pos; [ apply IZR_le; lia | left; apply Rinv_0_lt_compat; lra ]. }
  assert (Hx1 : IZR (x + 1) / pow2 z <= 1).
  { apply Rmult_le_reg_r with (pow2 z); [ exact Hn | ].
    unfold Rdiv. rewrite Rmult_assoc, Rinv_l by lra.
    rewrite (pow2_IZR z Hz0), Rmult_1_r, Rmult_1_l. apply IZR_le. lia. }
  unfold MAX_LAT in *.
  repeat split; try (unfold lon_deg; lra); try lra;
    apply clamp_lat_inside; unfold MAX_LAT; lra.
Qed.

Lemma tile_to_bounds_in_domain_witness :
  exists lon_min lat_min lon_max lat_max : R,
    tile_to_bounds 0 0 0 = (lon_min, lat_min, lon_max, lat_max)
    /\ -180 <= lon_min /\ lon_max <= 180
    /\ -85.05112878 <= lat_min /\ lat_max <= 85.05112878.
Proof.
  assert (Hz : (0 <= 0 <= 22)%Z) by lia.
  assert (Hx : (0 <= 0 < 2 ^ 0)%Z) by (cbn; lia).
  destruct (tile_to_bounds_in_domain 0 0 0 Hz Hx Hx)
    as (a & b & c & d & E & H1 & H2 & H3 & H4 & _).
  exists a, b, c, d. exact (conj E (conj H1 (conj H2 (conj H3 H4)))).
Defined.

Lemma pow2_succ (z : Z) : pow2 (z + 1) = 2 * pow2 z.
Proof.
  unfold pow2. rewrite powerRZ_add by lra.
  change (powerRZ 2 1) with (2 * 1). ring.
Qed.

Lemma pow2_nonzero (z : Z) : pow2 z <> 0.
Proof. unfold pow2. apply powerRZ_NOR. lra. Qed.

Lemma pow2_positive (z : Z) : 0 < pow2 z.
Proof. unfold pow2. apply powerRZ_lt. lra. Qed.

Lemma lon_deg_child (n : R) (tx : Z) :
  n <> 0 -> lon_deg (2 * n) (2 * tx) = lon_deg n tx.
Proof. intros Hn. unfold lon_deg. rewrite mult_IZR. field. exact Hn. Qed.

Lemma lat_deg_child (n : R) (ty : Z) :
  n <> 0 -> lat_deg (2 * n) (2 * ty) = lat_deg n ty.
Proof.
  intros Hn. unfold lat_deg. rewrite mult_IZR.
  replace (2 * (2 * IZR ty) / (2 * n)) with (2 * IZR ty / n) by (field; exact Hn).
  reflexivity.
Qed.

(** X8. The tiles form a pyramid: for a tile [(x, y)] of a zoom [z] in
    [[0, 21]], the four tiles [(2x + i, 2y + j)] of zoom [z + 1] split its
    rectangle in four, at a longitude and a latitude strictly inside it. *)
Theorem tile_to_bounds_children (x y z : Z) :
  (0 <= z <= 21)%Z -> (0 <= x < 2 ^ z)%Z -> (0 <= y < 2 ^ z)%Z ->
  exists lon_min lat_min lon_max lat_max lon_mid lat_mid : R,
    tile_to_bounds x y z = (lon_min, lat_min, lon_max, lat_max)
    /\ lon_min < lon_mid < lon_max /\ lat_min < lat_mid < lat_max
    /\ tile_to_bounds (2 * x) (2 * y) (z + 1)
       = (lon_min, lat_mid, lon_mid, lat_max)
    /\ tile_to_bounds (2 * x + 1) (2 * y) (z + 1)
       = (lon_mid, lat_mid, lon_max, lat_max)
    /\ tile_to_bounds (2 * x) (2 * y + 1) (z + 1)
       = (lon_min, lat_min, lon_mid, lat_mid)
    /\ tile_to_bounds (2 * x + 1) (2 * y + 1) (z + 1)
       = (lon_mid, lat_min, lon_max, lat_mid).
Proof.
  intros _ _ _.
  pose proof (pow2_nonzero z) as Hn.
  pose proof (pow2_positive z) as Hp.
  assert (Hp2 : 0 < 2 * pow2 z) by lra.
  exists (lon_deg (pow2 z) x), (lat_deg (pow2 z) (y + 1)),
         (lon_deg (pow2 z) (x + 1)), (lat_deg (pow2 z) y),
         (lon_deg (2 * pow2 z) (2 * x + 1)),
         (lat_deg (2 * pow2 z) (2 * y + 1)).
  split; [ reflexivity | ].
  split.
  { rewrite <- (lon_deg_child (pow2 z) x Hn),
            <- (lon_deg_child (pow2 z) (x + 1) Hn).
    split; apply lon_deg_lt; try assumption; lia. }
  split.
  { rewrite <- (lat_deg_child (pow2 z) y Hn),
            <- (lat_deg_child (pow2 z) (y + 1) Hn).
    split; apply lat_deg_gt; try assumption; lia. }
  unfold tile_to_bounds. rewrite pow2_succ.
  replace (2 * x + 1 + 1)%Z with (2 * (x + 1))%Z by lia.
  replace (2 * y + 1 + 1)%Z with (2 * (y + 1))%Z by lia.
  rewrite !(lon_deg_child _ _ Hn), !(lat_deg_child _ _ Hn).
  repeat split; reflexivity.
Qed.

Lemma tile_to_bounds_children_witness :
  exists lon_min lat_min lon_max lat_max lon_mid lat_mid : R,
    tile_to_bounds 2387 1081 12 = (lon_min, lat_min, lon_max, lat_max)
    /\ lon_min < lon_mid < lon_max /\ lat_min < lat_mid < lat_max
    /\ tile_to_bounds 4774 2162 13 = (lon_min, lat_mid, lon_mid, lat_max)
    /\ tile_to_bounds 4775 2163 13 = (lon_mid, lat_min, lon_max, lat_mid).
Proof.
  assert (Hz : (0 <= 12 <= 21)%Z) by lia.
  assert (Hx : (0 <= 2387 < 2 ^ 12)%Z) by (cbn; lia).
  assert (Hy : (0 <= 1081 < 2 ^ 12)%Z) by (cbn; lia).
  destruct (tile_to_bounds_children 2387 1081 12 Hz Hx Hy)
    as (a & b & c & d & e & f & E & H1 & H2 & C1 & _ & _ & C4).
  exists a, b, c, d, e, f.
  exact (conj E (conj H1 (conj H2 (conj C1 C4)))).
Defined.

Lemma floor_double (t : R) : (Zfloor (2 * t) / 2)%Z = Zfloor t.
Proof.
  pose proof (Zfloor_bound t) as [H1 H2].
  assert (Hlo : (2 * Zfloor t <= Zfloor (2 * t))%Z).
  { apply Zfloor_lub. rewrite mult_IZR. lra. }
  assert (Hhi : (Zfloor (2 * t) < 2 * Zfloor t + 2)%Z).
  { apply lt_IZR. pose proof (Zfloor_bound (2 * t)) as [H3 _].
    rewrite plus_IZR, mult_IZR. lra. }
  symmetry. apply (Z.div_unique _ 2 _ (Zfloor (2 * t) - 2 * Zfloor t)); lia.
Qed.

Lemma clamp_index_double (t : R) (n : Z) :
  (1 <= n)%Z ->
  (Py.maxZ 0 (Py.minZ (Py.floor (2 * t)) (2 * n - 1)) / 2)%Z
  = Py.maxZ 0 (Py.minZ (Py.floor t) (n - 1)).
Proof.
  intros Hn. unfold Py.floor.
  pose proof (floor_double t) as Hd.
  rewrite !maxZ_spec, !minZ_spec.
  pose proof (Z.div_mod (Zfloor (2 * t)) 2 ltac:(lia)) as Hdm.
  pose proof (Z.mod_pos_bound (Zfloor (2 * t)) 2 ltac:(lia)) as Hmb.
  rewrite Hd in Hdm.
  destruct (Z_lt_dec (Zfloor t) 0) as [Hneg | Hnn].
  - replace (Z.max 0 (Z.min (Zfloor (2 * t)) (2 * n - 1))) with 0%Z by lia.
    replace (Z.max 0 (Z.min (Zfloor t) (n - 1))) with 0%Z by lia.
    reflexivity.
  - destruct (Z_le_dec n (Zfloor t)) as [Hbig | Hin].
    + replace (Z.max 0 (Z.min (Zfloor (2 * t)) (2 * n - 1)))
        with (2 * n - 1)%Z by lia.
      replace (Z.max 0 (Z.min (Zfloor t) (n - 1))) with (n - 1)%Z by lia.
      symmetry. apply (Z.div_unique _ 2 _ 1); lia.
    + replace (Z.max 0 (Z.min (Zfloor (2 * t)) (2 * n - 1)))
        with (Zfloor (2 * t)) by lia.
      replace (Z.max 0 (Z.min (Zfloor t) (n - 1))) with (Zfloor t) by lia.
      exact Hd.
Qed.

Lemma IZR_pow2_succ (z : Z) :
  (0 <= z)%Z -> IZR (2 ^ (z + 1)) = 2 * IZR (2 ^ z).
Proof.
  intros Hz. rewrite Z.pow_add_r by lia. rewrite mult_IZR.
  change (2 ^ 1)%Z with 2%Z. ring.
Qed.

Lemma Z_pow2_succ (z : Z) : (0 <= z)%Z -> (2 ^ (z + 1) = 2 * 2 ^ z)%Z.
Proof.
  intros Hz. rewrite Z.pow_add_r by lia. change (2 ^ 1)%Z with 2%Z. lia.
Qed.

(** X9. Zooming in refines the tile: the tile of a point at zoom [z + 1] is
    one of the four children of its tile at zoom [z], that is, halving its
    indices (rounding down) gives the indices at zoom [z]; this holds for
    every point, also where the indices are clamped. *)
Theorem latlon_to_tile_zoom_refines
  (lat lon : R) (z ts x y px py x' y' px' py' : Z) :
  latlon_to_tile lat lon z ts = Ok (x, y, px, py) ->
  latlon_to_tile lat lon (z + 1) ts = Ok (x', y', px', py') ->
  (x' / 2)%Z = x /\ (y' / 2)%Z = y.
Proof.
  intros H H'.
  apply latlon_to_tile_indices in H.
  destruct H as (_ & Hz & _ & -> & -> & _).
  apply latlon_to_tile_indices in H'.
  destruct H' as (_ & _ & _ & -> & -> & _).
  pose proof (pow2_pos z ltac:(lia)) as Hn.
  rewrite (IZR_pow2_succ z) by lia.
  rewrite (Z_pow2_succ z) by lia.
  replace (x_norm_of lon * (2 * IZR (2 ^ z)))
    with (2 * (x_norm_of lon * IZR (2 ^ z))) by ring.
  replace (y_norm_of lat * (2 * IZR (2 ^ z)))
    with (2 * (y_norm_of lat * IZR (2 ^ z))) by ring.
  split; apply clamp_index_double; exact Hn.
Qed.

Lemma latlon_to_tile_zoom_refines_witness :
  exists x y px py x' y' px' py' : Z,
    latlon_to_tile 53.1959 50.1008 12 256 = Ok (x, y, px, py)
    /\ latlon_to_tile 53.1959 50.1008 (12 + 1) 256 = Ok (x', y', px', py')
    /\ (x' / 2)%Z = x /\ (y' / 2)%Z = y.
Proof.
  assert (Hz : (0 <= 12 <= 22)%Z) by lia.
  assert (Hz' : (0 <= 12 + 1 <= 22)%Z) by lia.
  assert (Hts : 256%Z <> 0%Z) by discriminate.
  assert (Hl : -180 <= 50.1008 <= 180) by lra.
  pose proof (latlon_to_tile_eq 53.1959 50.1008 12 256 Hl Hz Hts) as E.
  pose proof (latlon_to_tile_eq 53.1959 50.1008 (12 + 1) 256 Hl Hz' Hts) as E'.
  do 8 eexists.
  exact (conj E (conj E' (latlon_to_tile_zoom_refines _ _ _ _ _ _ _ _ _ _ _ _ E E'))).
Defined.

(** ** What [draw_grid] draws *)

Lemma range_length (k : Z) : (0 <= k)%Z -> Z.of_nat (List.length (range k)) = k.
Proof.
  intros Hk. unfold range. rewrite List.length_map, List.length_seq. lia.
Qed.

Lemma grid_line_ops_lines (grid ts : Z) :
  flat_map (fun op => match op with
                      | DrawLine x0 y0 x1 y1 _ _ => [(x0, y0, x1, y1)]
                      | _ => []
                      end) (grid_line_ops grid ts)
  = flat_map (fun i => [((i * ts)%Z, 0%Z, (i * ts)%Z, (grid * ts)%Z);
                        (0%Z, (i * ts)%Z, (grid * ts)%Z, (i * ts)%Z)])
             (range (grid + 1)).
Proof.
  unfold grid_line_ops.
  induction (range (grid + 1)) as [ | i l IH ]; cbn; [ reflexivity | ].
  rewrite IH. reflexivity.
Qed.

Lemma label_rows_no_other {A : Type} (f : draw_op -> list A)
  (x_c y_c z half ts : Z) (rows cols : list Z) :
  (forall x y t c fo, f (DrawText x y t c fo) = []) ->
  flat_map f (flat_map (fun gy => map (label_op x_c y_c z half ts gy) cols) rows)
  = [].
Proof.
  intros Hf.
  induction rows as [ | gy rows IH ]; cbn [flat_map]; [ reflexivity | ].
  rewrite flat_map_app, IH, app_nil_r. clear IH.
  induction cols as [ | gx cols IHc ]; cbn; [ reflexivity | ].
  unfold label_op at 1. rewrite Hf. exact IHc.
Qed.

Lemma label_ops_no_lines (x_c y_c z grid ts : Z) :
  flat_map (fun op => match op with
                      | DrawLine x0 y0 x1 y1 _ _ => [(x0, y0, x1, y1)]
                      | _ => []
                      end) (label_ops x_c y_c z grid ts) = [].
Proof. apply label_rows_no_other. reflexivity. Qed.

Lemma label_ops_no_ellipses (x_c y_c z grid ts : Z) :
  flat_map (fun op => match op with
                      | DrawEllipse x0 y0 x1 y1 _ _ => [(x0, y0, x1, y1)]
                      | _ => []
                      end) (label_ops x_c y_c z grid ts) = [].
Proof. apply label_rows_no_other. reflexivity. Qed.

Lemma grid_line_ops_no_ellipses (grid ts : Z) :
  flat_map (fun op => match op with
                      | DrawEllipse x0 y0 x1 y1 _ _ => [(x0, y0, x1, y1)]
                      | _ => []
                      end) (grid_line_ops grid ts) = [].
Proof.
  unfold grid_line_ops.
  induction (range (grid + 1)) as [ | i l IH ]; cbn; [ reflexivity | exact IH ].
Qed.

Lemma grid_line_ops_length (grid ts : Z) :
  (0 <= grid)%Z ->
  Z.of_nat (List.length (grid_line_ops grid ts)) = (2 * (grid + 1))%Z.
Proof.
  intros Hg. unfold grid_line_ops.
  rewrite <- (range_length (grid + 1)) at 2 by lia.
  induction (range (grid + 1)) as [ | i l IH ]; cbn [flat_map List.length app];
    [ reflexivity | ].
  rewrite !Nat2Z.inj_succ. cbn [List.length] in *. lia.
Qed.

Lemma rows_of_maps_length {A B : Type} (g : A -> A -> B) (rows cols : list A) :
  List.length (flat_map (fun r => map (g r) cols) rows)
  = (List.length rows * List.length cols)%nat.
Proof.
  induction rows as [ | r rows IH ]; cbn [flat_map List.length]; [ reflexivity | ].
  rewrite List.length_app, List.length_map, IH. cbn. reflexivity.
Qed.

Lemma label_ops_length (x_c y_c z grid ts : Z) :
  (0 <= grid)%Z ->
  Z.of_nat (List.length (label_ops x_c y_c z grid ts)) = (grid * grid)%Z.
Proof.
  intros Hg. unfold label_ops.
  rewrite rows_of_maps_length, Nat2Z.inj_mul, (range_length grid Hg).
  reflexivity.
Qed.

Lemma label_rows_no_captions (x_c y_c z half ts : Z) (rows cols : list Z) :
  flat_map (fun op => match op with
                      | DrawText x y (Header la lo z xc yc px py ts) _ _ =>
                          [(x, y, Header la lo z xc yc px py ts)]
                      | _ => []
                      end)
           (flat_map (fun gy => map (label_op x_c y_c z half ts gy) cols) rows)
  = [].
Proof.
  induction rows as [ | gy rows IH ]; cbn [flat_map]; [ reflexivity | ].
  rewrite flat_map_app, IH, app_nil_r. clear IH.
  induction cols as [ | gx cols IHc ]; cbn; [ reflexivity | exact IHc ].
Qed.

Lemma label_ops_no_captions (x_c y_c z grid ts : Z) :
  flat_map (fun op => match op with
                      | DrawText x y (Header la lo z xc yc px py ts) _ _ =>
                          [(x, y, Header la lo z xc yc px py ts)]
                      | _ => []
                      end) (label_ops x_c y_c z grid ts) = [].
Proof. apply label_rows_no_captions. Qed.

Lemma grid_line_ops_no_captions (grid ts : Z) :
  flat_map (fun op => match op with
                      | DrawText x y (Header la lo z xc yc px py ts) _ _ =>
                          [(x, y, Header la lo z xc yc px py ts)]
                      | _ => []
                      end) (grid_line_ops grid ts) = [].
Proof.
  unfold grid_line_ops.
  induction (range (grid + 1)) as [ | i l IH ]; cbn; [ reflexivity | exact IH ].
Qed.

Lemma draw_grid_shape (canvas_error : Z -> Z -> option exn) (lat lon : R)
  (z grid ts : Z) (img : Image) :
  draw_grid canvas_error lat lon z grid ts = Ok img ->
  exists x_c y_c px py : Z,
    latlon_to_tile lat lon z ts = Ok (x_c, y_c, px, py)
    /\ img = mkImage "RGB" (grid * ts) (grid * ts) white
               (grid_line_ops grid ts
                ++ label_ops x_c y_c z grid ts
                ++ [DrawEllipse (grid / 2 * ts + px - 4) (grid / 2 * ts + py - 4)
                                (grid / 2 * ts + px + 4) (grid / 2 * ts + py + 4)
                                marker_red black;
                    DrawText 10 (grid * ts - 40)
                             (Header lat lon z x_c y_c px py ts) black
                             (try_load_font 18)]).
Proof.
  intros H.
  pose proof (draw_grid_ok_inv _ _ _ _ _ _ _ H)
    as (Ho & Hg & Hts & Hlon & Hz & Ha).
  destruct (draw_grid_is_ok canvas_error lat lon z grid ts Ho Hg Hts Hlon Hz Ha)
    as (x_c & y_c & px & py & Hll & E).
  exists x_c, y_c, px, py. split; [ exact Hll | ].
  rewrite E in H. injection H as <-. reflexivity.
Qed.

Lemma in_pairs_of_range {A : Type} (a b : Z -> A) (k : Z) (l : A) :
  In l (flat_map (fun i => [a i; b i]) (range k))
  <-> exists i : Z, (0 <= i < k)%Z /\ (l = a i \/ l = b i).
Proof.
  rewrite in_flat_map. split.
  - intros (i & Hi & Hin). apply in_range in Hi. exists i. split; [ exact Hi | ].
    cbn in Hin. destruct Hin as [<- | [<- | []]]; [ left | right ]; reflexivity.
  - intros (i & Hi & Hl). exists i. split; [ apply in_range; exact Hi | ].
    cbn. destruct Hl as [-> | ->]; [ left | right; left ]; reflexivity.
Qed.

Lemma pairs_of_range_length {A : Type} (a b : Z -> A) (k : Z) :
  (0 <= k)%Z ->
  Z.of_nat (List.length (flat_map (fun i => [a i; b i]) (range k))) = (2 * k)%Z.
Proof.
  intros Hk. rewrite <- (range_length k Hk) at 2.
  induction (range k) as [ | i l IH ]; cbn [flat_map List.length app];
    [ reflexivity | ].
  rewrite !Nat2Z.inj_succ. cbn [List.length] in *. lia.
Qed.

(** X10. An image returned by [draw_grid] holds exactly [2 * (grid + 1)]
    lines, [grid * grid] labels, one marker and one caption.  The lines are,
    for every [i] from 0 to [grid] included, the vertical line at
    [x = i * tile_size] over the full height and the horizontal line at
    [y = i * tile_size] over the full width; the last of each is at the
    coordinate equal to the canvas size, one past the last pixel. *)
Theorem draw_grid_lines_and_counts (canvas_error : Z -> Z -> option exn)
  (lat lon : R) (z grid ts : Z) (img : Image) :
  draw_grid canvas_error lat lon z grid ts = Ok img ->
  (forall l : Z * Z * Z * Z,
      In l (lines_of img)
      <-> exists i : Z,
            (0 <= i <= grid)%Z
            /\ (l = ((i * ts)%Z, 0%Z, (i * ts)%Z, im_height img)
                \/ l = (0%Z, (i * ts)%Z, im_width img, (i * ts)%Z)))
  /\ In ((im_width img, 0, im_width img, im_height img)%Z) (lines_of img)
  /\ In ((0, im_height img, im_width img, im_height img)%Z) (lines_of img)
  /\ Z.of_nat (List.length (lines_of img)) = (2 * (grid + 1))%Z
  /\ Z.of_nat (List.length (labels_of img)) = (grid * grid)%Z
  /\ Z.of_nat (List.length (ellipses_of img)) = 1%Z
  /\ Z.of_nat (List.length (captions_of img)) = 1%Z
  /\ Z.of_nat (List.length (im_ops img)) = (2 * (grid + 1) + grid * grid + 2)%Z.
Proof.
  intros H.
  pose proof (draw_grid_ok_inv _ _ _ _ _ _ _ H) as (_ & Hg & _).
  destruct (draw_grid_shape _ _ _ _ _ _ _ H) as (x_c & y_c & px & py & _ & ->).
  unfold lines_of, labels_of, ellipses_of, captions_of.
  cbn [im_ops im_width im_height].
  rewrite !flat_map_app.
  rewrite grid_line_ops_lines, label_ops_no_lines.
  rewrite labels_of_grid_lines, labels_of_label_ops.
  rewrite grid_line_ops_no_ellipses, label_ops_no_ellipses.
  rewrite grid_line_ops_no_captions, label_ops_no_captions.
  cbn [flat_map app]. rewrite !app_nil_r.
  assert (Hin : forall l : Z * Z * Z * Z,
             In l (flat_map (fun i => [((i * ts)%Z, 0%Z, (i * ts)%Z, (grid * ts)%Z);
                                       (0%Z, (i * ts)%Z, (grid * ts)%Z, (i * ts)%Z)])
                            (range (grid + 1)))
             <-> exists i : Z,
                   (0 <= i <= grid)%Z
                   /\ (l = ((i * ts)%Z, 0%Z, (i * ts)%Z, (grid * ts)%Z)
                       \/ l = (0%Z, (i * ts)%Z, (grid * ts)%Z, (i * ts)%Z))).
  { intros l. rewrite in_pairs_of_range. split; intros (i & Hi & Hl);
      exists i; (split; [ lia | exact Hl ]). }
  split; [ exact Hin | ].
  split; [ apply Hin; exists grid; split; [ lia | left; reflexivity ] | ].
  split; [ apply Hin; exists grid; split; [ lia | right; reflexivity ] | ].
  split; [ rewrite pairs_of_range_length by lia; lia | ].
  split.
  { unfold cell_labels. rewrite rows_of_maps_length, Nat2Z.inj_mul.
    rewrite (range_length grid) by lia. reflexivity. }
  split; [ reflexivity | ].
  split; [ reflexivity | ].
  rewrite !List.length_app, !Nat2Z.inj_add.
  rewrite grid_line_ops_length, label_ops_length by lia.
  cbn [List.length]. lia.
Qed.

Lemma draw_grid_lines_and_counts_witness :
  exists img : Image,
    draw_grid (fun _ _ => None) 0 0 0 3 256 = Ok img
    /\ Z.of_nat (List.length (lines_of img)) = 8%Z
    /\ Z.of_nat (List.length (labels_of img)) = 9%Z
    /\ Z.of_nat (List.length (im_ops img)) = 19%Z.
Proof.
  destruct (draw_grid_origin_zoom0 (fun _ _ => None) eq_refl)
    as (img & px & py & _ & Hd).
  exists img.
  destruct (draw_grid_lines_and_counts _ _ _ _ _ _ _ Hd)
    as (_ & _ & _ & H1 & H2 & _ & _ & H3).
  exact (conj Hd (conj H1 (conj H2 H3))).
Defined.

Lemma odd_halves (grid : Z) : Z.odd grid = true -> grid = (2 * (grid / 2) + 1)%Z.
Proof.
  intros Ho. pose proof (Z.div_mod grid 2 ltac:(lia)) as Hdm.
  rewrite Zmod_odd, Ho in Hdm. exact Hdm.
Qed.

(** X11. The marker is the only ellipse of the image, a box of 9 x 9 pixels
    around the point [(half * tile_size + px, half * tile_size + py)] with
    [half = grid // 2].  That point is inside the middle cell of the grid,
    the cell whose label is the point's own tile; for a grid of at least 3
    tiles of at least 4 pixels the whole box is on the canvas. *)
Theorem draw_grid_marker (canvas_error : Z -> Z -> option exn)
  (lat lon : R) (z grid ts : Z) (img : Image) (x_c y_c px py : Z) :
  draw_grid canvas_error lat lon z grid ts = Ok img ->
  latlon_to_tile lat lon z ts = Ok (x_c, y_c, px, py) ->
  let half := (grid / 2)%Z in
  let cx := (half * ts + px)%Z in
  let cy := (half * ts + py)%Z in
  ellipses_of img = [((cx - 4)%Z, (cy - 4)%Z, (cx + 4)%Z, (cy + 4)%Z)]
  /\ grid = (2 * half + 1)%Z
  /\ (half * ts <= cx < (half + 1) * ts)%Z
  /\ (half * ts <= cy < (half + 1) * ts)%Z
  /\ In ((half * ts + 6)%Z, (half * ts + 6)%Z, label_text x_c y_c z)
        (labels_of img)
  /\ ((3 <= grid)%Z -> (4 <= ts)%Z ->
      (0 <= cx - 4)%Z /\ (cx + 4 <= im_width img)%Z
      /\ (0 <= cy - 4)%Z /\ (cy + 4 <= im_height img)%Z).
Proof.
  intros Hd Hll half cx cy.
  pose proof (draw_grid_ok_inv _ _ _ _ _ _ _ Hd) as (Ho & Hg & Hts & _).
  pose proof (odd_halves grid Ho) as Hhalf. fold half in Hhalf.
  pose proof (latlon_to_tile_indices _ _ _ _ _ _ _ _ Hll)
    as (_ & _ & _ & _ & _ & Hpx & Hpy).
  assert (Bpx : (0 <= px < ts)%Z) by (rewrite Hpx; apply Z.mod_pos_bound; lia).
  assert (Bpy : (0 <= py < ts)%Z) by (rewrite Hpy; apply Z.mod_pos_bound; lia).
  assert (Hlab : labels_of img = cell_labels x_c y_c z grid ts)
    by (apply (labels_of_draw_grid _ _ _ _ _ _ _ _ _ _ _ Hd Hll)).
  destruct (draw_grid_shape _ _ _ _ _ _ _ Hd)
    as (x' & y' & px' & py' & Hll' & E).
  rewrite Hll in Hll'. injection Hll' as <- <- <- <-.
  split.
  { rewrite E. unfold ellipses_of. cbn [im_ops].
    rewrite !flat_map_app, grid_line_ops_no_ellipses, label_ops_no_ellipses.
    reflexivity. }
  split; [ exact Hhalf | ].
  split; [ unfold cx; lia | ].
  split; [ unfold cy; lia | ].
  split.
  { rewrite Hlab. apply in_cell_labels. exists half, half.
    assert (0 <= half)%Z by lia.
    repeat split; try lia.
    fold half. f_equal; lia. }
  intros Hg3 Hts4. rewrite E. cbn [im_width im_height].
  assert (1 <= half)%Z by lia.
  unfold cx, cy. nia.
Qed.

Lemma draw_grid_marker_witness :
  exists (img : Image) (px py : Z),
    draw_grid (fun _ _ => None) 0 0 0 3 256 = Ok img
    /\ ellipses_of img
       = [((1 * 256 + px - 4)%Z, (1 * 256 + py - 4)%Z,
           (1 * 256 + px + 4)%Z, (1 * 256 + py + 4)%Z)]
    /\ (0 <= 1 * 256 + px - 4)%Z /\ (1 * 256 + px + 4 <= im_width img)%Z.
Proof.
  destruct (draw_grid_origin_zoom0 (fun _ _ => None) eq_refl)
    as (img & px & py & Hll & Hd).
  exists img, px, py.
  destruct (draw_grid_marker _ _ _ _ _ _ _ _ _ _ _ Hd Hll)
    as (He & _ & _ & _ & _ & Hbox).
  assert (A1 : (3 <= 3)%Z) by lia.
  assert (A2 : (4 <= 256)%Z) by lia.
  destruct (Hbox A1 A2) as (B1 & B2 & _).
  exact (conj Hd (conj He (conj B1 B2))).
Defined.

(** X12. The caption reports the latitude as it was passed, while tile,
    pixel, labels and marker come from the clamped latitude: drawing with
    [lat] or with [clamp_lat lat] gives the same lines, labels and marker,
    and captions that differ only in the latitude shown. *)
Theorem draw_grid_caption_keeps_latitude (canvas_error : Z -> Z -> option exn)
  (lat lon : R) (z grid ts : Z) (img : Image) (x_c y_c px py : Z) :
  draw_grid canvas_error lat lon z grid ts = Ok img ->
  latlon_to_tile lat lon z ts = Ok (x_c, y_c, px, py) ->
  captions_of img
  = [(10%Z, (im_height img - 40)%Z, Header lat lon z x_c y_c px py ts)]
  /\ exists img' : Image,
      draw_grid canvas_error (clamp_lat lat) lon z grid ts = Ok img'
      /\ lines_of img' = lines_of img
      /\ labels_of img' = labels_of img
      /\ ellipses_of img' = ellipses_of img
      /\ captions_of img'
         = [(10%Z, (im_height img - 40)%Z,
             Header (clamp_lat lat) lon z x_c y_c px py ts)].
Proof.
  intros Hd Hll.
  pose proof (draw_grid_ok_inv _ _ _ _ _ _ _ Hd)
    as (Ho & Hg & Hts & _ & _ & Ha).
  assert (Hnn : (0 <= ts)%Z) by lia.
  assert (Hll' : latlon_to_tile (clamp_lat lat) lon z ts = Ok (x_c, y_c, px, py))
    by (rewrite <- latlon_to_tile_clamped; exact Hll).
  pose proof (draw_grid_eq _ _ _ _ _ _ _ _ _ _ Ho Hg Hnn Ha Hll) as E.
  pose proof (draw_grid_eq _ _ _ _ _ _ _ _ _ _ Ho Hg Hnn Ha Hll') as E'.
  rewrite E in Hd. injection Hd as <-.
  assert (Hcap : forall la,
             captions_of
               (mkImage "RGB" (grid * ts) (grid * ts) white
                  (grid_line_ops grid ts
                   ++ label_ops x_c y_c z grid ts
                   ++ [DrawEllipse (grid / 2 * ts + px - 4) (grid / 2 * ts + py - 4)
                                   (grid / 2 * ts + px + 4) (grid / 2 * ts + py + 4)
                                   marker_red black;
                       DrawText 10 (grid * ts - 40)
                                (Header la lon z x_c y_c px py ts) black
                                (try_load_font 18)]))
             = [(10%Z, (grid * ts - 40)%Z, Header la lon z x_c y_c px py ts)]).
  { intros la. unfold captions_of. cbn [im_ops].
    rewrite !flat_map_app, grid_line_ops_no_captions, label_ops_no_captions.
    reflexivity. }
  split; [ apply Hcap | ].
  eexists. split; [ exact E' | ].
  cbn [im_height].
  split; [ | split; [ | split; [ | apply Hcap ] ] ].
  - unfold lines_of. cbn [im_ops]. rewrite !flat_map_app. reflexivity.
  - unfold labels_of. cbn [im_ops]. rewrite !flat_map_app. reflexivity.
  - unfold ellipses_of. cbn [im_ops]. rewrite !flat_map_app. reflexivity.
Qed.

Lemma draw_grid_caption_keeps_latitude_witness :
  exists (img img' : Image) (x_c y_c px py : Z),
    draw_grid (fun _ _ => None) 89 0 0 3 256 = Ok img
    /\ draw_grid (fun _ _ => None) (clamp_lat 89) 0 0 3 256 = Ok img'
    /\ labels_of img' = labels_of img
    /\ captions_of img = [(10%Z, (im_height img - 40)%Z,
                           Header 89 0 0 x_c y_c px py 256)]
    /\ captions_of img' = [(10%Z, (im_height img - 40)%Z,
                            Header (clamp_lat 89) 0 0 x_c y_c px py 256)].
Proof.
  assert (Hlon : -180 <= 0 <= 180) by lra.
  assert (Hz : (0 <= 0 <= 22)%Z) by lia.
  assert (Hg : (1 <= 3)%Z) by lia.
  assert (Hts : (1 <= 256)%Z) by lia.
  destruct (draw_grid_is_ok (fun _ _ => None) 89 0 0 3 256 eq_refl Hg Hts
              Hlon Hz eq_refl)
    as (x_c & y_c & px & py & Hll & Hd).
  destruct (draw_grid_caption_keeps_latitude _ _ _ _ _ _ _ _ _ _ _ Hd Hll)
    as (Hc & img' & Hd' & _ & Hl & _ & Hc').
  eexists. exists img', x_c, y_c, px, py.
  exact (conj Hd (conj Hd' (conj Hl (conj Hc Hc')))).
Defined.

(** ** More on [render_zooms] *)

Lemma zoom_outcome_raise (canvas_error : Z -> Z -> option exn)
  (save_error : string -> option exn) (lat lon : R)
  (grid ts : Z) (out_dir : string) (z : Z) (e : exn) :
  draw_grid canvas_error lat lon z grid ts = Raise e ->
  zoom_outcome canvas_error save_error lat lon grid ts out_dir z = (error_line z e, []).
Proof. intros H. unfold zoom_outcome. rewrite H. reflexivity. Qed.


Lemma zoom_outcome_saved (canvas_error : Z -> Z -> option exn)
  (save_error : string -> option exn) (lat lon : R)
  (grid ts : Z) (out_dir : string) (z : Z) (img : Image) (x y px py : Z) :
  draw_grid canvas_error lat lon z grid ts = Ok img ->
  save_error (out_path_of out_dir z) = None ->
  latlon_to_tile lat lon z ts = Ok (x, y, px, py) ->
  zoom_outcome canvas_error save_error lat lon grid ts out_dir z
  = (ok_line z (out_path_of out_dir z) x y px py,
     [(out_path_of out_dir z, img)]).
Proof. intros H Hs Hll. unfold zoom_outcome. rewrite H, Hs, Hll. reflexivity. Qed.

Lemma zoom_in_range_true (z : Z) : zoom_in_range z = true <-> (0 <= z <= 22)%Z.
Proof.
  unfold zoom_in_range. rewrite andb_true_iff, !Z.leb_le. tauto.
Qed.




Lemma render_zooms_all_raise
  (makedirs_error : string -> option exn) (canvas_error : Z -> Z -> option exn)
  (save_error : string -> option exn) (lat lon : R) (zooms : list Z)
  (grid ts : Z) (out_dir : string) (w : world) (e : exn) :
  makedirs_error out_dir = None ->
  (forall z, draw_grid canvas_error lat lon z grid ts = Raise e) ->
  render_zooms makedirs_error canvas_error save_error lat lon zooms grid ts out_dir w
  = (Ok tt, mkWorld (console w ++ map (fun z => error_line z e) zooms)
                    (dirs w ++ [out_dir]) (files w)).
Proof.
  intros Hm H. rewrite render_zooms_eq by exact Hm.
  assert (E1 : map (fun z => fst (zoom_outcome canvas_error save_error lat lon grid ts
                                               out_dir z))
                   zooms
               = map (fun z => error_line z e) zooms).
  { apply map_ext. intros z.
    rewrite (zoom_outcome_raise _ _ _ _ _ _ _ _ _ (H z)).
    reflexivity. }
  assert (E2 : flat_map
                 (fun z => snd (zoom_outcome canvas_error save_error lat lon grid ts
                                             out_dir z))
                 zooms = []).
  { clear E1. induction zooms as [ | z zooms IH ]; cbn; [ reflexivity | ].
    rewrite (zoom_outcome_raise _ _ _ _ _ _ _ _ _ (H z)). cbn. exact IH. }
  rewrite E1, E2, app_nil_r. reflexivity.
Qed.

(** X14. When the grid size or the longitude is invalid, [render_zooms]
    still creates the output directory and goes through every zoom level:
    it prints one error line per zoom, each with the message of the grid
    check (which comes first) or of the longitude check, and writes no
    file.  When the directory cannot be created, the exception of
    [os.makedirs] leaves [render_zooms] before any zoom is tried: nothing is
    printed and nothing is written. *)
Theorem render_zooms_bad_argument
  (makedirs_error : string -> option exn) (canvas_error : Z -> Z -> option exn)
  (save_error : string -> option exn) (lat lon : R) (zooms : list Z)
  (grid ts : Z) (out_dir : string) (w : world) :
  (makedirs_error out_dir = None ->
   (Z.even grid = true \/ (grid < 1)%Z ->
    render_zooms makedirs_error canvas_error save_error lat lon zooms grid ts out_dir w
    = (Ok tt,
       mkWorld (console w
                ++ map (fun z =>
                          ("[ERROR] Не удалось построить изображение для Z="
                           ++ Py.str z ++ ": " ++ grid_error)%string) zooms)
               (dirs w ++ [out_dir]) (files w)))
   /\ (Z.odd grid = true -> (1 <= grid)%Z -> ~ (-180 <= lon <= 180) ->
       render_zooms makedirs_error canvas_error save_error lat lon zooms grid ts
                    out_dir w
       = (Ok tt,
          mkWorld (console w
                   ++ map (fun z =>
                             ("[ERROR] Не удалось построить изображение для Z="
                              ++ Py.str z ++ ": " ++ lon_error)%string) zooms)
                  (dirs w ++ [out_dir]) (files w))))
  /\ (forall e : exn,
         makedirs_error out_dir = Some e ->
         render_zooms makedirs_error canvas_error save_error lat lon zooms grid ts
                      out_dir w
         = (Raise e, w)).
Proof.
  split.
  - intros Hm. split.
    + intros Hg.
      apply (render_zooms_all_raise _ _ _ _ _ _ _ _ _ _
               (ValueError grid_error) Hm).
      intros z. apply draw_grid_bad_grid. exact Hg.
    + intros Ho Hg Hlon.
      apply (render_zooms_all_raise _ _ _ _ _ _ _ _ _ _
               (ValueError lon_error) Hm).
      intros z. apply draw_grid_raise_projection; try assumption.
      apply latlon_to_tile_bad_lon.
      destruct (Rle_dec (-180) lon); [ | lra ].
      destruct (Rle_dec lon 180); lra.
  - intros e Hm. apply render_zooms_no_directory. exact Hm.
Qed.

Lemma render_zooms_bad_argument_witness :
  render_zooms (fun _ => None) (fun _ _ => None) (fun _ => None)
               53.1959 50.1008 [12; 13]%Z 4 256 "./out" (mkWorld [] [] [])
  = (Ok tt,
     mkWorld ["[ERROR] Не удалось построить изображение для Z=12: grid должен быть нечётным положительным числом, например 3 или 5."%string;
              "[ERROR] Не удалось построить изображение для Z=13: grid должен быть нечётным положительным числом, например 3 или 5."%string]
             ["./out"%string] [])
  /\ render_zooms (fun _ => Some (OSError "[Errno 13] Permission denied: '/out'"))
                  (fun _ _ => None) (fun _ => None)
                  53.1959 50.1008 [12; 13]%Z 3 256 "/out" (mkWorld [] [] [])
     = (Raise (OSError "[Errno 13] Permission denied: '/out'"),
        mkWorld [] [] []).
Proof.
  split.
  - exact (proj1 (proj1 (render_zooms_bad_argument
                           (fun _ => None) (fun _ _ => None) (fun _ => None)
                           53.1959 50.1008 [12; 13]%Z 4%Z 256%Z "./out"%string
                           (mkWorld [] [] []))
                    eq_refl)
                 (or_introl eq_refl)).
  - exact (proj2 (render_zooms_bad_argument
                    (fun _ => Some (OSError "[Errno 13] Permission denied: '/out'"))
                    (fun _ _ => None) (fun _ => None)
                    53.1959 50.1008 [12; 13]%Z 3%Z 256%Z "/out"%string
                    (mkWorld [] [] []))
                 _ eq_refl).
Defined.

(** X15. What [render_zooms] prints for a zoom agrees with what it saved:
    when [draw_grid] returns an image for a zoom and the file can be written,
    the line printed is the success line of that zoom, and in the image
    written the label of the middle cell and the caption carry the very tile
    [(x, y)] and pixel [(px, py)] of that line. *)
Theorem render_zoom_line_matches_image
  (canvas_error : Z -> Z -> option exn) (save_error : string -> option exn)
  (lat lon : R) (grid ts : Z) (out_dir : string) (z : Z) (w : world)
  (img : Image) :
  draw_grid canvas_error lat lon z grid ts = Ok img ->
  save_error (out_path_of out_dir z) = None ->
  exists x y px py : Z,
    latlon_to_tile lat lon z ts = Ok (x, y, px, py)
    /\ render_zoom canvas_error save_error lat lon grid ts out_dir z w
       = (Ok tt,
          mkWorld (console w
                   ++ [("[OK] Z=" ++ Py.str z ++ ": сохранено "
                        ++ out_path_of out_dir z
                        ++ " | tile=(" ++ Py.str x ++ "," ++ Py.str y
                        ++ ") px=(" ++ Py.str px ++ "," ++ Py.str py
                        ++ ")")%string])
                  (dirs w)
                  (files w ++ [(out_path_of out_dir z, img)]))
    /\ In ((grid / 2 * ts + 6)%Z, (grid / 2 * ts + 6)%Z,
           ("X=" ++ Py.str x ++ "  Y=" ++ Py.str y
            ++ String (ascii_of_nat 10) ("Z=" ++ Py.str z))%string)
          (labels_of img)
    /\ captions_of img
       = [(10%Z, (grid * ts - 40)%Z, Header lat lon z x y px py ts)].
Proof.
  intros Hd Hs.
  pose proof (draw_grid_ok_inv _ _ _ _ _ _ _ Hd) as (Ho & Hg & _).
  destruct (draw_grid_shape _ _ _ _ _ _ _ Hd) as (x & y & px & py & Hll & E).
  exists x, y, px, py.
  split; [ exact Hll | ].
  split.
  - rewrite render_zoom_eq.
    rewrite (zoom_outcome_saved _ _ _ _ _ _ _ _ _ _ _ _ _ Hd Hs Hll).
    reflexivity.
  - split.
    + rewrite (labels_of_draw_grid _ _ _ _ _ _ _ _ _ _ _ Hd Hll).
      apply in_cell_labels. exists (grid / 2)%Z, (grid / 2)%Z.
      pose proof (odd_halves grid Ho).
      repeat split; try lia.
      replace (x + grid / 2 - grid / 2)%Z with x by lia.
      replace (y + grid / 2 - grid / 2)%Z with y by lia.
      reflexivity.
    + rewrite E. unfold captions_of. cbn [im_ops].
      rewrite !flat_map_app, grid_line_ops_no_captions, label_ops_no_captions.
      reflexivity.
Qed.

Lemma render_zoom_line_matches_image_witness :
  exists (img : Image),
    draw_grid (fun _ _ => None) 0 0 5 3 256 = Ok img
    /\ render_zoom (fun _ _ => None) (fun _ => None) 0 0 3 256 "./out" 5
                   (mkWorld [] [] [])
       = (Ok tt,
          mkWorld ["[OK] Z=5: сохранено ./out/grid_z5.png | tile=(16,16) px=(0,0)"%string]
                  [] [("./out/grid_z5.png"%string, img)])
    /\ In (262%Z, 262%Z,
           ("X=16  Y=16" ++ String (ascii_of_nat 10) "Z=5")%string)
          (labels_of img).
Proof.
  assert (Hlon : -180 <= 0 <= 180) by lra.
  assert (Hz : (0 <= 5 <= 22)%Z) by lia.
  assert (Hg : (1 <= 3)%Z) by lia.
  assert (Hts : (1 <= 256)%Z) by lia.
  destruct (draw_grid_is_ok (fun _ _ => None) 0 0 5 3 256 eq_refl Hg Hts
              Hlon Hz eq_refl)
    as (x0 & y0 & px0 & py0 & _ & Hd).
  destruct (render_zoom_line_matches_image (fun _ _ => None) (fun _ => None)
              0 0 3%Z 256%Z "./out"%string 5%Z (mkWorld [] [] []) _ Hd eq_refl)
    as (x & y & px & py & Hll & E & Hl & _).
  rewrite latlon_to_tile_origin_zoom5 in Hll. injection Hll as <- <- <- <-.
  eexists. exact (conj Hd (conj E Hl)).
Defined.

(** ** File names *)

Lemma str_injective (a b : Z) : Py.str a = Py.str b -> a = b.
Proof.
  unfold Py.str. intros H.
  assert (Hn : forall z, Z.to_int z <> Decimal.Pos Decimal.Nil
                         /\ Z.to_int z <> Decimal.Neg Decimal.Nil).
  { intros z. destruct z as [ | p | p ]; cbn; split; try discriminate;
      intros E; injection E as E; exact (Unsigned.to_uint_nonnil p E). }
  pose proof (NilZero.isi (Z.to_int a) (proj1 (Hn a)) (proj2 (Hn a))) as Ha.
  pose proof (NilZero.isi (Z.to_int b) (proj1 (Hn b)) (proj2 (Hn b))) as Hb.
  rewrite H in Ha. rewrite Ha in Hb. injection Hb as Hb.
  apply DecimalZ.to_int_inj. exact Hb.
Qed.

Lemma append_length (s t : string) :
  String.length (s ++ t) = (String.length s + String.length t)%nat.
Proof. induction s as [ | c s IH ]; cbn; [ reflexivity | rewrite IH; reflexivity ]. Qed.

Lemma append_cancel_l (p s t : string) : (p ++ s = p ++ t)%string -> s = t.
Proof.
  induction p as [ | c p IH ]; cbn; intros H; [ exact H | ].
  injection H as H. apply IH. exact H.
Qed.

Lemma append_cancel_r (s t u : string) : (s ++ u = t ++ u)%string -> s = t.
Proof.
  revert t. induction s as [ | c s IH ]; intros t H.
  - destruct t as [ | d t ]; [ reflexivity | ].
    apply (f_equal String.length) in H. cbn in H.
    rewrite append_length in H. lia.
  - destruct t as [ | d t ].
    + apply (f_equal String.length) in H. cbn in H.
      rewrite append_length in H. lia.
    + cbn in H. injection H as -> H. f_equal. apply IH. exact H.
Qed.

Lemma os_path_join_prefix (a : string) :
  exists p : string, forall b : string, os_path_join a b = (p ++ b)%string.
Proof.
  destruct a as [ | c a ].
  - exists EmptyString. reflexivity.
  - unfold os_path_join. destruct (ends_with_slash (String c a)).
    + exists (String c a). reflexivity.
    + exists (String c a ++ "/")%string. intros b.
      change (String c a ++ "/" ++ b)%string
        with (String c (a ++ String "/" b))%string.
      cbn. f_equal.
      induction a as [ | d a IH ]; cbn; [ reflexivity | f_equal; exact IH ].
Qed.

Lemma out_path_of_injective (out_dir : string) (z z' : Z) :
  out_path_of out_dir z = out_path_of out_dir z' -> z = z'.
Proof.
  unfold out_path_of.
  destruct (os_path_join_prefix out_dir) as [p Hp].
  rewrite !Hp. intros H.
  apply append_cancel_l in H.
  apply (append_cancel_l "grid_z") in H.
  apply append_cancel_r in H.
  apply str_injective. exact H.
Qed.

Lemma written_paths_sublist (canvas_error : Z -> Z -> option exn)
  (save_error : string -> option exn) (lat lon : R) (grid ts : Z)
  (out_dir : string) (zooms : list Z) :
  exists kept : list Z,
    map fst (flat_map
               (fun z => snd (zoom_outcome canvas_error save_error lat lon grid ts out_dir z))
               zooms)
    = map (out_path_of out_dir) kept
    /\ (forall z, In z kept -> In z zooms)
    /\ (NoDup zooms -> NoDup kept).
Proof.
  induction zooms as [ | z zooms (kept & E & Hin & Hnd) ].
  - exists []. repeat split; [ intros z [] | constructor ].
  - cbn [flat_map]. rewrite map_app, E.
    assert (Hz : snd (zoom_outcome canvas_error save_error lat lon grid ts out_dir z) = []
                 \/ exists img,
                     snd (zoom_outcome canvas_error save_error lat lon grid ts out_dir z)
                     = [(out_path_of out_dir z, img)]).
    { unfold zoom_outcome.
      destruct (draw_grid canvas_error lat lon z grid ts) as [ img | e ];
        [ | left; reflexivity ].
      destruct (save_error (out_path_of out_dir z)); [ left; reflexivity | ].
      right. exists img.
      destruct (latlon_to_tile lat lon z ts) as [ [[[x y] px] py] | e ];
        reflexivity. }
    destruct Hz as [-> | (img & ->)].
    + exists kept. repeat split.
      * intros z' Hz'. right. apply Hin. exact Hz'.
      * intros Hn. apply Hnd. inversion Hn. assumption.
    + exists (z :: kept). repeat split.
      * intros z' [<- | Hz']; [ left; reflexivity | right; apply Hin; exact Hz' ].
      * intros Hn. inversion Hn as [ | ? ? Hnotin Hn' ]; subst.
        constructor; [ | apply Hnd; exact Hn' ].
        intros Hk. apply Hnotin, Hin. exact Hk.
Qed.

(** X16. Every file [render_zooms] writes is [grid_z{z}.png] in the output
    directory for one of the requested zooms [z] and holds the image
    [draw_grid] returns for that zoom; different zoom levels go to different
    files, so that a list of distinct zooms never overwrites a file. *)
Theorem render_zooms_files
  (makedirs_error : string -> option exn) (canvas_error : Z -> Z -> option exn)
  (save_error : string -> option exn) (lat lon : R) (zooms : list Z)
  (grid ts : Z) (out_dir : string) (w : world) :
  exists written : list (string * Image),
    files (snd (render_zooms makedirs_error canvas_error save_error lat lon zooms
                             grid ts out_dir w))
    = (files w ++ written)%list
    /\ (forall path img,
          In (path, img) written ->
          exists z : Z,
            In z zooms /\ path = out_path_of out_dir z
            /\ draw_grid canvas_error lat lon z grid ts = Ok img)
    /\ (forall z z' : Z,
          out_path_of out_dir z = out_path_of out_dir z' -> z = z')
    /\ (NoDup zooms -> NoDup (map fst written)).
Proof.
  destruct (makedirs_error out_dir) as [ e | ] eqn:Hm.
  { exists []. rewrite (render_zooms_no_directory _ _ _ _ _ _ _ _ _ _ e Hm).
    cbn [snd]. rewrite app_nil_r.
    split; [ reflexivity | ].
    split; [ intros path img [] | ].
    split; [ apply out_path_of_injective | intros _; constructor ]. }
  exists (flat_map
            (fun z => snd (zoom_outcome canvas_error save_error lat lon grid ts out_dir z))
            zooms).
  split; [ rewrite render_zooms_eq by exact Hm; reflexivity | ].
  split.
  { intros path img Hin. apply in_flat_map in Hin.
    destruct Hin as (z & Hz & Hin). exists z. split; [ exact Hz | ].
    unfold zoom_outcome in Hin.
    destruct (draw_grid canvas_error lat lon z grid ts) as [ img' | e ]; [ | destruct Hin ].
    destruct (save_error (out_path_of out_dir z)); [ destruct Hin | ].
    destruct (latlon_to_tile lat lon z ts) as [ [[[x y] px] py] | e ];
      cbn in Hin; destruct Hin as [E | []]; injection E as <- <-;
      split; reflexivity. }
  split; [ apply out_path_of_injective | ].
  intros Hn.
  destruct (written_paths_sublist canvas_error save_error lat lon grid ts out_dir
              zooms)
    as (kept & E & _ & Hnd).
  rewrite E.
  specialize (Hnd Hn). clear E.
  induction kept as [ | k kept IH ]; cbn; [ constructor | ].
  inversion Hnd as [ | ? ? Hnotin Hnd' ]; subst.
  constructor; [ | apply IH; exact Hnd' ].
  intros Hin. apply in_map_iff in Hin. destruct Hin as (k' & Ek & Hk').
  apply out_path_of_injective in Ek. subst k'. contradiction.
Qed.

Lemma render_zooms_files_witness :
  exists written : list (string * Image),
    files (snd (render_zooms (fun _ => None) (fun _ _ => None) (fun _ => None)
                             53.1959 50.1008 [12; 13; 14]%Z
                             3 256 "./out" (mkWorld [] [] [])))
    = written
    /\ NoDup (map fst written).
Proof.
  destruct (render_zooms_files (fun _ => None) (fun _ _ => None)
              (fun _ => None) 53.1959 50.1008 [12; 13; 14]%Z
              3 256 "./out" (mkWorld [] [] []))
    as (written & E & _ & _ & Hn).
  exists written. split; [ exact E | ].
  apply Hn.
  repeat constructor; cbn; intuition discriminate.
Defined.

(** ** [main] *)

Lemma check_zooms_all_valid (zooms : list Z) :
  Forall (fun z => (0 <= z <= 22)%Z) zooms -> check_zooms zooms = Ok tt.
Proof.
  induction 1 as [ | z zooms Hz _ IH ]; cbn; [ reflexivity | ].
  destruct (Z.ltb_spec z 0); [ lia | ].
  destruct (Z.ltb_spec 22 z); [ lia | ]. exact IH.
Qed.

Lemma check_zooms_result (zooms : list Z) :
  check_zooms zooms = Ok tt \/ exists m, check_zooms zooms = Raise (ValueError m).
Proof.
  induction zooms as [ | z zooms IH ]; cbn; [ left; reflexivity | ].
  destruct ((z <? 0)%Z || (22 <? z)%Z); [ right; eexists; reflexivity | exact IH ].
Qed.

Lemma validate_args_result (a : Args) :
  validate_args a = Ok tt \/ exists m, validate_args a = Raise (ValueError m).
Proof.
  unfold validate_args.
  destruct (negb _); [ right; eexists; reflexivity | ].
  destruct (negb _); [ right; eexists; reflexivity | ].
  destruct (_ || _); [ right; eexists; reflexivity | ].
  destruct (_ || _); [ right; eexists; reflexivity | ].
  apply check_zooms_result.
Qed.

Lemma validate_args_valid (a : Args) :
  -180 <= arg_lon a <= 180 -> -90 <= arg_lat a <= 90 ->
  Z.odd (arg_grid a) = true -> (1 <= arg_grid a)%Z ->
  (8 <= arg_tile_size a <= 2048)%Z ->
  Forall (fun z => (0 <= z <= 22)%Z) (arg_zooms a) ->
  validate_args a = Ok tt.
Proof.
  intros Hlon Hlat Ho Hg Hts Hz. unfold validate_args.
  rewrite (lon_check_true _ Hlon). cbn [negb].
  destruct (Rle_dec (-90) (arg_lat a)); [ | lra ].
  destruct (Rle_dec (arg_lat a) 90); [ | lra ].
  cbn [negb].
  destruct (Z.ltb_spec (arg_grid a) 1); [ lia | ].
  destruct (Z.eqb_spec (arg_grid a mod 2) 0) as [E | _].
  { rewrite Zmod_odd, Ho in E. discriminate. }
  destruct (Z.ltb_spec (arg_tile_size a) 8); [ lia | ].
  destruct (Z.ltb_spec 2048 (arg_tile_size a)); [ lia | ].
  cbn [orb]. apply check_zooms_all_valid. exact Hz.
Qed.

(** The conditions [main] checks before rendering. *)
Lemma validate_args_iff (a : Args) :
  validate_args a = Ok tt
  <-> (-180 <= arg_lon a <= 180 /\ -90 <= arg_lat a <= 90
       /\ Z.odd (arg_grid a) = true /\ (1 <= arg_grid a)%Z
       /\ (8 <= arg_tile_size a <= 2048)%Z
       /\ Forall (fun z => (0 <= z <= 22)%Z) (arg_zooms a)).
Proof.
  split.
  - apply validate_args_ok.
  - intros (H1 & H2 & H3 & H4 & H5 & H6). apply validate_args_valid; assumption.
Qed.

(** X17. [main] renders nothing unless every argument is valid: if the
    longitude is outside [[-180, 180]], the latitude outside [[-90, 90]],
    the grid even or below 1, the tile size outside [[8, 2048]] or any one of
    the zooms outside [[0, 22]], it prints a single line
    [[ERROR] Некорректные аргументы: ...], creates no directory and writes no
    file, even for the zooms that were valid. *)
Theorem main_rejects_invalid_arguments
  (makedirs_error : string -> option exn) (canvas_error : Z -> Z -> option exn)
  (save_error : string -> option exn) (a : Args) (w : world) :
  ~ (-180 <= arg_lon a <= 180 /\ -90 <= arg_lat a <= 90
     /\ Z.odd (arg_grid a) = true /\ (1 <= arg_grid a)%Z
     /\ (8 <= arg_tile_size a <= 2048)%Z
     /\ Forall (fun z => (0 <= z <= 22)%Z) (arg_zooms a)) ->
  exists m : string,
    main makedirs_error canvas_error save_error a w
    = (Ok tt,
       mkWorld (console w ++ [("[ERROR] Некорректные аргументы: " ++ m)%string])
               (dirs w) (files w)).
Proof.
  intros Hbad.
  destruct (validate_args_result a) as [Hok | (m & Hm)].
  - exfalso. apply Hbad. apply validate_args_iff. exact Hok.
  - exists m. unfold main. rewrite Hm. reflexivity.
Qed.

Lemma main_rejects_invalid_arguments_witness :
  exists m : string,
    main (fun _ => None) (fun _ _ => None) (fun _ => None)
         (mkArgs 53.1959 50.1008 [5; 30]%Z 3 256 "./out") (mkWorld [] [] [])
    = (Ok tt,
       mkWorld [("[ERROR] Некорректные аргументы: " ++ m)%string] [] []).
Proof.
  apply (main_rejects_invalid_arguments (fun _ => None) (fun _ _ => None)
           (fun _ => None)
           (mkArgs 53.1959 50.1008 [5; 30]%Z 3 256 "./out") (mkWorld [] [] [])).
  cbn. intros (_ & _ & _ & _ & _ & Hz).
  inversion Hz as [ | ? ? _ Hz' ]; subst.
  inversion Hz' as [ | ? ? H30 _ ]; subst. lia.
Defined.

(** X18. With valid arguments, [main] hands over to [render_zooms].  When
    the output directory can be created, Pillow grants the canvas and the
    files can be written, it creates the directory, writes one image per
    requested zoom, in order, and prints one success line per zoom and no
    error line.  When the directory cannot be created, the exception of
    [os.makedirs] is caught by [main]: it prints the single line
    [[ERROR] Во время рендера произошла ошибка: ...] and writes nothing. *)
Theorem main_renders_all
  (makedirs_error : string -> option exn) (canvas_error : Z -> Z -> option exn)
  (save_error : string -> option exn) (a : Args) (w : world) :
  -180 <= arg_lon a <= 180 -> -90 <= arg_lat a <= 90 ->
  Z.odd (arg_grid a) = true -> (1 <= arg_grid a)%Z ->
  (8 <= arg_tile_size a <= 2048)%Z ->
  Forall (fun z => (0 <= z <= 22)%Z) (arg_zooms a) ->
  (makedirs_error (arg_out a) = None ->
   canvas_error (arg_grid a * arg_tile_size a)%Z (arg_grid a * arg_tile_size a)%Z
   = None ->
   (forall path, save_error path = None) ->
   exists (lines : list string) (written : list (string * Image)),
     main makedirs_error canvas_error save_error a w
     = (Ok tt, mkWorld (console w ++ lines) (dirs w ++ [arg_out a])
                       (files w ++ written))
     /\ Forall2
          (fun z line =>
             exists x y px py : Z,
               latlon_to_tile (arg_lat a) (arg_lon a) z (arg_tile_size a)
               = Ok (x, y, px, py)
               /\ line =
                  ("[OK] Z=" ++ Py.str z ++ ": сохранено "
                   ++ out_path_of (arg_out a) z
                   ++ " | tile=(" ++ Py.str x ++ "," ++ Py.str y
                   ++ ") px=(" ++ Py.str px ++ "," ++ Py.str py
                   ++ ")")%string)
          (arg_zooms a) lines
     /\ Forall2
          (fun z file =>
             fst file = out_path_of (arg_out a) z
             /\ draw_grid canvas_error (arg_lat a) (arg_lon a) z (arg_grid a)
                          (arg_tile_size a)
                = Ok (snd file))
          (arg_zooms a) written)
  /\ (forall e : exn,
         makedirs_error (arg_out a) = Some e ->
         main makedirs_error canvas_error save_error a w
         = (Ok tt,
            mkWorld (console w
                     ++ [("[ERROR] Во время рендера произошла ошибка: "
                          ++ exn_str e)%string])
                    (dirs w) (files w))).
Proof.
  intros Hlon Hlat Ho Hg Hts Hz. split.
  - intros Hm Ha Hsave.
    exists (map (fun z => fst (zoom_outcome canvas_error save_error (arg_lat a)
                                 (arg_lon a) (arg_grid a) (arg_tile_size a)
                                 (arg_out a) z))
                (arg_zooms a)),
           (flat_map
              (fun z => snd (zoom_outcome canvas_error save_error (arg_lat a)
                               (arg_lon a) (arg_grid a) (arg_tile_size a)
                               (arg_out a) z))
              (arg_zooms a)).
    split.
    { unfold main.
      rewrite (validate_args_valid a Hlon Hlat Ho Hg Hts Hz).
      unfold io_try. rewrite render_zooms_eq by exact Hm. reflexivity. }
    assert (Hts1 : (1 <= arg_tile_size a)%Z) by lia.
    split.
    + induction Hz as [ | z zooms Hz0 _ IH ]; cbn; constructor; [ | exact IH ].
      destruct (outcome_valid_zoom canvas_error save_error (arg_lat a) (arg_lon a)
                  (arg_grid a) (arg_tile_size a) (arg_out a) Hlon (conj Ho Hg)
                  Hts1 Ha Hsave z (proj2 (zoom_in_range_true z) Hz0))
        as (img & x & y & px & py & _ & Hll & E).
      exists x, y, px, py. rewrite E. split; [ exact Hll | reflexivity ].
    + induction Hz as [ | z zooms Hz0 _ IH ]; cbn; [ constructor | ].
      destruct (outcome_valid_zoom canvas_error save_error (arg_lat a) (arg_lon a)
                  (arg_grid a) (arg_tile_size a) (arg_out a) Hlon (conj Ho Hg)
                  Hts1 Ha Hsave z (proj2 (zoom_in_range_true z) Hz0))
        as (img & x & y & px & py & Hd & _ & E).
      rewrite E. cbn. constructor; [ | exact IH ].
      cbn. split; [ reflexivity | exact Hd ].
  - intros e Hm. unfold main.
    rewrite (validate_args_valid a Hlon Hlat Ho Hg Hts Hz).
    unfold io_try.
    rewrite (render_zooms_no_directory _ _ _ _ _ _ _ _ _ _ e Hm).
    reflexivity.
Qed.

Lemma main_renders_all_witness :
  (exists (l12 l13 : string) (i12 i13 : Image),
      main (fun _ => None) (fun _ _ => None) (fun _ => None)
           (mkArgs 53.1959 50.1008 [12; 13]%Z 3 256 "./out") (mkWorld [] [] [])
      = (Ok tt,
         mkWorld [l12; l13] ["./out"%string]
                 [("./out/grid_z12.png"%string, i12);
                  ("./out/grid_z13.png"%string, i13)]))
  /\ main (fun _ => Some (OSError "[Errno 13] Permission denied: '/out'"))
          (fun _ _ => None) (fun _ => None)
          (mkArgs 53.1959 50.1008 [12; 13]%Z 3 256 "/out") (mkWorld [] [] [])
     = (Ok tt,
        mkWorld ["[ERROR] Во время рендера произошла ошибка: [Errno 13] Permission denied: '/out'"%string]
                [] []).
Proof.
  assert (Hlon : -180 <= 50.1008 <= 180) by lra.
  assert (Hlat : -90 <= 53.1959 <= 90) by lra.
  assert (Hg : (1 <= 3)%Z) by lia.
  assert (Hts : (8 <= 256 <= 2048)%Z) by lia.
  assert (Hz : Forall (fun z => (0 <= z <= 22)%Z) [12; 13]%Z)
    by (repeat constructor; lia).
  split.
  - destruct (proj1 (main_renders_all (fun _ => None) (fun _ _ => None)
                       (fun _ => None)
                       (mkArgs 53.1959 50.1008 [12; 13]%Z 3 256 "./out")
                       (mkWorld [] [] []) Hlon Hlat eq_refl Hg Hts Hz)
                eq_refl eq_refl (fun _ => eq_refl))
      as (lines & written & E & Hl & Hf).
    cbn [arg_zooms arg_out] in Hl, Hf.
    inversion Hl as [ | z1 l1 zs1 ls1 _ Hl1 ]; subst.
    inversion Hl1 as [ | z2 l2 zs2 ls2 _ Hl2 ]; subst.
    inversion Hl2; subst.
    inversion Hf as [ | z3 f3 zs3 fs3 [Hp3 _] Hf1 ]; subst.
    inversion Hf1 as [ | z4 f4 zs4 fs4 [Hp4 _] Hf2 ]; subst.
    inversion Hf2; subst.
    destruct f3 as [p3 i3]. destruct f4 as [p4 i4].
    cbn [fst] in Hp3, Hp4.
    change (out_path_of "./out" 12) with "./out/grid_z12.png"%string in Hp3.
    change (out_path_of "./out" 13) with "./out/grid_z13.png"%string in Hp4.
    subst p3 p4.
    exists l1, l2, i3, i4. exact E.
  - exact (proj2 (main_renders_all
                    (fun _ => Some (OSError "[Errno 13] Permission denied: '/out'"))
                    (fun _ _ => None) (fun _ => None)
                    (mkArgs 53.1959 50.1008 [12; 13]%Z 3 256 "/out")
                    (mkWorld [] [] []) Hlon Hlat eq_refl Hg Hts Hz)
                 _ eq_refl).
Defined.

(** ** The errors of [draw_grid], in the order they are raised *)



(** ** Which font [try_load_font] ends up with *)

Lemma first_font_none (path_exists : string -> bool)
  (truetype : string -> Z -> result font_source) (size : Z)
  (candidates : list string) :
  (forall p, In p candidates -> ~ font_usable path_exists truetype size p) ->
  first_font path_exists truetype candidates size = BuiltinFont.
Proof.
  induction candidates as [ | p rest IH ]; intros H; cbn; [ reflexivity | ].
  assert (IH' : first_font path_exists truetype rest size = BuiltinFont)
    by (apply IH; intros q Hq; apply H; right; exact Hq).
  destruct (path_exists p) eqn:Hp; [ | exact IH' ].
  destruct (truetype p size) as [ f | e ] eqn:Ht; [ | exact IH' ].
  exfalso. apply (H p); [ left; reflexivity | ].
  split; [ exact Hp | exists f; exact Ht ].
Qed.

Lemma first_font_first (path_exists : string -> bool)
  (truetype : string -> Z -> result font_source) (size : Z)
  (pre post : list string) (p : string) (f : font_source) :
  (forall q, In q pre -> ~ font_usable path_exists truetype size q) ->
  path_exists p = true -> truetype p size = Ok f ->
  first_font path_exists truetype (pre ++ p :: post) size = f.
Proof.
  intros Hpre Hp Ht.
  induction pre as [ | q pre IH ]; cbn.
  - rewrite Hp, Ht. reflexivity.
  - assert (IH' : first_font path_exists truetype (pre ++ p :: post) size = f)
      by (apply IH; intros r Hr; apply Hpre; right; exact Hr).
    destruct (path_exists q) eqn:Hq; [ | exact IH' ].
    destruct (truetype q size) as [ g | e ] eqn:Hg; [ | exact IH' ].
    exfalso. apply (Hpre q); [ left; reflexivity | ].
    split; [ exact Hq | exists g; exact Hg ].
Qed.

(** X20. [try_load_font] uses the first candidate, in the listed order, whose
    file exists and loads; a candidate that is missing, or that exists but
    fails to load, is skipped without an error; when no candidate is usable
    the built-in font is returned. *)
Theorem try_load_font_first_usable (path_exists : string -> bool)
  (truetype : string -> Z -> result font_source) (size : Z) :
  ((forall p, In p font_candidates ->
              ~ font_usable path_exists truetype size p) ->
   try_load_font_on path_exists truetype size = BuiltinFont)
  /\ (forall (pre post : list string) (p : string) (f : font_source),
         font_candidates = (pre ++ p :: post)%list ->
         (forall q, In q pre -> ~ font_usable path_exists truetype size q) ->
         path_exists p = true -> truetype p size = Ok f ->
         try_load_font_on path_exists truetype size = f).
Proof.
  unfold try_load_font_on. split.
  - apply first_font_none.
  - intros pre post p f E Hpre Hp Ht. rewrite E.
    apply first_font_first; assumption.
Qed.

Lemma try_load_font_first_usable_witness :
  try_load_font_on
    (fun p => negb (String.eqb p "/usr/share/fonts/truetype/dejavu/DejaVuSansMono.ttf"))
    (fun p s => if String.eqb p "/usr/share/fonts/truetype/dejavu/DejaVuSans.ttf"
                then Raise (OSError "cannot open resource")
                else Ok (FontFile p s))
    14
  = FontFile "C:\Windows\Fonts\consola.ttf" 14.
Proof.
  apply (proj2 (try_load_font_first_usable _ _ 14)
           ["/usr/share/fonts/truetype/dejavu/DejaVuSansMono.ttf";
            "/usr/share/fonts/truetype/dejavu/DejaVuSans.ttf"]%string
           ["C:\Windows\Fonts\arial.ttf"]%string
           "C:\Windows\Fonts\consola.ttf" _ eq_refl).
  - intros q [<- | [<- | []]]; intros [He [f Hf]]; cbn in *; discriminate.
  - reflexivity.
  - reflexivity.
Defined.

(** ** A label names one tile *)

Lemma numeric_uint (d : Decimal.uint) :
  numeric_string (NilEmpty.string_of_uint d) = true.
Proof. induction d; cbn; try reflexivity; exact IHd. Qed.

Lemma numeric_str (z : Z) : numeric_string (Py.str z) = true.
Proof.
  unfold Py.str, NilZero.string_of_int, NilZero.string_of_uint.
  destruct (Z.to_int z) as [ d | d ]; destruct d; cbn;
    try reflexivity; apply numeric_uint.
Qed.

Lemma numeric_prefix_unique (u u' s s' : string) (c c' : ascii) :
  numeric_string u = true -> numeric_string u' = true ->
  numeric_char c = false -> numeric_char c' = false ->
  (u ++ String c s = u' ++ String c' s')%string ->
  u = u' /\ String c s = String c' s'.
Proof.
  revert u'. induction u as [ | a u IH ]; intros u' Hu Hu' Hc Hc' E.
  - destruct u' as [ | a' u' ]; [ split; [ reflexivity | exact E ] | ].
    cbn in E, Hu'. injection E as -> _.
    apply andb_true_iff in Hu'. destruct Hu' as [Ha' _]. congruence.
  - destruct u' as [ | a' u' ].
    + cbn in E, Hu. injection E as -> _.
      apply andb_true_iff in Hu. destruct Hu as [Ha _]. congruence.
    + cbn in E, Hu, Hu'. injection E as -> E.
      apply andb_true_iff in Hu. apply andb_true_iff in Hu'.
      destruct (IH u' (proj2 Hu) (proj2 Hu') Hc Hc' E) as [-> Es].
      split; [ reflexivity | exact Es ].
Qed.

Lemma label_text_injective (a b c a' b' c' : Z) :
  label_text a b c = label_text a' b' c' -> a = a' /\ b = b' /\ c = c'.
Proof.
  unfold label_text, newline. intros E.
  apply (append_cancel_l "X=") in E.
  change ("  Y=" ++ Py.str b ++ String (ascii_of_nat 10) "" ++ "Z=" ++ Py.str c)%string
    with (String " " (" Y=" ++ Py.str b ++ String (ascii_of_nat 10) ""
                      ++ "Z=" ++ Py.str c))%string in E.
  change ("  Y=" ++ Py.str b' ++ String (ascii_of_nat 10) "" ++ "Z=" ++ Py.str c')%string
    with (String " " (" Y=" ++ Py.str b' ++ String (ascii_of_nat 10) ""
                      ++ "Z=" ++ Py.str c'))%string in E.
  apply numeric_prefix_unique in E;
    try apply numeric_str; try reflexivity.
  destruct E as [Ea E]. apply str_injective in Ea.
  apply (append_cancel_l "  Y=") in E.
  change (String (ascii_of_nat 10) "" ++ "Z=" ++ Py.str c)%string
    with (String (ascii_of_nat 10) ("Z=" ++ Py.str c))%string in E.
  change (String (ascii_of_nat 10) "" ++ "Z=" ++ Py.str c')%string
    with (String (ascii_of_nat 10) ("Z=" ++ Py.str c'))%string in E.
  apply numeric_prefix_unique in E;
    try apply numeric_str; try reflexivity.
  destruct E as [Eb E]. apply str_injective in Eb.
  apply (append_cancel_l (String (ascii_of_nat 10) "Z=")) in E.
  apply str_injective in E.
  repeat split; assumption.
Qed.

(** X21. A label names one tile: two labels are the same string only for
    the same [(x, y, z)]; hence in an image of [draw_grid] no two cells carry
    the same label, a label string occurs at one position only. *)
Theorem draw_grid_labels_distinct :
  (forall a b c a' b' c' : Z,
      label_text a b c = label_text a' b' c' -> a = a' /\ b = b' /\ c = c')
  /\ (forall (canvas_error : Z -> Z -> option exn) (lat lon : R) (z grid ts : Z)
             (img : Image) (tx ty tx' ty' : Z) (s : string),
         draw_grid canvas_error lat lon z grid ts = Ok img ->
         In (tx, ty, s) (labels_of img) -> In (tx', ty', s) (labels_of img) ->
         tx = tx' /\ ty = ty').
Proof.
  split; [ exact label_text_injective | ].
  intros canvas_error lat lon z grid ts img tx ty tx' ty' s Hd H1 H2.
  destruct (draw_grid_shape _ _ _ _ _ _ _ Hd)
    as (x_c & y_c & px & py & Hll & _).
  rewrite (labels_of_draw_grid _ _ _ _ _ _ _ _ _ _ _ Hd Hll) in H1, H2.
  apply in_cell_labels in H1. apply in_cell_labels in H2.
  destruct H1 as (gx & gy & _ & _ & -> & -> & ->).
  destruct H2 as (gx' & gy' & _ & _ & -> & -> & E).
  apply label_text_injective in E. destruct E as (Ex & Ey & _).
  assert (gx = gx') by lia. assert (gy = gy') by lia. subst.
  split; reflexivity.
Qed.

Lemma draw_grid_labels_distinct_witness :
  exists img : Image,
    draw_grid (fun _ _ => None) 0 0 0 3 256 = Ok img
    /\ forall tx ty : Z,
        In (tx, ty, label_text 0 0 0) (labels_of img) ->
        tx = 262%Z /\ ty = 262%Z.
Proof.
  destruct (draw_grid_origin_zoom0 (fun _ _ => None) eq_refl)
    as (img & px & py & Hll & Hd).
  exists img. split; [ exact Hd | ].
  intros tx ty Hin.
  refine (proj2 draw_grid_labels_distinct _ _ _ _ _ _ _ _ _ _ _ _ Hd Hin _).
  rewrite (labels_of_draw_grid _ _ _ _ _ _ _ _ _ _ _ Hd Hll).
  apply in_cell_labels. exists 1%Z, 1%Z. repeat split; lia.
Defined.
